(** * SoilNet: feature engineering, evaluation and prediction pipeline

    A shallow embedding of [backend/ml/utils.py], [backend/ml/models.py],
    [backend/ml/server.py] and [backend/ml/main.py].

    Python objects that the code mutates (pandas DataFrames) live in a heap
    and are passed by reference; the process environment (standard output,
    file system, the sequence of calls made to the external regressor) is
    part of the state that every computation threads.  Exceptions and
    [sys.exit] are outcomes of a computation. *)

From Stdlib Require Import ZArith QArith String List Sorted DecimalString.
From stdpp Require Import base gmap strings list.

Local Open Scope string_scope.
Local Open Scope list_scope.

(** ** Cells *)

(** A cell of a table: a missing value (NaN, NaT, None), a finite number, a
    timestamp in nanoseconds since the epoch, or a string. *)
Inductive Cell : Type :=
  | NA
  | Num (q : Q)
  | Time (ns : Z)
  | Str (s : string).

Definition isna (c : Cell) : bool :=
  match c with NA => true | _ => false end.

(** Order used for sorting keys.  Values of one kind are compared by their
    natural order; missing values come last ([na_position='last']).  Columns
    read from a CSV file hold one kind of value; the rank between different
    kinds only makes the order total. *)
Definition kind (c : Cell) : nat :=
  match c with Num _ => 0 | Time _ => 1 | Str _ => 2 | NA => 3 end.

Definition cell_leb (a b : Cell) : bool :=
  match a, b with
  | Num p, Num q => Qle_bool p q
  | Time s, Time t => (s <=? t)%Z
  | Str s, Str t => String.leb s t
  | _, _ => (kind a <=? kind b)%nat
  end.

(** Equality of keys, as used to form groups. *)
Definition cell_eqb (a b : Cell) : bool := cell_leb a b && cell_leb b a.

(** ** Tables *)

(** A row carries its index label and its cells by column name. *)
Record Row : Type := mkRow { label : Z; cells : gmap string Cell }.

(** A column taken out of a table: index labels with their values. *)
Definition Series : Type := list (Z * Cell).

Record DataFrame : Type := mkDF { columns : list string; rows : list Row }.

Definition cell (r : Row) (c : string) : Cell := default NA (cells r !! c).

Definition set_cell (c : string) (v : Cell) (r : Row) : Row :=
  mkRow (label r) (<[c := v]> (cells r)).

(** ** Outcomes and state *)

(** Exceptions, all of them instances of [Exception]; [str(e)] below. *)
Inductive Exn : Type :=
  | KeyError (key : string)
  | ValueError (msg : string)
  | IndexError (msg : string)
  | FileNotFoundError (msg : string)
  | OSError (msg : string)
  | NotFittedError
  | CapabilityError (msg : string).

Definition exn_str (e : Exn) : string :=
  match e with
  | KeyError k => "'" ++ k ++ "'"
  | ValueError m | IndexError m | FileNotFoundError m | OSError m
  | CapabilityError m => m
  | NotFittedError => "This RandomForestRegressor instance is not fitted yet."
  end.

Definition Path : Type := list string.

(** The regressor object: its hyper-parameters and, once fitted, the data
    it was fitted on.  With [random_state] fixed the fitted forest is a
    function of that data. *)
Record Estimator : Type := mkEstimator {
  n_estimators : nat;
  max_depth : nat;
  random_state : nat;
  fitted_on : option (list Row * Series)
}.

Inductive JVal : Type := JNum (q : Q) | JInt (n : Z) | JStr (s : string).

(** A Python dict with string keys, in insertion order. *)
Definition Dict : Type := list (string * JVal).

Inductive File : Type :=
  | FCsv (header : list string) (records : list (gmap string Cell))
  | FPickle (m : Estimator)
  | FJson (d : Dict)
  | FOther.

Inductive Printed : Type :=
  | PJson (d : Dict)
  | PText (msg : string) (args : list JVal).

(** Calls that leave the program. *)
Inductive Event : Type :=
  | EvExists (p : Path)
  | EvReadCsv (p : Path)
  | EvJoblibLoad (p : Path)
  | EvJoblibDump (p : Path)
  | EvOpenWrite (p : Path)
  | EvMakedirs (p : Path)
  | EvFit (samples : nat)
  | EvCrossValFold (train test : list nat)
  | EvPredict (samples : nat).

(** The state of a run: the DataFrame and regressor objects, by address;
    what has been printed; the files and directories there are, and the
    paths that the system refuses to create or write; what
    [datetime.now().isoformat()] gives; the calls made so far. *)
Record World : Type := mkWorld {
  heap : list DataFrame;
  estimators : list Estimator;
  stdout : list Printed;
  files : gmap Path File;
  dirs : gset Path;
  denied : gset Path;
  clock : string;
  trace : list Event
}.

Definition set_heap (h : list DataFrame) (w : World) : World :=
  mkWorld h (estimators w) (stdout w) (files w) (dirs w) (denied w)
          (clock w) (trace w).

Definition set_estimators (es : list Estimator) (w : World) : World :=
  mkWorld (heap w) es (stdout w) (files w) (dirs w) (denied w)
          (clock w) (trace w).

Definition set_stdout (out : list Printed) (w : World) : World :=
  mkWorld (heap w) (estimators w) out (files w) (dirs w) (denied w)
          (clock w) (trace w).

Definition set_files (fs : gmap Path File) (w : World) : World :=
  mkWorld (heap w) (estimators w) (stdout w) fs (dirs w) (denied w)
          (clock w) (trace w).

Definition set_dirs (ds : gset Path) (w : World) : World :=
  mkWorld (heap w) (estimators w) (stdout w) (files w) ds (denied w)
          (clock w) (trace w).

Definition set_trace (t : list Event) (w : World) : World :=
  mkWorld (heap w) (estimators w) (stdout w) (files w) (dirs w) (denied w)
          (clock w) t.

(** A computation returns, raises, or leaves through [sys.exit]; the
    state goes on in every case. *)
Inductive Outcome (A : Type) : Type :=
  | Ret (a : A)
  | Raise (e : Exn)
  | SysExit (code : Z).
Arguments Ret {A} a.
Arguments Raise {A} e.
Arguments SysExit {A} code.

Definition Py (A : Type) : Type := World → Outcome A * World.

Definition ret {A} (a : A) : Py A := λ w, (Ret a, w).

Definition bind {A B} (m : Py A) (k : A → Py B) : Py B :=
  λ w, match m w with
       | (Ret a, w') => k a w'
       | (Raise e, w') => (Raise e, w')
       | (SysExit c, w') => (SysExit c, w')
       end.

Definition raise {A} (e : Exn) : Py A := λ w, (Raise e, w).

Definition sys_exit {A} (c : Z) : Py A := λ w, (SysExit c, w).

(** [try: m  except Exception as e: h e].  [SystemExit] is not an
    [Exception] and passes through. *)
Definition try_except {A} (m : Py A) (h : Exn → Py A) : Py A :=
  λ w, match m w with
       | (Raise e, w') => h e w'
       | r => r
       end.

Global Instance Py_ret : MRet Py := @ret.
Global Instance Py_bind : MBind Py := λ A B k m, bind m k.

Fixpoint for_each {A} (l : list A) (body : A → Py unit) : Py unit :=
  match l with
  | [] => ret tt
  | x :: l' => body x ;; for_each l' body
  end.

Definition get_world : Py World := λ w, (Ret w, w).

Definition print (p : Printed) : Py unit :=
  λ w, (Ret tt, set_stdout (stdout w ++ [p]) w).

Definition emit (e : Event) : Py unit :=
  λ w, (Ret tt, set_trace (trace w ++ [e]) w).

(** ** DataFrame objects in the heap *)

Definition empty_df : DataFrame := mkDF [] [].

Definition deref (w : World) (l : nat) : DataFrame :=
  default empty_df (heap w !! l).

Definition new_df (d : DataFrame) : Py nat :=
  λ w, (Ret (length (heap w)), set_heap (heap w ++ [d]) w).

Definition read_df (l : nat) : Py DataFrame := λ w, (Ret (deref w l), w).

Definition write_df (l : nat) (d : DataFrame) : Py unit :=
  λ w, (Ret tt, set_heap (<[l := d]> (heap w)) w).

(** ** The pandas operations the code uses *)

Definition has_column (c : string) (d : DataFrame) : bool :=
  bool_decide (c ∈ columns d).

(** [df.columns] *)
Definition df_columns (l : nat) : Py (list string) :=
  d ← read_df l; ret (columns d).

(** [len(df)] *)
Definition df_len (l : nat) : Py nat :=
  d ← read_df l; ret (length (rows d)).

(** [df[c]] for one column name. *)
Definition column_of (c : string) (d : DataFrame) : Series :=
  map (λ r, (label r, cell r c)) (rows d).

Definition df_getitem (l : nat) (c : string) : Py Series :=
  d ← read_df l;
  if has_column c d then ret (column_of c d) else raise (KeyError c).

(** Adding a column: an existing column keeps its place, a new one goes
    last. *)
Definition add_column (c : string) (cols : list string) : list string :=
  if bool_decide (c ∈ cols) then cols else cols ++ [c].

(** [df[c] = s] where [s] was computed from [df] itself, so that its index
    is the index of [df]: values are assigned row by row. *)
Fixpoint assign (c : string) (rs : list Row) (vs : list Cell) : list Row :=
  match rs, vs with
  | r :: rs', v :: vs' => set_cell c v r :: assign c rs' vs'
  | _, _ => rs
  end.

Definition df_setitem (l : nat) (c : string) (s : Series) : Py unit :=
  d ← read_df l;
  write_df l (mkDF (add_column c (columns d)) (assign c (rows d) (map snd s))).

(** [df[c] = v] for a scalar [v]. *)
Definition df_setitem_scalar (l : nat) (c : string) (v : Cell) : Py unit :=
  d ← read_df l;
  write_df l (mkDF (add_column c (columns d)) (map (set_cell c v) (rows d))).

(** [df[cs]] for a list of column names: a new table with these columns in
    the order asked for. *)
Definition select_row (cs : list string) (r : Row) : Row :=
  mkRow (label r) (filter (λ kv, kv.1 ∈ cs) (cells r)).

Definition df_select (l : nat) (cs : list string) : Py nat :=
  d ← read_df l;
  match List.find (λ c, negb (has_column c d)) cs with
  | Some c => raise (KeyError c)
  | None => new_df (mkDF cs (map (select_row cs) (rows d)))
  end.

(** [df.dropna(subset=cs)]: a new table without the rows that miss a value
    in one of the columns [cs]. *)
Definition complete_in (cs : list string) (r : Row) : bool :=
  forallb (λ c, negb (isna (cell r c))) cs.

Definition df_dropna (l : nat) (cs : list string) : Py nat :=
  d ← read_df l;
  match List.find (λ c, negb (has_column c d)) cs with
  | Some c => raise (KeyError c)
  | None => new_df (mkDF (columns d) (filter (complete_in cs) (rows d)))
  end.

(** [df.sort_values(by=cs)]: a new table, rows in ascending order of the
    key columns taken in turn, rows with equal keys in their former order,
    missing keys last. *)
Fixpoint key_leb (cs : list string) (r1 r2 : Row) : bool :=
  match cs with
  | [] => true
  | c :: cs' =>
      if cell_leb (cell r1 c) (cell r2 c)
      then (if cell_leb (cell r2 c) (cell r1 c) then key_leb cs' r1 r2 else true)
      else false
  end.

Definition key_le (cs : list string) (r1 r2 : Row) : Prop := key_leb cs r1 r2.

(** A stable sort: each row goes in front of the first row that is not
    before it. *)
Fixpoint insert_row (cs : list string) (r : Row) (rs : list Row) : list Row :=
  match rs with
  | [] => [r]
  | x :: rs' => if key_leb cs r x then r :: rs else x :: insert_row cs r rs'
  end.

Definition sort_rows (cs : list string) (rs : list Row) : list Row :=
  fold_right (insert_row cs) [] rs.

Definition df_sort_values (l : nat) (cs : list string) : Py nat :=
  d ← read_df l;
  match List.find (λ c, negb (has_column c d)) cs with
  | Some c => raise (KeyError c)
  | None => new_df (mkDF (columns d) (sort_rows cs (rows d)))
  end.

(** [df.groupby(k)[c].shift(-1)]: every row receives the value of column
    [c] in the next row of the same group, the last row of a group receives
    a missing value.  Rows whose key is missing belong to no group. *)
Fixpoint next_in_group (k c : string) (key : Cell) (rs : list Row) : Cell :=
  match rs with
  | [] => NA
  | r :: rs' =>
      if cell_eqb (cell r k) key then cell r c else next_in_group k c key rs'
  end.

Fixpoint shift_up (k c : string) (rs : list Row) : Series :=
  match rs with
  | [] => []
  | r :: rs' =>
      (label r,
       if isna (cell r k) then NA else next_in_group k c (cell r k) rs')
      :: shift_up k c rs'
  end.

Definition df_groupby_shift (l : nat) (k c : string) : Py Series :=
  d ← read_df l;
  if negb (has_column k d) then raise (KeyError k)
  else if negb (has_column c d) then raise (KeyError c)
  else ret (shift_up k c (rows d)).

(** [series.dt.hour] and [series.dt.dayofweek] (Monday is 0; the epoch was
    a Thursday). *)
Definition hour_of (c : Cell) : Cell :=
  match c with
  | Time ns => Num (inject_Z ((ns / 3600000000000) mod 24))
  | _ => NA
  end.

Definition dayofweek_of (c : Cell) : Cell :=
  match c with
  | Time ns => Num (inject_Z ((ns / 86400000000000 + 3) mod 7))
  | _ => NA
  end.

Definition dt_hour (s : Series) : Series := map (λ p, (p.1, hour_of p.2)) s.

Definition dt_dayofweek (s : Series) : Series :=
  map (λ p, (p.1, dayofweek_of p.2)) s.

(** ** The file system *)

(** [os.path.dirname]: a path is the list of its components. *)
Definition dirname (p : Path) : Path := removelast p.

(** [os.path.exists] *)
Definition path_exists (p : Path) : Py bool :=
  emit (EvExists p);;
  w ← get_world;
  mret (bool_decide (p ≠ [] ∧ (p ∈ dirs w ∨ p ∈ dom (files w)))).

(** Every non-empty prefix of a path. *)
Definition prefixes (p : Path) : list Path :=
  map (λ n, take n p) (seq 1 (length p)).

(** [os.makedirs(p, exist_ok=True)] *)
Definition os_makedirs (p : Path) : Py unit :=
  emit (EvMakedirs p);;
  w ← get_world;
  if bool_decide (p = []) then raise (FileNotFoundError "No such file or directory: ''")
  else if bool_decide (Exists (λ q, q ∈ denied w ∨ q ∈ dom (files w)) (prefixes p))
  then raise (OSError "cannot create directory")
  else λ w, (Ret tt, set_dirs (dirs w ∪ list_to_set (prefixes p)) w).

(** Creating or truncating the file at [p] and writing [f] to it. *)
Definition write_file (p : Path) (f : File) : Py unit :=
  w ← get_world;
  if bool_decide (p ∈ denied w ∨ p ∈ dirs w
                  ∨ (dirname p ≠ [] ∧ dirname p ∉ dirs w))
  then raise (OSError "cannot open file for writing")
  else λ w, (Ret tt, set_files (<[p := f]> (files w)) w).

(** Estimator objects, by reference. *)
Definition default_estimator : Estimator := mkEstimator 100 10 42 None.

Definition read_estimator (m : nat) : Py Estimator :=
  λ w, (Ret (default default_estimator (estimators w !! m)), w).

Definition new_estimator (e : Estimator) : Py nat :=
  λ w, (Ret (length (estimators w)), set_estimators (estimators w ++ [e]) w).

Definition write_estimator (m : nat) (e : Estimator) : Py unit :=
  λ w, (Ret tt, set_estimators (<[m := e]> (estimators w)) w).

(** [joblib.dump(model, p)] and [joblib.load(p)] *)
Definition joblib_dump (m : nat) (p : Path) : Py unit :=
  emit (EvJoblibDump p);;
  e ← read_estimator m;
  write_file p (FPickle e).

Definition joblib_load (p : Path) : Py nat :=
  emit (EvJoblibLoad p);;
  w ← get_world;
  match files w !! p with
  | Some (FPickle e) => new_estimator e
  | _ => raise (ValueError "could not unpickle the file")
  end.

(** [pd.read_csv(p)]: a new table indexed 0, 1, 2, ... *)
Definition pd_read_csv (p : Path) : Py nat :=
  emit (EvReadCsv p);;
  w ← get_world;
  match files w !! p with
  | Some (FCsv header records) =>
      new_df (mkDF header (imap (λ i cs, mkRow (Z.of_nat i) cs) records))
  | _ => raise (ValueError "Error tokenizing data")
  end.

(** * What the program takes from outside

    - [parse_datetime]: how [pd.to_datetime] reads a string or a number as
      a timestamp ([None]: it cannot);
    - [py_float], [py_int]: the number that [float()] and [int()] read from
      a token ([None]: [ValueError]);
    - [rf_fit_error model X y]: the error, if any, that fitting the forest
      [model] on [(X, y)] raises;
    - [rf_predict model X]: what the fitted forest [model] predicts for the
      rows [X];
    - [fold_neg_mse model Xtrain ytrain Xtest ytest]: the
      [neg_mean_squared_error] score of one split of [cross_val_score] (a
      clone of [model] fitted on the training part and scored on the
      held-out part);
    - [rng_permutation seed n]: the order in which the generator seeded
      with [seed] shuffles [0 .. n-1];
    - [sqrt]: [np.sqrt];
    - [BASE_DIR]: the directory of the module. *)
Class Externals : Type := {
  parse_datetime : Cell → option Z;
  py_float : string → option Q;
  py_int : string → option Z;
  rf_fit_error : Estimator → list Row → Series → option Exn;
  rf_predict : Estimator → list Row → Exn + list Q;
  fold_neg_mse : Estimator → list Row → Series → list Row → Series → Exn + Q;
  rng_permutation : nat → nat → list nat;
  sqrt : Q → Q;
  BASE_DIR : Path
}.

Section Program.

Context `{Externals}.

(** * utils.py *)

Definition load_dataset (filepath : Path) : Py nat :=
  ex ← path_exists filepath;
  if negb ex
  then raise (FileNotFoundError "El archivo de datos no se encontró")
  else pd_read_csv filepath.

(** [pd.to_datetime(series)]: timestamps stay, missing values stay missing,
    anything else is parsed; one value that cannot be parsed fails the
    whole conversion. *)
Definition to_datetime_cell (c : Cell) : option Cell :=
  match c with
  | NA => Some NA
  | Time ns => Some (Time ns)
  | _ => Time <$> parse_datetime c
  end.

Definition pd_to_datetime (s : Series) : Py Series :=
  match mapM (λ p, pair p.1 <$> to_datetime_cell p.2) s with
  | Some s' => ret s'
  | None => raise (ValueError "Unknown datetime string format")
  end.

Definition features : list string :=
  ["humidity_percent"; "raw_value"; "rssi"; "voltage"; "sampling_interval";
   "hour"; "day_of_week"].

(** What [preprocess_data] returns: the pair [(X, y)] when training, the
    table of features otherwise. *)
Inductive Built : Type :=
  | Training (X : nat) (y : Series)
  | Inference (X : nat).

Definition preprocess_data (df : nat) (is_training : bool) : Py Built :=
  cols ← df_columns df;
  (if bool_decide ("createdAt" ∈ cols) then
     s ← df_getitem df "createdAt";
     s' ← pd_to_datetime s;
     df_setitem df "createdAt" s';;
     s1 ← df_getitem df "createdAt";
     df_setitem df "hour" (dt_hour s1);;
     s2 ← df_getitem df "createdAt";
     df_setitem df "day_of_week" (dt_dayofweek s2)
   else ret tt);;
  for_each features (λ col,
    cols ← df_columns df;
    if bool_decide (col ∈ cols) then ret tt
    else df_setitem_scalar df col (Num 0));;
  if is_training then
    df ← df_sort_values df ["node_id"; "createdAt"];
    future ← df_groupby_shift df "node_id" "humidity_percent";
    df_setitem df "humidity_future" future;;
    df ← df_dropna df ["humidity_future"];
    X ← df_select df features;
    y ← df_getitem df "humidity_future";
    ret (Training X y)
  else
    X ← df_select df features;
    ret (Inference X).

Definition save_model (model : nat) (filepath : Path) : Py unit :=
  let directory := dirname filepath in
  ex ← path_exists directory;
  (if negb ex then os_makedirs directory else mret tt);;
  joblib_dump model filepath;;
  print (PText "Modelo guardado en: {}" []).

Definition load_model (filepath : Path) : Py nat :=
  ex ← path_exists filepath;
  if negb ex
  then raise (FileNotFoundError "No se encontró el modelo")
  else joblib_load filepath.

Definition save_metrics (metrics : Dict) (filepath : Path) : Py unit :=
  let directory := dirname filepath in
  (if bool_decide (directory ≠ []) then
     ex ← path_exists directory;
     if negb ex then os_makedirs directory else mret tt
   else mret tt);;
  emit (EvOpenWrite filepath);;
  write_file filepath (FJson metrics);;
  print (PText "Métricas guardadas en: {}" []).

(** * models.py *)

(** [KFold(n_splits=k, shuffle=True, random_state=seed)] *)
Record KFoldT : Type := mkKFold { n_splits : Z; kf_seed : nat }.

Definition KFold (k : Z) (seed : nat) : Py KFoldT :=
  if (k <=? 1)%Z
  then raise (ValueError "k-fold cross-validation requires at least one train/test split by setting n_splits=2 or more")
  else mret (mkKFold k seed).

(** The sizes of the folds: [n // k] each, one more for the first
    [n % k]. *)
Definition fold_sizes (k n : nat) : list nat :=
  map (λ i, (n / k + (if i <? n mod k then 1 else 0))%nat) (seq 0 k).

Fixpoint chunks (sizes : list nat) (l : list nat) : list (list nat) :=
  match sizes with
  | [] => []
  | s :: sizes' => take s l :: chunks sizes' (drop s l)
  end.

(** [kf.split(X)] for [n] samples: the shuffled indices are cut into
    consecutive folds; each fold is held out once. *)
Definition kfold_split (kf : KFoldT) (n : nat) : Py (list (list nat * list nat)) :=
  if (Z.of_nat n <? n_splits kf)%Z
  then raise (ValueError "Cannot have number of splits greater than the number of samples")
  else
    let indices := rng_permutation (kf_seed kf) n in
    mret (map (λ test,
                 (filter (λ i, i ∉ test) (seq 0 n),
                  filter (λ i, i ∈ test) (seq 0 n)))
              (chunks (fold_sizes (Z.to_nat (n_splits kf)) n) indices)).

Definition take_at {A} (idx : list nat) (l : list A) : list A :=
  omap (λ i, l !! i) idx.

Fixpoint py_map {A B} (f : A → Py B) (l : list A) : Py (list B) :=
  match l with
  | [] => mret []
  | x :: l' => b ← f x; bs ← py_map f l'; mret (b :: bs)
  end.

(** [cross_val_score(model, X, y, cv=kf, scoring='neg_mean_squared_error')]:
    one score per split; a split on which the regressor fails fails the
    call. *)
Definition cross_val_score
    (model : nat) (X : nat) (y : Series) (kf : KFoldT) : Py (list Q) :=
  d ← read_df X;
  e ← read_estimator model;
  splits ← kfold_split kf (length (rows d));
  py_map (λ '(train, test),
            emit (EvCrossValFold train test);;
            match fold_neg_mse e (take_at train (rows d)) (take_at train y)
                                 (take_at test (rows d)) (take_at test y) with
            | inl e => raise e
            | inr score => mret score
            end) splits.

Definition np_mean (xs : list Q) : Q :=
  (fold_right Qplus 0 xs / inject_Z (Z.of_nat (length xs)))%Q.

Definition np_std (xs : list Q) : Q :=
  let m := np_mean xs in
  sqrt (np_mean (map (λ x, ((x - m) * (x - m))%Q) xs)).

(** [SoilHumidityRegressor()]: the object is known by its [model]
    attribute. *)
Definition SoilHumidityRegressor_init : Py nat :=
  new_estimator (mkEstimator 100 10 42 None).

(** [model.fit(X, y)] *)
Definition estimator_fit (m : nat) (X : nat) (y : Series) : Py unit :=
  d ← read_df X;
  e ← read_estimator m;
  emit (EvFit (length (rows d)));;
  match rf_fit_error e (rows d) y with
  | Some err => raise err
  | None =>
      write_estimator m (mkEstimator (n_estimators e) (max_depth e)
                                     (random_state e) (Some (rows d, y)))
  end.

(** [model.predict(X)] *)
Definition estimator_predict (m : nat) (X : nat) : Py (list Q) :=
  d ← read_df X;
  e ← read_estimator m;
  emit (EvPredict (length (rows d)));;
  match fitted_on e with
  | None => raise NotFittedError
  | Some _ =>
      match rf_predict e (rows d) with
      | inl err => raise err
      | inr ys => mret ys
      end
  end.

Definition SoilHumidityRegressor_train (self : nat) (X : nat) (y : Series) : Py unit :=
  estimator_fit self X y.

Definition degenerate_metrics : Dict :=
  [("rmse_mean", JNum 0); ("rmse_std", JNum 0)].

Definition SoilHumidityRegressor_evaluate
    (self : nat) (X : nat) (y : Series) (k_folds : Z) : Py Dict :=
  let cross_validate (k_folds : Z) : Py Dict :=
    kf ← KFold k_folds 42;
    neg_mse_scores ← cross_val_score self X y kf;
    let rmse_scores := map (λ s, sqrt (- s)%Q) neg_mse_scores in
    mret [("rmse_mean", JNum (np_mean rmse_scores));
          ("rmse_std", JNum (np_std rmse_scores))] in
  n ← df_len X;
  if (Z.of_nat n <? k_folds)%Z then
    let k_folds := Z.of_nat n in
    if (k_folds <? 2)%Z then mret degenerate_metrics
    else cross_validate k_folds
  else cross_validate k_folds.

Definition SoilHumidityRegressor_predict (self : nat) (X : nat) : Py (list Q) :=
  estimator_predict self X.

(** * server.py *)

Definition MODEL_PATH : Path := BASE_DIR ++ ["models"; "humidity_regressor.pkl"].

(** [sys.argv[i]] *)
Definition argv_at (argv : list string) (i : nat) : Py string :=
  match argv !! i with
  | Some a => mret a
  | None => raise (IndexError "list index out of range")
  end.

(** [float(s)] and [int(s)] *)
Definition float_of (s : string) : Py Cell :=
  match py_float s with
  | Some q => mret (Num q)
  | None => raise (ValueError "could not convert string to float")
  end.

Definition int_of (s : string) : Py Cell :=
  match py_int s with
  | Some n => mret (Num (inject_Z n))
  | None => raise (ValueError "invalid literal for int() with base 10")
  end.

(** [pd.DataFrame([d])]: one row, labelled 0, columns in the order of the
    keys. *)
Definition pd_DataFrame (d : list (string * Cell)) : Py nat :=
  new_df (mkDF (map fst d) [mkRow 0 (list_to_map d)]).

Definition predict (argv : list string) : Py unit :=
  (if (length argv <? 8)%nat then
     let error_msg :=
       [("error", JStr "Argumentos insuficientes. Se requieren 7 variables.")] in
     print (PJson error_msg);;
     sys_exit 1
   else mret tt);;
  try_except
    (a1 ← argv_at argv 1; humidity_percent ← float_of a1;
     a2 ← argv_at argv 2; raw_value ← float_of a2;
     a3 ← argv_at argv 3; rssi ← float_of a3;
     a4 ← argv_at argv 4; voltage ← float_of a4;
     a5 ← argv_at argv 5; sampling_interval ← int_of a5;
     a6 ← argv_at argv 6; hour ← int_of a6;
     a7 ← argv_at argv 7; day_of_week ← int_of a7;
     let input_dict :=
       [("humidity_percent", humidity_percent); ("raw_value", raw_value);
        ("rssi", rssi); ("voltage", voltage);
        ("sampling_interval", sampling_interval); ("hour", hour);
        ("day_of_week", day_of_week)] in
     input_df ← pd_DataFrame input_dict;
     built ← preprocess_data input_df false;
     let X_new := match built with Inference X => X | Training X _ => X end in
     model ← load_model MODEL_PATH;
     prediction ← estimator_predict model X_new;
     p0 ← match prediction with
          | p :: _ => mret p
          | [] => raise (IndexError "index 0 is out of bounds")
          end;
     let result :=
       [("humidity_future_prediction", JNum p0); ("status", JStr "success")] in
     print (PJson result))
    (λ e,
     print (PJson [("error", JStr (exn_str e)); ("status", JStr "failed")]);;
     sys_exit 1).

(** * main.py *)

Definition DATA_PATH : Path := BASE_DIR ++ ["in"; "soil_readings.csv"].
Definition METRICS_PATH : Path := BASE_DIR ++ ["out"; "metrics.json"].

(** [d[k] = v] on a dict. *)
Fixpoint dict_set (k : string) (v : JVal) (d : Dict) : Dict :=
  match d with
  | [] => [(k, v)]
  | (k', v') :: d' =>
      if bool_decide (k' = k) then (k, v) :: d' else (k', v') :: dict_set k v d'
  end.

Definition dict_get (k : string) (d : Dict) : list JVal :=
  match List.find (λ kv, bool_decide (kv.1 = k)) d with
  | Some kv => [kv.2]
  | None => []
  end.

Definition path_str (p : Path) : string := String.concat "/" p.

Definition main : Py unit :=
  print (PText "--- [ML] Iniciando Pipeline de Entrenamiento de SoilNet ---" []);;
  (* 1. *)
  df ← try_except
         (print (PText "[1/5] Cargando dataset desde: {}" [JStr (path_str DATA_PATH)]);;
          df ← load_dataset DATA_PATH;
          n ← df_len df;
          print (PText "-> Dataset cargado con {} registros." [JInt (Z.of_nat n)]);;
          mret df)
         (λ e,
          print (PText "Error crítico al cargar los datos: {}" [JStr (exn_str e)]);;
          sys_exit 1);
  (* 2. *)
  print (PText "[2/5] Preprocesando datos y generando variables..." []);;
  built ← preprocess_data df true;
  let '(X, y) := match built with
                 | Training X y => (X, y)
                 | Inference X => (X, [])
                 end in
  n ← df_len X;
  print (PText "-> Datos procesados: {} muestras listas para el entrenamiento."
               [JInt (Z.of_nat n)]);;
  (* 3. *)
  print (PText "[3/5] Inicializando el modelo de regresión..." []);;
  regressor ← SoilHumidityRegressor_init;
  (* 4. *)
  print (PText "[4/5] Evaluando el rendimiento del modelo con Cross-Validation..." []);;
  metrics ← SoilHumidityRegressor_evaluate regressor X y 5;
  print (PText "-> Resultados de validación: RMSE Promedio = {:.4f} (+/- {:.4f})"
               (dict_get "rmse_mean" metrics ++ dict_get "rmse_std" metrics));;
  w ← get_world;
  let metrics := dict_set "training_timestamp" (JStr (clock w)) metrics in
  n ← df_len X;
  let metrics := dict_set "training_samples" (JInt (Z.of_nat n)) metrics in
  let metrics := dict_set "model_path" (JStr (path_str MODEL_PATH)) metrics in
  let metrics := dict_set "data_path" (JStr (path_str DATA_PATH)) metrics in
  (* 5. *)
  print (PText "[5/5] Entrenando modelo final con el conjunto de datos completo..." []);;
  SoilHumidityRegressor_train regressor X y;;
  (* 6. *)
  print (PText "--- Guardando artefactos del entrenamiento ---" []);;
  save_model regressor MODEL_PATH;;
  save_metrics metrics METRICS_PATH;;
  print (PText "--- Pipeline de entrenamiento completado exitosamente ---" []).

End Program.

(** The exit status of the process that runs a script. *)
Definition exit_status {A} (o : Outcome A) : Z :=
  match o with
  | Ret _ => 0
  | Raise _ => 1
  | SysExit code => code
  end.

(** * A concrete environment

    Timestamps are given as whole numbers of nanoseconds; tokens are read
    as decimal integers; the forest cannot be fitted on no rows nor scored
    on none, predicts 50 for every row and scores every other split with a
    mean squared error of 4; shuffling keeps the order; the square root is
    taken on integers. *)
Definition decimal (s : string) : option Z :=
  Z.of_int <$> NilEmpty.int_of_string s.

Definition sample_externals : Externals := {|
  parse_datetime c :=
    match c with
    | Num q => if (Qden q =? 1)%positive then Some (Qnum q) else None
    | Str s => decimal s
    | _ => None
    end;
  py_float s := inject_Z <$> decimal s;
  py_int := decimal;
  rf_fit_error model X y :=
    match X with
    | [] => Some (ValueError "Found array with 0 sample(s)")
    | _ => None
    end;
  rf_predict model X := inr (map (λ _, 50%Q) X);
  fold_neg_mse model Xtrain ytrain Xtest ytest :=
    match Xtrain, Xtest with
    | [], _ | _, [] => inl (ValueError "Found array with 0 sample(s)")
    | _, _ => inr (- 4)%Q
    end;
  rng_permutation seed n := seq 0 n;
  sqrt q := inject_Z (Z.sqrt (Qnum q / Zpos (Qden q)));
  BASE_DIR := ["srv"; "ml"]
|}.

Definition reading (node : string) (created : Z) (humidity : Z) : gmap string Cell :=
  list_to_map [("node_id", Str node); ("createdAt", Num (inject_Z created));
               ("humidity_percent", Num (inject_Z humidity));
               ("raw_value", Num 512); ("rssi", Num (-70));
               ("voltage", Num 3); ("sampling_interval", Num 60)].

Definition sample_header : list string :=
  ["node_id"; "createdAt"; "humidity_percent"; "raw_value"; "rssi"; "voltage";
   "sampling_interval"].

(** Six readings of three nodes, interleaved and out of order. *)
Definition sample_records : list (gmap string Cell) :=
  [reading "b" 5 10; reading "a" 7 20; reading "b" 3 30; reading "a" 2 40;
   reading "a" 9 50; reading "c" 1 60].

Definition empty_world : World := mkWorld [] [] [] ∅ ∅ ∅ "2024-01-01T00:00:00" [].

Definition sample_table : DataFrame :=
  mkDF sample_header (imap (λ i cs, mkRow (Z.of_nat i) cs) sample_records).

Definition table_world (d : DataFrame) : World := set_heap [d] empty_world.

(** * Properties *)

Section Properties.

Context `{Externals}.

(** ** Computations that neither print nor exit *)

Definition silent {A} (m : Py A) : Prop :=
  ∀ w, stdout (m w).2 = stdout w ∧ ∀ c, (m w).1 ≠ SysExit c.

Lemma silent_ret {A} (a : A) : silent (mret a).
Proof. intros w. split; [reflexivity | discriminate]. Qed.

Lemma silent_raise {A} (e : Exn) : silent (@raise A e).
Proof. intros w. split; [reflexivity | discriminate]. Qed.

Lemma silent_bind {A B} (m : Py A) (k : A → Py B) :
  silent m → (∀ a, silent (k a)) → silent (m ≫= k).
Proof.
  intros Hm Hk w. unfold mbind, Py_bind, bind.
  destruct (Hm w) as [Hout Hexit]. destruct (m w) as [[a | e | c] w1]; simpl in *.
  - destruct (Hk a w1) as [Hout' Hexit']. split; [congruence | exact Hexit'].
  - split; [exact Hout | discriminate].
  - exfalso. exact (Hexit c eq_refl).
Qed.

Lemma silent_state {A} (f : World → A) (g : World → World) :
  (∀ w, stdout (g w) = stdout w) → silent (λ w, (Ret (f w), g w)).
Proof. intros Hg w. split; [apply Hg | discriminate]. Qed.

Lemma silent_emit e : silent (emit e).
Proof. apply (silent_state (λ _, tt)). reflexivity. Qed.

Lemma silent_get_world : silent get_world.
Proof. apply (silent_state (λ w, w) (λ w, w)). reflexivity. Qed.

Lemma silent_read_df l : silent (read_df l).
Proof. apply (silent_state (λ w, deref w l) (λ w, w)). reflexivity. Qed.

Lemma silent_write_df l d : silent (write_df l d).
Proof. apply (silent_state (λ _, tt)). reflexivity. Qed.

Lemma silent_new_df d : silent (new_df d).
Proof. apply (silent_state (λ w, length (heap w))). reflexivity. Qed.

Lemma silent_read_estimator m : silent (read_estimator m).
Proof.
  apply (silent_state (λ w, default default_estimator (estimators w !! m)) (λ w, w)).
  reflexivity.
Qed.

Lemma silent_new_estimator e : silent (new_estimator e).
Proof. apply (silent_state (λ w, length (estimators w))). reflexivity. Qed.

Lemma silent_for_each {A} (l : list A) (body : A → Py unit) :
  (∀ a, silent (body a)) → silent (for_each l body).
Proof.
  intros Hb. induction l as [| a l IH]; simpl.
  - apply silent_ret.
  - apply silent_bind; [apply Hb | intros _; exact IH].
Qed.

Create HintDb silent discriminated.
#[local] Hint Resolve silent_ret silent_raise silent_emit silent_get_world
  silent_read_df silent_write_df silent_new_df silent_read_estimator
  silent_new_estimator : silent.

(** Goes through a computation built from binds, conditionals and
    matches. *)
Ltac silent_step :=
  match goal with
  | |- silent (_ ≫= _) => apply silent_bind; [| intros ?]
  | |- silent (for_each _ _) => apply silent_for_each; intros ?
  | |- silent (if ?b then _ else _) => destruct b
  | |- silent (match ?x with _ => _ end) => destruct x
  | |- silent _ => solve [auto with silent]
  end.

Ltac silent_tac := repeat silent_step.

Lemma silent_preprocess_data df is_training :
  silent (preprocess_data df is_training).
Proof.
  unfold preprocess_data, df_columns, df_getitem, pd_to_datetime, df_setitem,
    df_setitem_scalar, df_sort_values, df_groupby_shift, df_dropna, df_select.
  silent_tac.
Qed.

Lemma silent_load_model p : silent (load_model p).
Proof. unfold load_model, path_exists, joblib_load. silent_tac. Qed.

Lemma silent_estimator_predict m X : silent (estimator_predict m X).
Proof. unfold estimator_predict. silent_tac. Qed.

(** ** server.py *)

Definition too_few_arguments : Dict :=
  [("error", JStr "Argumentos insuficientes. Se requieren 7 variables.")].

(** The body of the [try] block of [predict] either prints one success
    object and returns, or raises having printed nothing. *)
Definition success_object (d : Dict) : Prop :=
  ∃ p, d = [("humidity_future_prediction", JNum p); ("status", JStr "success")].

Definition error_object (d : Dict) : Prop :=
  ∃ msg rest, d = ("error", JStr msg) :: rest.

Definition prints_once (m : Py unit) : Prop :=
  ∀ w, (∃ d w', m w = (Ret tt, w') ∧ stdout w' = stdout w ++ [PJson d]
                ∧ success_object d)
       ∨ (∃ e w', m w = (Raise e, w') ∧ stdout w' = stdout w).

Lemma prints_once_bind {A} (m : Py A) (k : A → Py unit) :
  silent m → (∀ a, prints_once (k a)) → prints_once (m ≫= k).
Proof.
  intros Hm Hk w. unfold mbind, Py_bind, bind.
  destruct (Hm w) as [Hout Hexit]. destruct (m w) as [[a | e | c] w1]; simpl in *.
  - destruct (Hk a w1) as [(d & w' & Hrun & Hprint & Hd) | (e & w' & Hrun & Hprint)].
    + left. exists d, w'. rewrite Hprint, Hout. auto.
    + right. exists e, w'. rewrite Hprint, Hout. auto.
  - right. exists e, w1. auto.
  - exfalso. exact (Hexit c eq_refl).
Qed.

Lemma prints_once_print p :
  prints_once (print (PJson [("humidity_future_prediction", JNum p);
                             ("status", JStr "success")])).
Proof. intros w. left. eexists _, _. repeat split. exists p. reflexivity. Qed.

Lemma silent_argv_at argv i : silent (argv_at argv i).
Proof. unfold argv_at. silent_tac. Qed.

Lemma silent_float_of s : silent (float_of s).
Proof. unfold float_of. silent_tac. Qed.

Lemma silent_int_of s : silent (int_of s).
Proof. unfold int_of. silent_tac. Qed.

Lemma silent_pd_DataFrame d : silent (pd_DataFrame d).
Proof. unfold pd_DataFrame. silent_tac. Qed.

#[local] Hint Resolve silent_argv_at silent_float_of silent_int_of
  silent_pd_DataFrame silent_preprocess_data silent_load_model
  silent_estimator_predict : silent.

(** C6. Predictor argument validation: when fewer than 7 values follow the
    script name, [predict] prints the error object, exits with status 1,
    and does nothing else: no file is looked up, no model is loaded, no
    prediction is asked for. *)
Theorem predict_argument_validation (script : string) (args : list string) (w : World) :
  (length args < 7)%nat →
  predict (script :: args) w
  = (SysExit 1, set_stdout (stdout w ++ [PJson too_few_arguments]) w).
Proof.
  intros Hlen. unfold predict.
  assert ((length (script :: args) <? 8)%nat = true) as ->
    by (apply Nat.ltb_lt; simpl; lia).
  reflexivity.
Qed.

(** Every invocation writes exactly one object to standard output; either
    the run returns (exit status 0) and the object is the success object,
    or it exits with status 1 and the object is an error object.  No
    exception leaves [predict]. *)
Lemma predict_one_object (argv : list string) (w : World) :
  ∃ d w', stdout w' = stdout w ++ [PJson d]
    ∧ ((predict argv w = (Ret tt, w') ∧ success_object d)
       ∨ (predict argv w = (SysExit 1, w') ∧ error_object d))
    ∧ (exit_status (predict argv w).1 = 0%Z ↔ success_object d)
    ∧ (exit_status (predict argv w).1 ≠ 0%Z ↔ error_object d).
Proof.
  assert (∀ d, success_object d → error_object d → False) as Hexcl.
  { intros d [p ->] (msg & rest & Heq). discriminate. }
  cut (∃ d w', stdout w' = stdout w ++ [PJson d]
         ∧ ((predict argv w = (Ret tt, w') ∧ success_object d)
            ∨ (predict argv w = (SysExit 1, w') ∧ error_object d))).
  { intros (d & w' & Hout & Hcases). exists d, w'.
    split; [exact Hout |]. split; [exact Hcases |].
    destruct Hcases as [[-> Hd] | [-> Hd]]; simpl; split; split;
      try done; intros; exfalso; eauto. }
  unfold predict. destruct (length argv <? 8)%nat eqn:Hlen.
  - eexists _, _. split; [| right; split; [reflexivity |]].
    + reflexivity.
    + eexists _, _. reflexivity.
  - match goal with
    | |- context [try_except ?b ?h] => set (body := b); set (handler := h)
    end.
    assert (prints_once body) as Hbody.
    { subst body.
      repeat (apply prints_once_bind; [solve [silent_tac] | intros ?]).
      apply prints_once_print. }
    change ((mret tt ≫= λ _, try_except body handler) w)
      with (try_except body handler w).
    unfold try_except.
    destruct (Hbody w) as [(d & w' & -> & Hprint & Hd) | (e & w' & -> & Hprint)].
    + exists d, w'. auto.
    + subst handler. eexists _, _. split; [| right; split; [reflexivity |]].
      * simpl. rewrite Hprint. reflexivity.
      * eexists _, _. reflexivity.
Qed.

(** ** Running a computation step by step *)

Lemma bind_run {A B} (m : Py A) (k : A → Py B) w a w' :
  m w = (Ret a, w') → (m ≫= k) w = k a w'.
Proof. intros Hm. unfold mbind, Py_bind, bind. rewrite Hm. reflexivity. Qed.

Lemma bind_raise {A B} (m : Py A) (k : A → Py B) w e w' :
  m w = (Raise e, w') → (m ≫= k) w = (Raise e, w').
Proof. intros Hm. unfold mbind, Py_bind, bind. rewrite Hm. reflexivity. Qed.

Lemma Ret_inv {A} (a b : A) (w w' : World) :
  (Ret a, w) = (Ret b, w') → a = b ∧ w = w'.
Proof. intros Heq. inversion Heq. auto. Qed.

Lemma df_len_run X w : df_len X w = (Ret (length (rows (deref w X))), w).
Proof. reflexivity. Qed.

(** ** models.py *)

Lemma length_chunks sizes l : length (chunks sizes l) = length sizes.
Proof. revert l. induction sizes as [| s sizes IH]; intros l; simpl; auto. Qed.

Lemma length_fold_sizes k n : length (fold_sizes k n) = k.
Proof. unfold fold_sizes. rewrite length_map, length_seq. reflexivity. Qed.

(** [KFold(n_splits=k)] with [2 <= k <= n] cuts [n] samples into exactly
    [k] folds. *)
Lemma kfold_split_run (k : Z) (n : nat) w :
  (2 ≤ k)%Z → (k ≤ Z.of_nat n)%Z →
  ∃ splits, kfold_split (mkKFold k 42) n w = (Ret splits, w)
            ∧ length splits = Z.to_nat k.
Proof.
  intros Hk Hn. unfold kfold_split. simpl.
  assert ((Z.of_nat n <? k)%Z = false) as -> by (apply Z.ltb_ge; lia).
  eexists. split; [reflexivity |].
  rewrite length_map, length_chunks, length_fold_sizes. reflexivity.
Qed.

Definition fold_event (s : list nat * list nat) : Event :=
  EvCrossValFold s.1 s.2.

Definition score_split
    (e : Estimator) (d : DataFrame) (y : Series) (s : list nat * list nat) : Py Q :=
  let '(train, test) := s in
  emit (EvCrossValFold train test);;
  match fold_neg_mse e (take_at train (rows d)) (take_at train y)
                       (take_at test (rows d)) (take_at test y) with
  | inl e => raise e
  | inr score => mret score
  end.

(** The regressor [e] can be fitted on the training part of the split [s]
    of the data set [(d, y)] and scored on the part held out. *)
Definition scores_split
    (e : Estimator) (d : DataFrame) (y : Series) (s : list nat * list nat) : Prop :=
  ∃ q, fold_neg_mse e (take_at s.1 (rows d)) (take_at s.1 y)
                      (take_at s.2 (rows d)) (take_at s.2 y) = inr q.

Lemma py_map_score_split m d y splits w :
  Forall (scores_split m d y) splits →
  ∃ scores,
    py_map (score_split m d y) splits w
    = (Ret scores, set_trace (trace w ++ map fold_event splits) w).
Proof.
  intros Hcap. revert w.
  induction Hcap as [| [train test] splits [s Hs] _ IH]; intros w.
  - exists []. simpl. rewrite app_nil_r. destruct w; reflexivity.
  - cbn [fst snd] in Hs.
    destruct (IH (set_trace (trace w ++ [EvCrossValFold train test]) w))
      as [scores Hscores].
    exists (s :: scores). simpl.
    unfold mbind, Py_bind, bind, emit. rewrite Hs. simpl.
    unfold mbind, Py_bind, bind in Hscores. rewrite Hscores. simpl.
    rewrite <- app_assoc. reflexivity.
Qed.

Lemma KFold_run (k : Z) seed w :
  (2 ≤ k)%Z → KFold k seed w = (Ret (mkKFold k seed), w).
Proof.
  intros Hk. unfold KFold.
  assert ((k <=? 1)%Z = false) as -> by (apply Z.leb_gt; lia). reflexivity.
Qed.

Definition estimator_at (w : World) (m : nat) : Estimator :=
  default default_estimator (estimators w !! m).

Lemma cross_val_score_unfold m X y kf w :
  cross_val_score m X y kf w
  = (splits ← kfold_split kf (length (rows (deref w X)));
     py_map (score_split (estimator_at w m) (deref w X) y) splits) w.
Proof. reflexivity. Qed.

Lemma cross_val_score_run m X y (k : Z) w :
  (2 ≤ k)%Z → (k ≤ Z.of_nat (length (rows (deref w X))))%Z →
  (∀ splits,
     kfold_split (mkKFold k 42) (length (rows (deref w X))) w = (Ret splits, w) →
     Forall (scores_split (estimator_at w m) (deref w X) y) splits) →
  ∃ splits scores,
    kfold_split (mkKFold k 42) (length (rows (deref w X))) w = (Ret splits, w)
    ∧ length splits = Z.to_nat k
    ∧ cross_val_score m X y (mkKFold k 42) w
      = (Ret scores, set_trace (trace w ++ map fold_event splits) w).
Proof.
  intros Hk Hn Hcap.
  destruct (kfold_split_run k _ w Hk Hn) as (splits & Hsplit & Hlen).
  destruct (py_map_score_split (estimator_at w m) (deref w X) y splits w
              (Hcap splits Hsplit))
    as [scores Hscores].
  exists splits, scores. split; [exact Hsplit |]. split; [exact Hlen |].
  rewrite cross_val_score_unfold, (bind_run _ _ _ _ _ Hsplit). exact Hscores.
Qed.

(** C4. Fold clamping: when [min(k, |X|)] is at least 2, [evaluate]
    builds the folds with [n_splits = min(k, |X|)]; provided the regressor
    can be fitted and scored on each of the splits that [KFold] makes of
    this data set (nothing is asked of it on any other data), [evaluate]
    fits and scores exactly these [min(k, |X|)] splits, in order, and
    returns metrics; nothing is raised. *)
Theorem evaluate_fold_clamping (self X : nat) (y : Series) (k : Z) (w : World) :
  (2 ≤ Z.min k (Z.of_nat (length (rows (deref w X)))))%Z →
  (∀ splits,
     kfold_split (mkKFold (Z.min k (Z.of_nat (length (rows (deref w X))))) 42)
                 (length (rows (deref w X))) w = (Ret splits, w) →
     Forall (scores_split (estimator_at w self) (deref w X) y) splits) →
  ∃ splits metrics,
    kfold_split (mkKFold (Z.min k (Z.of_nat (length (rows (deref w X))))) 42)
                (length (rows (deref w X))) w = (Ret splits, w)
    ∧ length splits = Z.to_nat (Z.min k (Z.of_nat (length (rows (deref w X)))))
    ∧ SoilHumidityRegressor_evaluate self X y k w
      = (Ret metrics, set_trace (trace w ++ map fold_event splits) w).
Proof.
  intros Hmin Hcap. unfold SoilHumidityRegressor_evaluate.
  rewrite (bind_run _ _ _ _ _ (df_len_run X w)).
  set (n := length (rows (deref w X))) in *.
  destruct (Z.ltb_spec (Z.of_nat n) k) as [Hlt | Hge].
  - rewrite Z.min_r in * by lia.
    assert ((Z.of_nat n <? 2)%Z = false) as -> by (apply Z.ltb_ge; lia).
    destruct (cross_val_score_run self X y (Z.of_nat n) w)
      as (splits & scores & Hs & Hl & Hrun); [lia | lia | exact Hcap |].
    exists splits. eexists. split; [exact Hs |]. split; [exact Hl |].
    rewrite (bind_run _ _ _ _ _ (KFold_run (Z.of_nat n) 42 w ltac:(lia))).
    rewrite (bind_run _ _ _ _ _ Hrun). reflexivity.
  - rewrite Z.min_l in * by lia.
    destruct (cross_val_score_run self X y k w)
      as (splits & scores & Hs & Hl & Hrun); [lia | exact Hge | exact Hcap |].
    exists splits. eexists. split; [exact Hs |]. split; [exact Hl |].
    rewrite (bind_run _ _ _ _ _ (KFold_run k 42 w ltac:(lia))).
    rewrite (bind_run _ _ _ _ _ Hrun). reflexivity.
Qed.

(** C5 (amended). Degenerate metrics: when the data set is smaller than the
    requested number of folds and has fewer than 2 rows, [evaluate] returns
    the zero metrics at once: nothing is fitted or scored, nothing is
    raised, the state is untouched. *)
Theorem evaluate_degenerate_metrics (self X : nat) (y : Series) (k : Z) (w : World) :
  (Z.of_nat (length (rows (deref w X))) < k)%Z →
  (Z.of_nat (length (rows (deref w X))) < 2)%Z →
  SoilHumidityRegressor_evaluate self X y k w = (Ret degenerate_metrics, w).
Proof.
  intros Hk H2. unfold SoilHumidityRegressor_evaluate.
  rewrite (bind_run _ _ _ _ _ (df_len_run X w)).
  apply Z.ltb_lt in Hk, H2. rewrite Hk, H2. reflexivity.
Qed.

(** X12. A requested fold count that the data set can meet is passed on
    as it is, and [KFold] refuses fewer than 2 folds: [evaluate] raises
    [ValueError]; nothing has been fitted or scored. *)
Lemma evaluate_rejects_small_k (self X : nat) (y : Series) (k : Z) (w : World) :
  (k ≤ Z.of_nat (length (rows (deref w X))))%Z → (k ≤ 1)%Z →
  ∃ msg, SoilHumidityRegressor_evaluate self X y k w = (Raise (ValueError msg), w).
Proof.
  intros Hk H1. unfold SoilHumidityRegressor_evaluate.
  rewrite (bind_run _ _ _ _ _ (df_len_run X w)).
  assert ((Z.of_nat (length (rows (deref w X))) <? k)%Z = false) as ->
    by (apply Z.ltb_ge; lia).
  unfold KFold. assert ((k <=? 1)%Z = true) as -> by (apply Z.leb_le; lia).
  eexists. reflexivity.
Qed.

(** ** The order on keys *)

Lemma cell_leb_total a b : cell_leb a b = true ∨ cell_leb b a = true.
Proof.
  destruct a as [| p | s | s], b as [| q | t | t]; simpl; auto.
  - rewrite !Qle_bool_iff. destruct (Qlt_le_dec p q) as [Hlt | Hle];
      [left; apply Qlt_le_weak, Hlt | right; exact Hle].
  - rewrite !Z.leb_le. lia.
  - apply String.leb_total.
Qed.

Lemma cell_leb_trans a b c :
  cell_leb a b = true → cell_leb b c = true → cell_leb a c = true.
Proof.
  destruct a as [| p | s | s], b as [| q | t | t], c as [| u | v | v];
    simpl; try (intros; first [reflexivity | discriminate]).
  - rewrite !Qle_bool_iff. apply Qle_trans.
  - rewrite !Z.leb_le. lia.
  - intros H1 H2. apply Is_true_true. apply Is_true_true in H1, H2.
    exact (transitivity (R := String.le) H1 H2).
Qed.

Lemma cell_eqb_refl a : cell_eqb a a = true.
Proof. unfold cell_eqb. destruct (cell_leb_total a a) as [-> | ->]; reflexivity. Qed.

Lemma cell_eqb_sym a b : cell_eqb a b = cell_eqb b a.
Proof. unfold cell_eqb. apply andb_comm. Qed.

Lemma cell_eqb_trans a b c :
  cell_eqb a b = true → cell_eqb b c = true → cell_eqb a c = true.
Proof.
  unfold cell_eqb. rewrite !andb_true_iff. intros [H1 H2] [H3 H4].
  split; eapply cell_leb_trans; eassumption.
Qed.

(** Equal keys are of one kind: no value equals a missing one. *)
Lemma cell_eqb_isna a b : cell_eqb a b = true → isna a = isna b.
Proof.
  unfold cell_eqb. destruct a, b; simpl; try reflexivity;
    rewrite ?andb_false_r; discriminate.
Qed.

Lemma key_leb_total cs r1 r2 : key_leb cs r1 r2 = true ∨ key_leb cs r2 r1 = true.
Proof.
  induction cs as [| c cs IH]; simpl; [auto |].
  pose proof (cell_leb_total (cell r1 c) (cell r2 c)) as Htot.
  destruct (cell_leb (cell r1 c) (cell r2 c)), (cell_leb (cell r2 c) (cell r1 c));
    auto; destruct Htot; discriminate.
Qed.

Lemma key_leb_trans cs r1 r2 r3 :
  key_leb cs r1 r2 = true → key_leb cs r2 r3 = true → key_leb cs r1 r3 = true.
Proof.
  induction cs as [| c cs IH]; simpl; [auto |].
  destruct (cell_leb (cell r1 c) (cell r2 c)) eqn:H12; [| discriminate].
  destruct (cell_leb (cell r2 c) (cell r3 c)) eqn:H23; [| intros _; discriminate].
  rewrite (cell_leb_trans _ _ _ H12 H23).
  destruct (cell_leb (cell r3 c) (cell r1 c)) eqn:H31; [| reflexivity].
  rewrite (cell_leb_trans _ _ _ H23 H31), (cell_leb_trans _ _ _ H31 H12).
  exact IH.
Qed.

Global Instance key_le_total cs : Total (key_le cs).
Proof.
  intros r1 r2. unfold key_le.
  destruct (key_leb_total cs r1 r2) as [-> | ->]; [left | right]; exact I.
Qed.

Global Instance key_le_trans cs : Transitive (key_le cs).
Proof.
  intros r1 r2 r3 H1 H2. unfold key_le in *. apply Is_true_true.
  apply Is_true_true in H1, H2. exact (key_leb_trans cs r1 r2 r3 H1 H2).
Qed.

Lemma insert_row_Permutation cs r rs : insert_row cs r rs ≡ₚ r :: rs.
Proof.
  induction rs as [| x rs IH]; simpl; [reflexivity |].
  destruct (key_leb cs r x); [reflexivity |].
  rewrite IH. apply perm_swap.
Qed.

Lemma sort_rows_Permutation cs rs : sort_rows cs rs ≡ₚ rs.
Proof.
  induction rs as [| r rs IH]; simpl; [reflexivity |].
  rewrite insert_row_Permutation, IH. reflexivity.
Qed.

Lemma insert_row_sorted cs r rs :
  StronglySorted (key_le cs) rs → StronglySorted (key_le cs) (insert_row cs r rs).
Proof.
  induction 1 as [| x rs Hrs IH Hx]; simpl; [repeat constructor |].
  destruct (key_leb cs r x) eqn:Hrx.
  - constructor; [constructor; assumption |].
    constructor; [apply Is_true_true, Hrx |].
    eapply Forall_impl; [exact Hx |]. intros y Hxy.
    exact (transitivity (R := key_le cs) (proj2 (Is_true_true _) Hrx) Hxy).
  - constructor; [exact IH |].
    apply Forall_forall. intros y Hy.
    rewrite insert_row_Permutation in Hy. apply elem_of_cons in Hy as [-> | Hy].
    + destruct (key_leb_total cs r x) as [Hle | Hle]; [congruence |].
      apply Is_true_true, Hle.
    + rewrite Forall_forall in Hx. apply Hx, Hy.
Qed.

Lemma sort_rows_sorted cs rs : StronglySorted (key_le cs) (sort_rows cs rs).
Proof.
  induction rs as [| r rs IH]; simpl; [constructor | apply insert_row_sorted, IH].
Qed.

(** The sort is stable: rows with one key come out in the order they came
    in. *)
Definition key_eqb (cs : list string) (r1 r2 : Row) : bool :=
  key_leb cs r1 r2 && key_leb cs r2 r1.

Lemma filter_insert_row cs r a rs :
  filter (λ x, key_eqb cs x r) (insert_row cs a rs)
  = filter (λ x, key_eqb cs x r) (a :: rs).
Proof.
  induction rs as [| x rs IH]; simpl; [reflexivity |].
  destruct (key_leb cs a x) eqn:Hax; [reflexivity |].
  rewrite (filter_cons _ x), IH, !filter_cons.
  destruct (decide (key_eqb cs x r)) as [Hx | Hx];
    destruct (decide (key_eqb cs a r)) as [Ha | Ha]; try reflexivity.
  exfalso. unfold key_eqb in Hx, Ha.
  apply Is_true_true, andb_true_iff in Hx as [_ Hrx].
  apply Is_true_true, andb_true_iff in Ha as [Har _].
  rewrite (key_leb_trans cs a r x Har Hrx) in Hax. discriminate.
Qed.

Lemma sort_rows_stable cs r rs :
  filter (λ x, key_eqb cs x r) (sort_rows cs rs)
  = filter (λ x, key_eqb cs x r) rs.
Proof.
  induction rs as [| a rs IH]; simpl; [reflexivity |].
  rewrite filter_insert_row, !filter_cons, IH. reflexivity.
Qed.

(** ** utils.py: what [preprocess_data] does to the table it is given *)

(** The state after the object at [l] has been changed into [d]. *)
Definition mutate (l : nat) (d : DataFrame) (w : World) : World :=
  set_heap (<[l := d]> (heap w)) w.

Definition set_column (c : string) (f : Row → Cell) (d : DataFrame) : DataFrame :=
  mkDF (add_column c (columns d)) (map (λ r, set_cell c (f r) r) (rows d)).

Definition as_datetime (c : Cell) : Cell := default NA (to_datetime_cell c).

Definition with_temporal (d : DataFrame) : DataFrame :=
  if bool_decide ("createdAt" ∈ columns d) then
    set_column "day_of_week" (λ r, dayofweek_of (cell r "createdAt"))
      (set_column "hour" (λ r, hour_of (cell r "createdAt"))
         (set_column "createdAt" (λ r, as_datetime (cell r "createdAt")) d))
  else d.

Definition fill_column (d : DataFrame) (col : string) : DataFrame :=
  if bool_decide (col ∈ columns d) then d else set_column col (λ _, Num 0) d.

(** The table after the feature-engineering part of [preprocess_data]. *)
Definition engineered (d : DataFrame) : DataFrame :=
  fold_left fill_column features (with_temporal d).

(** Every value of the [createdAt] column, if there is one, can be read as
    a timestamp. *)
Definition convertible (d : DataFrame) : Prop :=
  "createdAt" ∈ columns d →
  Forall (λ r, is_Some (to_datetime_cell (cell r "createdAt"))) (rows d).

Lemma deref_Some w l d : heap w !! l = Some d → deref w l = d.
Proof. intros Hl. unfold deref. rewrite Hl. reflexivity. Qed.

Lemma deref_mutate l d w : l < length (heap w) → deref (mutate l d w) l = d.
Proof.
  intros Hl. unfold deref, mutate. simpl.
  rewrite list_lookup_insert_eq by exact Hl. reflexivity.
Qed.

Lemma mutate_mutate l d1 d2 w : mutate l d2 (mutate l d1 w) = mutate l d2 w.
Proof. unfold mutate, set_heap. simpl. rewrite list_insert_insert_eq. reflexivity. Qed.

Lemma mutate_id l d w : heap w !! l = Some d → mutate l d w = w.
Proof.
  intros Hl. unfold mutate, set_heap. rewrite (list_insert_id _ _ _ Hl).
  destruct w; reflexivity.
Qed.

Lemma heap_mutate_lookup l d w :
  l < length (heap w) → heap (mutate l d w) !! l = Some d.
Proof. intros Hl. unfold mutate. simpl. apply list_lookup_insert_eq. exact Hl. Qed.

Lemma length_heap_mutate l d w : length (heap (mutate l d w)) = length (heap w).
Proof. unfold mutate. simpl. apply length_insert. Qed.

Lemma assign_map c (g : Row → Cell) rs :
  assign c rs (map g rs) = map (λ r, set_cell c (g r) r) rs.
Proof. induction rs as [| r rs IH]; simpl; [reflexivity | rewrite IH; reflexivity]. Qed.

Lemma df_getitem_run l c w :
  c ∈ columns (deref w l) → df_getitem l c w = (Ret (column_of c (deref w l)), w).
Proof.
  intros Hc. unfold df_getitem, has_column.
  rewrite (bind_run _ _ _ _ _ (eq_refl : read_df l w = (Ret (deref w l), w))).
  rewrite bool_decide_eq_true_2 by exact Hc. reflexivity.
Qed.

Lemma df_getitem_fail l c w :
  c ∉ columns (deref w l) → df_getitem l c w = (Raise (KeyError c), w).
Proof.
  intros Hc. unfold df_getitem, has_column.
  rewrite (bind_run _ _ _ _ _ (eq_refl : read_df l w = (Ret (deref w l), w))).
  rewrite bool_decide_eq_false_2 by exact Hc. reflexivity.
Qed.

(** Assigning a series computed row by row from the table itself. *)
Lemma df_setitem_run l c (f : Row → Cell) w :
  df_setitem l c (map (λ r, (label r, f r)) (rows (deref w l))) w
  = (Ret tt, mutate l (set_column c f (deref w l)) w).
Proof.
  unfold df_setitem.
  rewrite (bind_run _ _ _ _ _ (eq_refl : read_df l w = (Ret (deref w l), w))).
  rewrite map_map. simpl. rewrite assign_map. reflexivity.
Qed.

Lemma df_setitem_scalar_run l c v w :
  df_setitem_scalar l c v w
  = (Ret tt, mutate l (set_column c (λ _, v) (deref w l)) w).
Proof. reflexivity. Qed.

Lemma pd_to_datetime_run c d w :
  Forall (λ r, is_Some (to_datetime_cell (cell r c))) (rows d) →
  pd_to_datetime (column_of c d) w
  = (Ret (map (λ r, (label r, as_datetime (cell r c))) (rows d)), w).
Proof.
  intros Hall. unfold pd_to_datetime, column_of.
  rewrite (mapM_Some_2 _ _ (map (λ r, (label r, as_datetime (cell r c))) (rows d))).
  - reflexivity.
  - induction Hall as [| r rs [t Ht] _ IH]; simpl; constructor; [| exact IH].
    simpl. unfold as_datetime. rewrite Ht. reflexivity.
Qed.

Lemma pd_to_datetime_fail c d w :
  ¬ Forall (λ r, is_Some (to_datetime_cell (cell r c))) (rows d) →
  ∃ msg, pd_to_datetime (column_of c d) w = (Raise (ValueError msg), w).
Proof.
  intros Hnot. unfold pd_to_datetime, column_of.
  rewrite (proj2 (mapM_None _ _)); [eexists; reflexivity |].
  apply not_Forall_Exists in Hnot; [| apply _].
  induction Hnot as [r rs Hr | r rs _ IH]; simpl.
  - left. simpl. destruct (to_datetime_cell (cell r c)) eqn:Ht; [| reflexivity].
    exfalso. apply Hr. rewrite Ht. eauto.
  - right. exact IH.
Qed.

(** The parts of [preprocess_data], in the order of the code. *)
Definition derive_temporal (df : nat) (cols : list string) : Py unit :=
  if bool_decide ("createdAt" ∈ cols) then
    s ← df_getitem df "createdAt";
    s' ← pd_to_datetime s;
    df_setitem df "createdAt" s';;
    s1 ← df_getitem df "createdAt";
    df_setitem df "hour" (dt_hour s1);;
    s2 ← df_getitem df "createdAt";
    df_setitem df "day_of_week" (dt_dayofweek s2)
  else mret tt.

Definition fill_missing (df : nat) (cs : list string) : Py unit :=
  for_each cs (λ col,
    cols ← df_columns df;
    if bool_decide (col ∈ cols) then mret tt
    else df_setitem_scalar df col (Num 0)).

Definition build_training (df : nat) : Py Built :=
  df ← df_sort_values df ["node_id"; "createdAt"];
  future ← df_groupby_shift df "node_id" "humidity_percent";
  df_setitem df "humidity_future" future;;
  df ← df_dropna df ["humidity_future"];
  X ← df_select df features;
  y ← df_getitem df "humidity_future";
  mret (Training X y).

Definition build_inference (df : nat) : Py Built :=
  X ← df_select df features;
  mret (Inference X).

Lemma preprocess_data_unfold df (is_training : bool) :
  preprocess_data df is_training
  = (cols ← df_columns df;
     derive_temporal df cols;;
     fill_missing df features;;
     if is_training then build_training df else build_inference df).
Proof. reflexivity. Qed.

Lemma in_add_column c c' cols : c' ∈ add_column c cols ↔ c' = c ∨ c' ∈ cols.
Proof.
  unfold add_column. case_bool_decide as Hc.
  - split; [auto | intros [-> | ?]; auto].
  - rewrite elem_of_app, list_elem_of_singleton. tauto.
Qed.

Lemma cell_set_cell_eq c v r : cell (set_cell c v r) c = v.
Proof. unfold cell, set_cell. simpl. rewrite lookup_insert_eq. reflexivity. Qed.

Lemma cell_set_cell_ne c c' v r : c ≠ c' → cell (set_cell c v r) c' = cell r c'.
Proof.
  intros Hne. unfold cell, set_cell. simpl.
  rewrite lookup_insert_ne by exact Hne. reflexivity.
Qed.

Lemma dt_hour_column c d :
  dt_hour (column_of c d) = map (λ r, (label r, hour_of (cell r c))) (rows d).
Proof. unfold dt_hour, column_of. rewrite map_map. reflexivity. Qed.

Lemma dt_dayofweek_column c d :
  dt_dayofweek (column_of c d)
  = map (λ r, (label r, dayofweek_of (cell r c))) (rows d).
Proof. unfold dt_dayofweek, column_of. rewrite map_map. reflexivity. Qed.

Lemma derive_temporal_run df d w :
  heap w !! df = Some d → convertible d →
  derive_temporal df (columns d) w = (Ret tt, mutate df (with_temporal d) w).
Proof.
  intros Hdf Hconv. unfold derive_temporal, with_temporal.
  pose proof (lookup_lt_Some _ _ _ Hdf) as Hlt.
  pose proof (deref_Some _ _ _ Hdf) as Hd.
  case_bool_decide as Hc; [| rewrite (mutate_id _ _ _ Hdf); reflexivity].
  rewrite (bind_run _ _ _ _ _ (df_getitem_run df "createdAt" w ltac:(rewrite Hd; exact Hc))).
  rewrite Hd.
  rewrite (bind_run _ _ _ _ _ (pd_to_datetime_run "createdAt" d w (Hconv Hc))).
  rewrite <- Hd at 1.
  rewrite (bind_run _ _ _ _ _ (df_setitem_run df "createdAt" _ w)).
  rewrite Hd.
  set (d1 := set_column "createdAt" _ d).
  assert (deref (mutate df d1 w) df = d1) as Hd1 by (apply deref_mutate; exact Hlt).
  rewrite (bind_run _ _ _ _ _ (df_getitem_run df "createdAt" (mutate df d1 w)
             ltac:(rewrite Hd1; apply in_add_column; auto))).
  rewrite Hd1, dt_hour_column. rewrite <- Hd1 at 1.
  rewrite (bind_run _ _ _ _ _ (df_setitem_run df "hour" _ (mutate df d1 w))).
  rewrite Hd1, mutate_mutate.
  set (d2 := set_column "hour" _ d1).
  assert (deref (mutate df d2 w) df = d2) as Hd2 by (apply deref_mutate; exact Hlt).
  rewrite (bind_run _ _ _ _ _ (df_getitem_run df "createdAt" (mutate df d2 w)
             ltac:(rewrite Hd2; apply in_add_column; right;
                   apply in_add_column; auto))).
  rewrite Hd2, dt_dayofweek_column. rewrite <- Hd2 at 1.
  rewrite (df_setitem_run df "day_of_week" _ (mutate df d2 w)).
  rewrite Hd2, mutate_mutate. reflexivity.
Qed.

Lemma derive_temporal_fail df d w :
  heap w !! df = Some d → ¬ convertible d →
  ∃ msg, derive_temporal df (columns d) w = (Raise (ValueError msg), w).
Proof.
  intros Hdf Hconv. unfold derive_temporal.
  pose proof (deref_Some _ _ _ Hdf) as Hd.
  case_bool_decide as Hc; [| exfalso; apply Hconv; intros ?; contradiction].
  rewrite (bind_run _ _ _ _ _ (df_getitem_run df "createdAt" w ltac:(rewrite Hd; exact Hc))).
  rewrite Hd.
  destruct (pd_to_datetime_fail "createdAt" d w) as [msg Hfail].
  { intros Hall. apply Hconv. intros _. exact Hall. }
  exists msg. rewrite (bind_raise _ _ _ _ _ Hfail). reflexivity.
Qed.

Lemma fill_missing_run df cs d w :
  heap w !! df = Some d →
  fill_missing df cs w = (Ret tt, mutate df (fold_left fill_column cs d) w).
Proof.
  revert d w. induction cs as [| col cs IH]; intros d w Hdf.
  - simpl. rewrite (mutate_id _ _ _ Hdf). reflexivity.
  - pose proof (lookup_lt_Some _ _ _ Hdf) as Hlt.
    pose proof (deref_Some _ _ _ Hdf) as Hd.
    unfold fill_missing. simpl for_each. fold (fill_missing df cs).
    assert ((cols ← df_columns df;
             if bool_decide (col ∈ cols) then mret tt
             else df_setitem_scalar df col (Num 0)) w
            = (Ret tt, mutate df (fill_column d col) w)) as Hstep.
    { rewrite (bind_run _ _ _ _ _
                 (eq_refl : df_columns df w = (Ret (columns (deref w df)), w))).
      rewrite Hd. unfold fill_column. case_bool_decide.
      - rewrite (mutate_id _ _ _ Hdf). reflexivity.
      - rewrite df_setitem_scalar_run, Hd. reflexivity. }
    rewrite (bind_run _ _ _ _ _ Hstep).
    rewrite (IH (fill_column d col)).
    + rewrite mutate_mutate. reflexivity.
    + apply heap_mutate_lookup. exact Hlt.
Qed.

(** The first part of [preprocess_data], in both modes: the table of the
    caller is changed into the engineered table, and the run goes on from
    there; when a timestamp cannot be read, the call fails before anything
    is changed. *)
Lemma preprocess_data_engineer df d (is_training : bool) w :
  heap w !! df = Some d → convertible d →
  preprocess_data df is_training w
  = (if is_training then build_training df else build_inference df)
      (mutate df (engineered d) w).
Proof.
  intros Hdf Hconv. rewrite preprocess_data_unfold.
  pose proof (lookup_lt_Some _ _ _ Hdf) as Hlt.
  rewrite (bind_run _ _ _ _ _ (eq_refl : df_columns df w = (Ret (columns (deref w df)), w))).
  rewrite (deref_Some _ _ _ Hdf).
  rewrite (bind_run _ _ _ _ _ (derive_temporal_run df d w Hdf Hconv)).
  rewrite (bind_run _ _ _ _ _
             (fill_missing_run df features (with_temporal d) _
                (heap_mutate_lookup df (with_temporal d) w Hlt))).
  rewrite mutate_mutate. unfold engineered. reflexivity.
Qed.

Lemma preprocess_data_not_convertible df d (is_training : bool) w :
  heap w !! df = Some d → ¬ convertible d →
  ∃ msg, preprocess_data df is_training w = (Raise (ValueError msg), w).
Proof.
  intros Hdf Hconv. rewrite preprocess_data_unfold.
  rewrite (bind_run _ _ _ _ _ (eq_refl : df_columns df w = (Ret (columns (deref w df)), w))).
  rewrite (deref_Some _ _ _ Hdf).
  destruct (derive_temporal_fail df d w Hdf Hconv) as [msg Hfail].
  exists msg. rewrite (bind_raise _ _ _ _ _ Hfail). reflexivity.
Qed.

(** *** The engineered table, row by row *)

Definition temporal_row (cols : list string) (r : Row) : Row :=
  if bool_decide ("createdAt" ∈ cols) then
    let t := as_datetime (cell r "createdAt") in
    set_cell "day_of_week" (dayofweek_of t)
      (set_cell "hour" (hour_of t) (set_cell "createdAt" t r))
  else r.

Definition fill_cell (cols : list string) (r : Row) (col : string) : Row :=
  if bool_decide (col ∈ cols) then r else set_cell col (Num 0) r.

Definition engineer_row (cols : list string) (r : Row) : Row :=
  fold_left (fill_cell (columns (with_temporal (mkDF cols [])))) features
            (temporal_row cols r).

Lemma rows_with_temporal d :
  rows (with_temporal d) = map (temporal_row (columns d)) (rows d).
Proof.
  unfold with_temporal, temporal_row. case_bool_decide.
  - simpl. rewrite !map_map. apply map_ext. intros r.
    rewrite cell_set_cell_eq.
    rewrite cell_set_cell_ne by discriminate. rewrite cell_set_cell_eq.
    reflexivity.
  - rewrite map_id. reflexivity.
Qed.

Lemma columns_with_temporal d :
  columns (with_temporal d) = columns (with_temporal (mkDF (columns d) [])).
Proof. unfold with_temporal. simpl. case_bool_decide; reflexivity. Qed.

Lemma fold_fill_cell_ext cols cols' cs r :
  (∀ c, c ∈ cs → (c ∈ cols ↔ c ∈ cols')) →
  fold_left (fill_cell cols) cs r = fold_left (fill_cell cols') cs r.
Proof.
  revert r. induction cs as [| c cs IH]; intros r Hcs; [reflexivity |].
  simpl. rewrite IH by (intros c' Hc'; apply Hcs, list_elem_of_further, Hc').
  f_equal. unfold fill_cell.
  rewrite (bool_decide_ext (c ∈ cols) (c ∈ cols') (Hcs c (list_elem_of_here _ _))).
  reflexivity.
Qed.

Lemma fold_fill_column cs d :
  NoDup cs →
  rows (fold_left fill_column cs d)
  = map (λ r, fold_left (fill_cell (columns d)) cs r) (rows d)
  ∧ ∀ c, c ∈ columns (fold_left fill_column cs d) ↔ c ∈ columns d ∨ c ∈ cs.
Proof.
  intros Hnd. revert d. induction Hnd as [| col cs Hcol Hnd IH]; intros d.
  - simpl. rewrite map_id. split; [reflexivity |].
    intros c. rewrite elem_of_nil. tauto.
  - simpl. destruct (IH (fill_column d col)) as [IHr IHc]. split.
    + rewrite IHr. unfold fill_column, fill_cell at 3.
      case_bool_decide as Hin; [reflexivity |].
      simpl. rewrite map_map. apply map_ext. intros r.
      apply fold_fill_cell_ext. intros c Hc. rewrite in_add_column.
      split; [intros [-> | ?]; [contradiction | assumption] | tauto].
    + intros c. rewrite IHc, elem_of_cons. unfold fill_column.
      case_bool_decide as Hin.
      * split; [tauto | intros [? | [-> | ?]]; auto].
      * simpl. rewrite in_add_column. tauto.
Qed.

Lemma NoDup_features : NoDup features.
Proof. compute_done. Qed.

Lemma rows_engineered d :
  rows (engineered d) = map (engineer_row (columns d)) (rows d).
Proof.
  unfold engineered, engineer_row.
  rewrite (proj1 (fold_fill_column features _ NoDup_features)).
  rewrite rows_with_temporal, map_map, <- columns_with_temporal. reflexivity.
Qed.

Lemma in_columns_with_temporal d c :
  c ∈ columns (with_temporal d)
  ↔ c ∈ columns d ∨ ("createdAt" ∈ columns d ∧ (c = "hour" ∨ c = "day_of_week")).
Proof.
  unfold with_temporal. case_bool_decide as Hc.
  - simpl. rewrite !in_add_column. split.
    + intros [-> | [-> | [-> | ?]]]; auto.
    + intros [? | [_ [-> | ->]]]; auto.
  - tauto.
Qed.

Lemma in_columns_engineered d c :
  c ∈ columns (engineered d) ↔ c ∈ columns d ∨ c ∈ features.
Proof.
  unfold engineered.
  rewrite (proj2 (fold_fill_column features _ NoDup_features)).
  rewrite in_columns_with_temporal. split; [| tauto].
  intros [[? | [_ [-> | ->]]] | ?]; auto; right; unfold features;
    repeat (first [apply list_elem_of_here | apply list_elem_of_further]).
Qed.

Lemma label_set_cell c v r : label (set_cell c v r) = label r.
Proof. reflexivity. Qed.

Lemma label_fold_fill_cell cols cs r :
  label (fold_left (fill_cell cols) cs r) = label r.
Proof.
  revert r. induction cs as [| c cs IH]; intros r; simpl; [reflexivity |].
  rewrite IH. unfold fill_cell. case_bool_decide; reflexivity.
Qed.

Lemma label_temporal_row cols r : label (temporal_row cols r) = label r.
Proof. unfold temporal_row. case_bool_decide; reflexivity. Qed.

Lemma label_engineer_row cols r : label (engineer_row cols r) = label r.
Proof.
  unfold engineer_row. rewrite label_fold_fill_cell. apply label_temporal_row.
Qed.

Lemma cell_fold_fill_cell cols cs r c :
  cell (fold_left (fill_cell cols) cs r) c
  = if bool_decide (c ∈ cs ∧ c ∉ cols) then Num 0 else cell r c.
Proof.
  revert r. induction cs as [| c' cs IH]; intros r.
  - reflexivity.
  - cbn [fold_left]. rewrite IH. unfold fill_cell.
    destruct (decide (c ∈ cs ∧ c ∉ cols)) as [Hin | Hnin].
    + rewrite !bool_decide_eq_true_2; [reflexivity | | exact Hin].
      rewrite elem_of_cons. tauto.
    + rewrite (bool_decide_eq_false_2 _ Hnin).
      destruct (decide (c' ∈ cols)) as [Hc' | Hc'].
      * rewrite (bool_decide_eq_true_2 _ Hc').
        rewrite bool_decide_eq_false_2; [reflexivity |].
        rewrite elem_of_cons. intros [[-> | ?] ?]; tauto.
      * rewrite (bool_decide_eq_false_2 _ Hc').
        destruct (decide (c' = c)) as [-> | Hne].
        -- rewrite cell_set_cell_eq. rewrite bool_decide_eq_true_2; [reflexivity |].
           rewrite elem_of_cons. tauto.
        -- rewrite cell_set_cell_ne by exact Hne.
           rewrite bool_decide_eq_false_2; [reflexivity |].
           rewrite elem_of_cons. intros [[-> | ?] ?]; tauto.
Qed.

(** The cells of an engineered row. *)
Lemma cell_engineer_row cols r c :
  cell (engineer_row cols r) c
  = if bool_decide (c ∈ features ∧ c ∉ columns (with_temporal (mkDF cols [])))
    then Num 0 else cell (temporal_row cols r) c.
Proof. unfold engineer_row. apply cell_fold_fill_cell. Qed.

Lemma cell_temporal_row_other cols r c :
  c ≠ "createdAt" → c ≠ "hour" → c ≠ "day_of_week" →
  cell (temporal_row cols r) c = cell r c.
Proof.
  intros H1 H2 H3. unfold temporal_row. case_bool_decide; [| reflexivity].
  simpl. rewrite !cell_set_cell_ne by congruence. reflexivity.
Qed.

Lemma cell_temporal_row_createdAt cols r :
  "createdAt" ∈ cols →
  cell (temporal_row cols r) "createdAt" = as_datetime (cell r "createdAt").
Proof.
  intros Hc. unfold temporal_row. rewrite bool_decide_eq_true_2 by exact Hc.
  simpl. rewrite !cell_set_cell_ne by discriminate. apply cell_set_cell_eq.
Qed.

Lemma cell_temporal_row_hour cols r :
  "createdAt" ∈ cols →
  cell (temporal_row cols r) "hour" = hour_of (as_datetime (cell r "createdAt")).
Proof.
  intros Hc. unfold temporal_row. rewrite bool_decide_eq_true_2 by exact Hc.
  simpl. rewrite cell_set_cell_ne by discriminate. apply cell_set_cell_eq.
Qed.

Lemma cell_temporal_row_day_of_week cols r :
  "createdAt" ∈ cols →
  cell (temporal_row cols r) "day_of_week"
  = dayofweek_of (as_datetime (cell r "createdAt")).
Proof.
  intros Hc. unfold temporal_row. rewrite bool_decide_eq_true_2 by exact Hc.
  simpl. apply cell_set_cell_eq.
Qed.

(** A column of the input that is not a derived one keeps its values. *)
Lemma cell_engineer_row_kept cols r c :
  c ∈ cols → c ≠ "createdAt" → c ≠ "hour" → c ≠ "day_of_week" →
  cell (engineer_row cols r) c = cell r c.
Proof.
  intros Hc H1 H2 H3. rewrite cell_engineer_row.
  rewrite bool_decide_eq_false_2.
  - apply cell_temporal_row_other; assumption.
  - intros [_ Hnot]. apply Hnot. apply in_columns_with_temporal. left. exact Hc.
Qed.

Lemma cell_engineer_row_createdAt cols r :
  "createdAt" ∈ cols →
  cell (engineer_row cols r) "createdAt" = as_datetime (cell r "createdAt").
Proof.
  intros Hc. rewrite cell_engineer_row. rewrite bool_decide_eq_false_2.
  - apply cell_temporal_row_createdAt. exact Hc.
  - intros [_ Hnot]. apply Hnot. apply in_columns_with_temporal. left. exact Hc.
Qed.

(** A feature that the table lacks, and that is not derived from the
    timestamp, is filled with 0. *)
Lemma cell_engineer_row_missing cols r c :
  c ∈ features → c ∉ cols →
  ¬ ("createdAt" ∈ cols ∧ (c = "hour" ∨ c = "day_of_week")) →
  cell (engineer_row cols r) c = Num 0.
Proof.
  intros Hf Hc Hd. rewrite cell_engineer_row. rewrite bool_decide_eq_true_2; [reflexivity |].
  split; [exact Hf |]. rewrite in_columns_with_temporal. simpl. tauto.
Qed.

(** *** The two ways the build ends *)

Lemma find_missing_None cs d :
  (∀ c, c ∈ cs → c ∈ columns d) → List.find (λ c, negb (has_column c d)) cs = None.
Proof.
  intros Hcs. induction cs as [| c cs IH]; [reflexivity |].
  simpl. unfold has_column at 1.
  rewrite bool_decide_eq_true_2 by (apply Hcs, list_elem_of_here). simpl.
  apply IH. intros c' Hc'. apply Hcs, list_elem_of_further, Hc'.
Qed.

Lemma deref_alloc w x : deref (set_heap (heap w ++ [x]) w) (length (heap w)) = x.
Proof.
  unfold deref. simpl. rewrite lookup_app_r by lia.
  rewrite Nat.sub_diag. reflexivity.
Qed.

Lemma deref_alloc_old w x l :
  l < length (heap w) → deref (set_heap (heap w ++ [x]) w) l = deref w l.
Proof. intros Hl. unfold deref. simpl. rewrite lookup_app_l by exact Hl. reflexivity. Qed.

Lemma df_select_run l cs w :
  (∀ c, c ∈ cs → c ∈ columns (deref w l)) →
  df_select l cs w
  = (Ret (length (heap w)),
     set_heap (heap w ++ [mkDF cs (map (select_row cs) (rows (deref w l)))]) w).
Proof.
  intros Hcs. unfold df_select.
  rewrite (bind_run _ _ _ _ _ (eq_refl : read_df l w = (Ret (deref w l), w))).
  rewrite (find_missing_None _ _ Hcs). reflexivity.
Qed.

Lemma df_sort_values_run l cs w :
  (∀ c, c ∈ cs → c ∈ columns (deref w l)) →
  df_sort_values l cs w
  = (Ret (length (heap w)),
     set_heap (heap w ++ [mkDF (columns (deref w l))
                               (sort_rows cs (rows (deref w l)))]) w).
Proof.
  intros Hcs. unfold df_sort_values.
  rewrite (bind_run _ _ _ _ _ (eq_refl : read_df l w = (Ret (deref w l), w))).
  rewrite (find_missing_None _ _ Hcs). reflexivity.
Qed.

Lemma df_sort_values_fail l cs c w :
  List.find (λ c, negb (has_column c (deref w l))) cs = Some c →
  df_sort_values l cs w = (Raise (KeyError c), w).
Proof.
  intros Hc. unfold df_sort_values.
  rewrite (bind_run _ _ _ _ _ (eq_refl : read_df l w = (Ret (deref w l), w))).
  rewrite Hc. reflexivity.
Qed.

Lemma df_dropna_run l cs w :
  (∀ c, c ∈ cs → c ∈ columns (deref w l)) →
  df_dropna l cs w
  = (Ret (length (heap w)),
     set_heap (heap w ++ [mkDF (columns (deref w l))
                               (filter (complete_in cs) (rows (deref w l)))]) w).
Proof.
  intros Hcs. unfold df_dropna.
  rewrite (bind_run _ _ _ _ _ (eq_refl : read_df l w = (Ret (deref w l), w))).
  rewrite (find_missing_None _ _ Hcs). reflexivity.
Qed.

Lemma df_groupby_shift_run l k c w :
  k ∈ columns (deref w l) → c ∈ columns (deref w l) →
  df_groupby_shift l k c w = (Ret (shift_up k c (rows (deref w l))), w).
Proof.
  intros Hk Hc. unfold df_groupby_shift, has_column.
  rewrite (bind_run _ _ _ _ _ (eq_refl : read_df l w = (Ret (deref w l), w))).
  rewrite !bool_decide_eq_true_2 by assumption. reflexivity.
Qed.

(** The value that a row receives as its target: the humidity of the next
    row of its node among the rows that follow. *)
Definition future_of (r : Row) (rest : list Row) : Cell :=
  if isna (cell r "node_id") then NA
  else next_in_group "node_id" "humidity_percent" (cell r "node_id") rest.

Fixpoint with_future (rs : list Row) : list Row :=
  match rs with
  | [] => []
  | r :: rs' => set_cell "humidity_future" (future_of r rs') r :: with_future rs'
  end.

Lemma assign_shift_up rs :
  assign "humidity_future" rs (map snd (shift_up "node_id" "humidity_percent" rs))
  = with_future rs.
Proof. induction rs as [| r rs IH]; simpl; [reflexivity | rewrite IH; reflexivity]. Qed.

Definition by_node_and_time (rs : list Row) : list Row :=
  sort_rows ["node_id"; "createdAt"] rs.

Lemma by_node_and_time_Permutation rs : by_node_and_time rs ≡ₚ rs.
Proof. apply sort_rows_Permutation. Qed.

Lemma by_node_and_time_sorted rs :
  StronglySorted (key_le ["node_id"; "createdAt"]) (by_node_and_time rs).
Proof. apply sort_rows_sorted. Qed.

(** The rows that training keeps, with their target. *)
Definition training_rows (e : DataFrame) : list Row :=
  filter (complete_in ["humidity_future"]) (with_future (by_node_and_time (rows e))).

Definition training_X (e : DataFrame) : DataFrame :=
  mkDF features (map (select_row features) (training_rows e)).

Definition training_y (e : DataFrame) : Series :=
  map (λ r, (label r, cell r "humidity_future")) (training_rows e).

Lemma features_in_engineered d c : c ∈ features → c ∈ columns (engineered d).
Proof. intros Hc. apply in_columns_engineered. right. exact Hc. Qed.

Lemma build_inference_run df e w :
  (∀ c, c ∈ features → c ∈ columns (deref w df)) →
  deref w df = e →
  build_inference df w
  = (Ret (Inference (length (heap w))),
     set_heap (heap w ++ [mkDF features (map (select_row features) (rows e))]) w).
Proof.
  intros Hf <-. unfold build_inference.
  rewrite (bind_run _ _ _ _ _ (df_select_run df features w Hf)). reflexivity.
Qed.

Lemma build_training_run df e w :
  df < length (heap w) → deref w df = e →
  "node_id" ∈ columns e → "createdAt" ∈ columns e →
  (∀ c, c ∈ features → c ∈ columns e) →
  build_training df w
  = (Ret (Training (length (heap w) + 2) (training_y e)),
     set_heap (heap w ++ [mkDF (add_column "humidity_future" (columns e))
                               (with_future (by_node_and_time (rows e)));
                          mkDF (add_column "humidity_future" (columns e))
                               (training_rows e);
                          training_X e]) w).
Proof.
  intros Hlt He Hnode Htime Hfeat. unfold build_training.
  assert (∀ c, c ∈ ["node_id"; "createdAt"] → c ∈ columns (deref w df)) as Hby.
  { intros c Hc. rewrite He. rewrite !elem_of_cons, elem_of_nil in Hc.
    destruct Hc as [-> | [-> | []]]; assumption. }
  rewrite (bind_run _ _ _ _ _ (df_sort_values_run df _ w Hby)). rewrite He.
  set (dS := mkDF (columns e) (sort_rows _ (rows e))).
  set (w2 := set_heap (heap w ++ [dS]) w).
  assert (deref w2 (length (heap w)) = dS) as HdS by apply deref_alloc.
  rewrite (bind_run _ _ _ _ _
             (df_groupby_shift_run (length (heap w)) "node_id"
                "humidity_percent" w2
                ltac:(rewrite HdS; exact Hnode)
                ltac:(rewrite HdS; apply Hfeat; compute_done))).
  rewrite HdS.
  set (l1 := length (heap w)) in *.
  rewrite (bind_run _ _ _ _ _
             (eq_refl : df_setitem l1 "humidity_future"
                          (shift_up "node_id" "humidity_percent" (rows dS)) w2
                        = (Ret tt,
                           mutate l1
                             (mkDF (add_column "humidity_future"
                                      (columns (deref w2 l1)))
                                   (assign "humidity_future" (rows (deref w2 l1))
                                      (map snd (shift_up "node_id"
                                                  "humidity_percent" (rows dS)))))
                             w2))).
  subst l1.
  rewrite HdS, assign_shift_up.
  set (dF := mkDF (add_column "humidity_future" (columns dS)) (with_future (rows dS))).
  set (w3 := mutate (length (heap w)) dF w2).
  assert (length (heap w2) = length (heap w) + 1) as Hlen2
    by (unfold w2; simpl; rewrite length_app; reflexivity).
  assert (deref w3 (length (heap w)) = dF) as HdF
    by (apply deref_mutate; lia).
  assert (length (heap w3) = length (heap w) + 1) as Hlen3
    by (unfold w3; rewrite length_heap_mutate; exact Hlen2).
  assert (∀ c, c ∈ ["humidity_future"] → c ∈ columns (deref w3 (length (heap w)))) as Hhf.
  { intros c Hc. rewrite HdF. apply list_elem_of_singleton in Hc as ->.
    apply in_add_column. left. reflexivity. }
  rewrite (bind_run _ _ _ _ _ (df_dropna_run (length (heap w)) _ w3 Hhf)).
  rewrite HdF, Hlen3.
  set (dD := mkDF (columns dF) (filter _ (rows dF))).
  set (w4 := set_heap (heap w3 ++ [dD]) w3).
  assert (deref w4 (length (heap w) + 1) = dD) as HdD
    by (rewrite <- Hlen3; apply deref_alloc).
  assert (length (heap w4) = length (heap w) + 2) as Hlen4
    by (change (heap w4) with (heap w3 ++ [dD]);
        rewrite length_app, Hlen3; simpl; lia).
  assert (∀ c, c ∈ features → c ∈ columns (deref w4 (length (heap w) + 1))) as Hfeat4.
  { intros c Hc. rewrite HdD. apply in_add_column. right. apply Hfeat, Hc. }
  rewrite (bind_run _ _ _ _ _ (df_select_run (length (heap w) + 1) features w4 Hfeat4)).
  rewrite HdD, Hlen4.
  set (w5 := set_heap (heap w4 ++ [_]) w4).
  assert (deref w5 (length (heap w) + 1) = dD) as HdD5.
  { unfold w5. rewrite deref_alloc_old by lia. exact HdD. }
  rewrite (bind_run _ _ _ _ _ (df_getitem_run (length (heap w) + 1) "humidity_future" w5
             ltac:(rewrite HdD5; apply in_add_column; left; reflexivity))).
  rewrite HdD5.
  unfold mret, Py_ret, ret. f_equal.
  unfold w5, w4, w3, w2, mutate, set_heap. simpl. f_equal.
  rewrite insert_app_r_alt by lia. rewrite Nat.sub_diag. simpl.
  rewrite <- !app_assoc. reflexivity.
Qed.

Global Instance convertible_dec d : Decision (convertible d).
Proof. unfold convertible. apply _. Defined.

Lemma node_id_not_feature : "node_id" ∉ features.
Proof. compute_done. Qed.

Lemma createdAt_not_feature : "createdAt" ∉ features.
Proof. compute_done. Qed.

Lemma humidity_future_not_feature : "humidity_future" ∉ features.
Proof. compute_done. Qed.

(** Inference mode ends well as soon as the timestamps can be read. *)
Lemma preprocess_data_inference_run df d w :
  heap w !! df = Some d → convertible d →
  preprocess_data df false w
  = (Ret (Inference (length (heap w))),
     set_heap (heap (mutate df (engineered d) w)
               ++ [mkDF features (map (select_row features) (rows (engineered d)))])
              (mutate df (engineered d) w)).
Proof.
  intros Hdf Hconv. rewrite (preprocess_data_engineer df d false w Hdf Hconv).
  pose proof (lookup_lt_Some _ _ _ Hdf) as Hlt.
  rewrite (build_inference_run df (engineered d)).
  - rewrite length_heap_mutate. reflexivity.
  - intros c Hc. rewrite deref_mutate by exact Hlt. apply features_in_engineered, Hc.
  - apply deref_mutate, Hlt.
Qed.

(** Training mode ends well when, moreover, the table has the two columns
    it is sorted by. *)
Lemma preprocess_data_training_run df d w :
  heap w !! df = Some d → convertible d →
  "node_id" ∈ columns d → "createdAt" ∈ columns d →
  let e := engineered d in
  preprocess_data df true w
  = (Ret (Training (length (heap w) + 2) (training_y e)),
     set_heap (heap (mutate df e w)
               ++ [mkDF (add_column "humidity_future" (columns e))
                        (with_future (by_node_and_time (rows e)));
                   mkDF (add_column "humidity_future" (columns e))
                        (training_rows e);
                   training_X e])
              (mutate df e w)).
Proof.
  intros Hdf Hconv Hnode Htime e.
  rewrite (preprocess_data_engineer df d true w Hdf Hconv).
  pose proof (lookup_lt_Some _ _ _ Hdf) as Hlt.
  rewrite (build_training_run df e).
  - rewrite length_heap_mutate. reflexivity.
  - rewrite length_heap_mutate. exact Hlt.
  - apply deref_mutate, Hlt.
  - apply in_columns_engineered. left. exact Hnode.
  - apply in_columns_engineered. left. exact Htime.
  - intros c Hc. apply features_in_engineered, Hc.
Qed.

(** Without one of them, sorting raises [KeyError]; the table of the
    caller has been changed by then. *)
Lemma preprocess_data_training_KeyError df d w :
  heap w !! df = Some d → convertible d →
  ¬ ("node_id" ∈ columns d ∧ "createdAt" ∈ columns d) →
  ∃ k, (k = "node_id" ∨ k = "createdAt") ∧ (k ∉ columns d)
       ∧ (preprocess_data df true w
          = (Raise (KeyError k), mutate df (engineered d) w)).
Proof.
  intros Hdf Hconv Hmiss.
  rewrite (preprocess_data_engineer df d true w Hdf Hconv).
  pose proof (lookup_lt_Some _ _ _ Hdf) as Hlt.
  assert (∀ k, List.find (λ c, negb (has_column c (engineered d)))
                        ["node_id"; "createdAt"] = Some k →
               build_training df (mutate df (engineered d) w)
               = (Raise (KeyError k), mutate df (engineered d) w)) as Hfail.
  { intros k Hk. unfold build_training. apply bind_raise.
    apply df_sort_values_fail. rewrite deref_mutate by exact Hlt. exact Hk. }
  destruct (decide ("node_id" ∈ columns d)) as [Hnode | Hnode].
  - exists "createdAt". split; [auto |]. split; [tauto |]. apply Hfail.
    unfold List.find, has_column.
    rewrite bool_decide_eq_true_2
      by (apply in_columns_engineered; left; exact Hnode).
    rewrite bool_decide_eq_false_2; [reflexivity |].
    rewrite in_columns_engineered. intros [? | ?]; [tauto |].
    apply createdAt_not_feature. assumption.
  - exists "node_id". split; [auto |]. split; [exact Hnode |]. apply Hfail.
    unfold List.find, has_column.
    rewrite bool_decide_eq_false_2; [reflexivity |].
    rewrite in_columns_engineered. intros [? | ?]; [tauto |].
    apply node_id_not_feature. assumption.
Qed.

Lemma Training_inv X y X' y' : Training X y = Training X' y' → X = X' ∧ y = y'.
Proof. intros Heq. inversion Heq. auto. Qed.


Lemma columns_training_X e : columns (training_X e) = features.
Proof. reflexivity. Qed.

Lemma deref_alloc3 w a b c :
  deref (set_heap (heap w ++ [a; b; c]) w) (length (heap w) + 2) = c.
Proof.
  unfold deref. simpl. rewrite lookup_app_r by lia.
  replace (length (heap w) + 2 - length (heap w)) with 2 by lia. reflexivity.
Qed.

Lemma deref_alloc_many_old w l xs :
  l < length (heap w) → deref (set_heap (heap w ++ xs) w) l = deref w l.
Proof. intros Hl. unfold deref. simpl. rewrite lookup_app_l by exact Hl. reflexivity. Qed.

(** The timestamps of an engineered table can be read again. *)
Lemma to_datetime_cell_as_datetime c : is_Some (to_datetime_cell (as_datetime c)).
Proof.
  unfold as_datetime. destruct (to_datetime_cell c) as [t |] eqn:Ht; simpl; [| eauto].
  destruct c; simpl in Ht.
  - injection Ht as <-. simpl. eauto.
  - destruct (parse_datetime (Num q)); simpl in Ht; [| discriminate].
    injection Ht as <-. simpl. eauto.
  - injection Ht as <-. simpl. eauto.
  - destruct (parse_datetime (Str s)); simpl in Ht; [| discriminate].
    injection Ht as <-. simpl. eauto.
Qed.

Lemma convertible_engineered d : convertible (engineered d).
Proof.
  intros Hc. apply in_columns_engineered in Hc as [Hc | Hc];
    [| exfalso; exact (createdAt_not_feature Hc)].
  rewrite rows_engineered. apply Forall_forall. intros r' Hr'.
  apply list_elem_of_fmap in Hr' as (r & -> & _).
  rewrite cell_engineer_row_createdAt by exact Hc.
  apply to_datetime_cell_as_datetime.
Qed.


Lemma cell_select_row cs r c : c ∈ cs → cell (select_row cs r) c = cell r c.
Proof.
  intros Hc. unfold cell, select_row. simpl. rewrite map_lookup_filter.
  destruct (cells r !! c) as [v |]; simpl; [| reflexivity].
  rewrite option_guard_True by exact Hc. reflexivity.
Qed.

Lemma in_with_future r rs :
  r ∈ with_future rs → ∃ r0 v, r0 ∈ rs ∧ r = set_cell "humidity_future" v r0.
Proof.
  induction rs as [| r0 rs IH]; simpl; intros Hr.
  - apply elem_of_nil in Hr as [].
  - apply elem_of_cons in Hr as [-> | Hr].
    + eexists _, _. split; [apply list_elem_of_here | reflexivity].
    + destruct (IH Hr) as (r1 & v & Hr1 & ->).
      exists r1, v. split; [apply list_elem_of_further, Hr1 | reflexivity].
Qed.

Lemma in_training_rows e r :
  r ∈ training_rows e →
  ∃ r0 v, r0 ∈ rows e ∧ r = set_cell "humidity_future" v r0.
Proof.
  unfold training_rows. intros Hr. apply list_elem_of_filter in Hr as [_ Hr].
  destruct (in_with_future _ _ Hr) as (r0 & v & Hr0 & ->).
  exists r0, v. split; [| reflexivity].
  rewrite (by_node_and_time_Permutation (rows e)) in Hr0. exact Hr0.
Qed.

(** In the rows [rs], every feature that the table [d] lacked, and that
    was not derived from its timestamps, is 0. *)
Definition zero_rows (d : DataFrame) (rs : list Row) : Prop :=
  ∀ c, c ∈ features → c ∉ columns d →
       ¬ ("createdAt" ∈ columns d ∧ (c = "hour" ∨ c = "day_of_week")) →
       ∀ r, r ∈ rs → cell r c = Num 0.

Definition zero_filled (d X : DataFrame) : Prop := zero_rows d (rows X).

Lemma zero_rows_select d rs :
  zero_rows d rs → zero_rows d (map (select_row features) rs).
Proof.
  intros Hrs c Hc Hmiss Hder r Hr.
  apply list_elem_of_fmap in Hr as (r1 & -> & Hr1).
  rewrite cell_select_row by exact Hc. apply (Hrs c Hc Hmiss Hder r1 Hr1).
Qed.

Lemma zero_rows_engineer d rs :
  zero_rows d (map (engineer_row (columns d)) rs).
Proof.
  intros c Hc Hmiss Hder r Hr.
  apply list_elem_of_fmap in Hr as (r0 & -> & _).
  apply cell_engineer_row_missing; assumption.
Qed.

Lemma zero_rows_training d e :
  zero_rows d (rows e) → zero_rows d (training_rows e).
Proof.
  intros Hrs c Hc Hmiss Hder r Hr.
  apply in_training_rows in Hr as (r2 & v & Hr2 & ->).
  rewrite cell_set_cell_ne
    by (intros <-; exact (humidity_future_not_feature Hc)).
  apply (Hrs c Hc Hmiss Hder r2 Hr2).
Qed.

Lemma zero_filled_inference d :
  zero_filled d (mkDF features (map (select_row features) (rows (engineered d)))).
Proof.
  unfold zero_filled. cbn [rows]. apply zero_rows_select.
  rewrite rows_engineered. apply zero_rows_engineer.
Qed.

Lemma zero_filled_training d : zero_filled d (training_X (engineered d)).
Proof.
  unfold zero_filled, training_X. cbn [rows].
  apply zero_rows_select, zero_rows_training.
  rewrite rows_engineered. apply zero_rows_engineer.
Qed.

(** C8 (amended). What the feature builder needs in order to return.
    - Inference mode returns on every table whose timestamps, if it has a
      [createdAt] column, can be read: in particular on every table without
      that column, whatever measurement columns are missing.
    - Training mode returns when, moreover, the table has the columns
      [node_id] and [createdAt]; without one of them it raises [KeyError].
    - When a timestamp cannot be read, both modes raise [ValueError].
    - In the table returned, in either mode, the columns are the seven
      features, and every feature that the input lacked (and that was not
      derived from the timestamps) is 0 in every row. *)
Theorem feature_builder_totality (df : nat) (d : DataFrame) (w : World) :
  heap w !! df = Some d →
  ("createdAt" ∉ columns d → convertible d)
  ∧ (convertible d →
     ∃ X w', preprocess_data df false w = (Ret (Inference X), w')
             ∧ columns (deref w' X) = features
             ∧ length (rows (deref w' X)) = length (rows d)
             ∧ zero_filled d (deref w' X))
  ∧ (convertible d → "node_id" ∈ columns d → "createdAt" ∈ columns d →
     ∃ X y w', preprocess_data df true w = (Ret (Training X y), w')
               ∧ columns (deref w' X) = features
               ∧ zero_filled d (deref w' X))
  ∧ (convertible d → ¬ ("node_id" ∈ columns d ∧ "createdAt" ∈ columns d) →
     ∃ k w', preprocess_data df true w = (Raise (KeyError k), w')
             ∧ (k = "node_id" ∨ k = "createdAt") ∧ k ∉ columns d)
  ∧ (¬ convertible d →
     ∀ is_training, ∃ msg,
       preprocess_data df is_training w = (Raise (ValueError msg), w)).
Proof.
  intros Hdf. pose proof (lookup_lt_Some _ _ _ Hdf) as Hlt.
  split; [intros Hno Hin; contradiction |].
  split; [| split; [| split]].
  - intros Hconv. eexists _, _.
    split; [apply (preprocess_data_inference_run df d w Hdf Hconv) |].
    rewrite <- (length_heap_mutate df (engineered d) w). rewrite deref_alloc.
    split; [reflexivity |]. split; [| apply zero_filled_inference].
    cbn [rows]. rewrite length_map, rows_engineered, length_map. reflexivity.
  - intros Hconv Hnode Htime. eexists _, _, _.
    split; [apply (preprocess_data_training_run df d w Hdf Hconv Hnode Htime) |].
    rewrite <- (length_heap_mutate df (engineered d) w). rewrite deref_alloc3.
    split; [reflexivity | apply zero_filled_training].
  - intros Hconv Hmiss.
    destruct (preprocess_data_training_KeyError df d w Hdf Hconv Hmiss)
      as (k & Hk & Hnot & Hrun).
    exists k. eexists. split; [exact Hrun |]. split; assumption.
  - intros Hconv is_training.
    apply (preprocess_data_not_convertible df d is_training w Hdf Hconv).
Qed.

(** The table of the caller once [preprocess_data] is over. *)
Lemma caller_table_after df d (is_training : bool) w :
  heap w !! df = Some d → convertible d →
  deref (preprocess_data df is_training w).2 df = engineered d.
Proof.
  intros Hdf Hconv. pose proof (lookup_lt_Some _ _ _ Hdf) as Hlt.
  destruct is_training.
  - destruct (decide ("node_id" ∈ columns d ∧ "createdAt" ∈ columns d))
      as [[Hnode Htime] | Hmiss].
    + rewrite (preprocess_data_training_run df d w Hdf Hconv Hnode Htime).
      cbn [snd]. rewrite deref_alloc_many_old
        by (rewrite length_heap_mutate; exact Hlt).
      apply deref_mutate, Hlt.
    + destruct (preprocess_data_training_KeyError df d w Hdf Hconv Hmiss)
        as (k & _ & _ & ->).
      cbn [snd]. apply deref_mutate, Hlt.
  - rewrite (preprocess_data_inference_run df d w Hdf Hconv).
    cbn [snd]. rewrite deref_alloc_many_old
      by (rewrite length_heap_mutate; exact Hlt).
    apply deref_mutate, Hlt.
Qed.

Lemma engineered_unchanged d :
  "createdAt" ∉ columns d → (∀ c, c ∈ features → c ∈ columns d) →
  engineered d = d.
Proof.
  intros Hno Hall. unfold engineered, with_temporal.
  rewrite bool_decide_eq_false_2 by exact Hno.
  assert (∀ cs, (∀ c, c ∈ cs → c ∈ columns d) → fold_left fill_column cs d = d)
    as Hfold.
  { induction cs as [| c cs IH]; intros Hcs; [reflexivity |].
    simpl. unfold fill_column at 2.
    rewrite bool_decide_eq_true_2 by (apply Hcs, list_elem_of_here).
    apply IH. intros c' Hc'. apply Hcs, list_elem_of_further, Hc'. }
  apply Hfold, Hall.
Qed.

Lemma engineered_changed d c :
  c ∈ features → c ∉ columns d → engineered d ≠ d.
Proof.
  intros Hc Hmiss Heq. apply Hmiss. rewrite <- Heq.
  apply features_in_engineered, Hc.
Qed.

(** C10 (amended). The feature builder works on the table of the caller,
    in both modes.  After a call whose timestamps can be read, whatever its
    outcome, the caller finds its table with the same rows in the same
    order and with the same labels, where
    - [createdAt], if present, holds the timestamps read, and [hour] and
      [day_of_week] hold the values derived from them;
    - every feature still missing holds 0;
    - the columns are those of the input and the seven features, so that
      there is no target column, and every other column is as it was.
    The table differs from the one passed in as soon as a feature was
    missing; a table without [createdAt] that has the seven features is
    left as it was, and so is any table when a timestamp cannot be read. *)
Theorem preprocess_data_mutates_argument
    (df : nat) (d : DataFrame) (is_training : bool) (w : World) :
  heap w !! df = Some d →
  let after := deref (preprocess_data df is_training w).2 df in
  (convertible d →
     (∀ c, c ∈ columns after ↔ c ∈ columns d ∨ c ∈ features)
     ∧ length (rows after) = length (rows d)
     ∧ (∀ i r, rows d !! i = Some r →
          ∃ r', rows after !! i = Some r' ∧ label r' = label r
            ∧ ("createdAt" ∈ columns d →
                 cell r' "createdAt" = as_datetime (cell r "createdAt")
                 ∧ cell r' "hour" = hour_of (as_datetime (cell r "createdAt"))
                 ∧ cell r' "day_of_week"
                   = dayofweek_of (as_datetime (cell r "createdAt")))
            ∧ (∀ c, c ∈ features → c ∉ columns d →
                 ¬ ("createdAt" ∈ columns d ∧ (c = "hour" ∨ c = "day_of_week")) →
                 cell r' c = Num 0)
            ∧ (∀ c, c ∈ columns d → c ≠ "createdAt" → c ≠ "hour" →
                 c ≠ "day_of_week" → cell r' c = cell r c))
     ∧ ((∃ c, c ∈ features ∧ c ∉ columns d) → after ≠ d)
     ∧ ("createdAt" ∉ columns d → (∀ c, c ∈ features → c ∈ columns d) →
        after = d))
  ∧ (¬ convertible d → (preprocess_data df is_training w).2 = w ∧ after = d).
Proof.
  intros Hdf after. split.
  - intros Hconv. subst after.
    rewrite (caller_table_after df d is_training w Hdf Hconv).
    split; [apply in_columns_engineered |].
    split; [rewrite rows_engineered; apply length_map |].
    split; [| split].
    + intros i r Hi. exists (engineer_row (columns d) r).
      split; [rewrite rows_engineered, list_lookup_fmap, Hi; reflexivity |].
      split; [apply label_engineer_row |].
      split; [| split].
      * intros Hc. split; [apply cell_engineer_row_createdAt, Hc |].
        rewrite !cell_engineer_row.
        rewrite !bool_decide_eq_false_2.
        -- split; [apply cell_temporal_row_hour | apply cell_temporal_row_day_of_week];
             exact Hc.
        -- intros [_ Hnot]. apply Hnot, in_columns_with_temporal. simpl. auto.
        -- intros [_ Hnot]. apply Hnot, in_columns_with_temporal. simpl. auto.
      * intros c Hc Hmiss Hder. apply cell_engineer_row_missing; assumption.
      * intros c Hc H1 H2 H3. apply cell_engineer_row_kept; assumption.
    + intros (c & Hc & Hmiss). apply (engineered_changed d c Hc Hmiss).
    + apply engineered_unchanged.
  - intros Hconv. subst after.
    destruct (preprocess_data_not_convertible df d is_training w Hdf Hconv)
      as [msg ->].
    cbn [snd]. split; [reflexivity | apply deref_Some, Hdf].
Qed.

(** ** Sorted lists *)

Lemma StronglySorted_filter {A} (R : relation A) (P : A → Prop)
    `{∀ x, Decision (P x)} (l : list A) :
  StronglySorted R l → StronglySorted R (filter P l).
Proof.
  induction 1 as [| x l Hl IH Hx]; [constructor |].
  rewrite filter_cons. destruct (decide (P x)); [| exact IH].
  constructor; [exact IH |].
  apply Forall_forall. intros y Hy. apply list_elem_of_filter in Hy as [_ Hy].
  rewrite Forall_forall in Hx. apply Hx, Hy.
Qed.

(** A sorted list that has the elements of a strictly increasing list is
    that list. *)
Lemma sorted_strict_unique {A} (R : relation A) (l m : list A) :
  StronglySorted R l → StronglySorted (λ a b, ¬ R b a) m → l ≡ₚ m → l = m.
Proof.
  intros Hl Hm. revert l Hl. induction Hm as [| y m Hm IH Hy]; intros l Hl Hperm.
  - apply Permutation_nil_r in Hperm. exact Hperm.
  - destruct l as [| x l]; [apply Permutation_nil_cons in Hperm as [] |].
    apply StronglySorted_inv in Hl as [Hl Hx].
    rewrite Forall_forall in Hx, Hy.
    assert (x = y) as ->.
    { assert (x ∈ y :: m) as Hxin by (rewrite <- Hperm; apply list_elem_of_here).
      apply elem_of_cons in Hxin as [-> | Hxin]; [reflexivity |].
      assert (y ∈ x :: l) as Hyin by (rewrite Hperm; apply list_elem_of_here).
      apply elem_of_cons in Hyin as [-> | Hyin]; [reflexivity |].
      exfalso. exact (Hy x Hxin (Hx y Hyin)). }
    f_equal. apply IH; [exact Hl |]. apply (Permutation_cons_inv Hperm).
Qed.

Lemma filter_cons_inv {A} (P : A → Prop) `{∀ x, Decision (P x)} (l : list A) x xs :
  filter P l = x :: xs →
  ∃ l1 l2, l = l1 ++ x :: l2 ∧ filter P l1 = [] ∧ filter P l2 = xs ∧ P x.
Proof.
  induction l as [| a l IH]; [discriminate |].
  rewrite filter_cons. destruct (decide (P a)) as [Ha | Ha].
  - intros Heq. injection Heq as -> <-. exists [], l. auto.
  - intros Heq. destruct (IH Heq) as (l1 & l2 & -> & H1 & H2 & Hx).
    exists (a :: l1), l2. split; [reflexivity |].
    rewrite filter_cons, decide_False by exact Ha. auto.
Qed.

(** The tables that [pd.read_csv] makes have distinct labels. *)
Lemma labels_read_csv (k : nat) (records : list (gmap string Cell)) :
  map label (imap (λ i cs, mkRow (Z.of_nat (k + i)) cs) records)
  = map Z.of_nat (seq k (length records)).
Proof.
  revert k. induction records as [| cs records IH]; intros k; [reflexivity |].
  simpl. rewrite Nat.add_0_r. f_equal.
  rewrite <- (IH (S k)). f_equal. apply imap_ext. intros i x _. simpl.
  f_equal. lia.
Qed.

Lemma NoDup_labels_read_csv (records : list (gmap string Cell)) :
  NoDup (map label (imap (λ i cs, mkRow (Z.of_nat i) cs) records)).
Proof.
  change (NoDup (map label (imap (λ i cs, mkRow (Z.of_nat (0 + i)) cs) records))).
  rewrite (labels_read_csv 0 records).
  apply (NoDup_fmap_2 Z.of_nat), NoDup_seq.
Qed.

(** With distinct labels, a row is found at one place only. *)
Lemma unique_position (pre pre' post post' : list Row) r r' :
  NoDup (map label (pre ++ r :: post)) →
  pre ++ r :: post = pre' ++ r' :: post' → label r = label r' →
  pre = pre' ∧ r = r' ∧ post = post'.
Proof.
  revert pre'. induction pre as [| a pre IH]; intros pre' Hnd Heq Hlab.
  - destruct pre' as [| a' pre']; simpl in *.
    + injection Heq as -> ->. auto.
    + injection Heq as -> ->. exfalso.
      apply NoDup_cons in Hnd as [Hnot _]. apply Hnot.
      rewrite Hlab, map_app. simpl. apply elem_of_app. right. apply list_elem_of_here.
  - destruct pre' as [| a' pre']; simpl in *.
    + injection Heq as -> <-. exfalso.
      apply NoDup_cons in Hnd as [Hnot _]. apply Hnot.
      rewrite <- Hlab, map_app. simpl. apply elem_of_app. right. apply list_elem_of_here.
    + injection Heq as -> Heq. apply NoDup_cons in Hnd as [_ Hnd].
      destruct (IH pre' Hnd Heq Hlab) as (-> & -> & ->). auto.
Qed.

Lemma unique_label (rs : list Row) r r' :
  NoDup (map label rs) → r ∈ rs → r' ∈ rs → label r = label r' → r = r'.
Proof.
  intros Hnd Hr Hr' Hlab.
  apply list_elem_of_split in Hr as (pre & post & ->).
  apply list_elem_of_split in Hr' as (pre' & post' & Heq).
  destruct (unique_position pre pre' post post' r r' Hnd Heq Hlab) as (_ & Hrr & _).
  exact Hrr.
Qed.

(** ** Targets, node by node *)

(** The rows of the node [n]. *)
Definition of_node (n : Cell) (r : Row) : bool := cell_eqb (cell r "node_id") n.

Definition humidity_of_first (rs : list Row) : Cell :=
  match rs with
  | [] => NA
  | r :: _ => cell r "humidity_percent"
  end.

Lemma next_in_group_filter n key post :
  cell_eqb key n = true →
  next_in_group "node_id" "humidity_percent" key post
  = humidity_of_first (filter (λ r, of_node n r) post).
Proof.
  intros Hkey. induction post as [| a post IH]; [reflexivity |].
  simpl. rewrite filter_cons. unfold of_node at 1.
  destruct (cell_eqb (cell a "node_id") key) eqn:Ha.
  - rewrite decide_True; [reflexivity |].
    apply Is_true_true. exact (cell_eqb_trans _ _ _ Ha Hkey).
  - rewrite decide_False; [exact IH |].
    intros Hn. apply Is_true_true in Hn.
    rewrite cell_eqb_sym in Hkey.
    rewrite (cell_eqb_trans _ _ _ Hn Hkey) in Ha. discriminate.
Qed.

(** The target of a row of node [n] is the humidity of the next row of that
    node. *)
Lemma future_of_group n r post :
  isna n = false → of_node n r = true →
  future_of r post = humidity_of_first (filter (λ r, of_node n r) post).
Proof.
  intros Hn Hr. unfold future_of.
  rewrite (cell_eqb_isna _ _ Hr), Hn.
  apply next_in_group_filter. exact Hr.
Qed.

Lemma in_with_future_iff x S :
  x ∈ with_future S
  ↔ ∃ pre r post, S = pre ++ r :: post
                  ∧ x = set_cell "humidity_future" (future_of r post) r.
Proof.
  induction S as [| a S IH]; simpl.
  - split; [intros Hx; apply elem_of_nil in Hx as [] |].
    intros (pre & r & post & Heq & _). destruct pre; discriminate.
  - rewrite elem_of_cons, IH. split.
    + intros [-> | (pre & r & post & -> & ->)].
      * exists [], a, S. auto.
      * exists (a :: pre), r, post. auto.
    + intros (pre & r & post & Heq & ->). destruct pre as [| b pre].
      * injection Heq as -> ->. left. reflexivity.
      * injection Heq as -> ->. right. exists pre, r, post. auto.
Qed.

(** The target column of the rows kept out of the sorted rows [S]. *)
Definition targets (S : list Row) : Series :=
  map (λ r, (label r, cell r "humidity_future"))
      (filter (complete_in ["humidity_future"]) (with_future S)).

Lemma in_targets l v S :
  (l, v) ∈ targets S
  ↔ ∃ pre r post, S = pre ++ r :: post ∧ l = label r
                  ∧ v = future_of r post ∧ isna v = false.
Proof.
  unfold targets. rewrite list_elem_of_fmap. split.
  - intros (x & Heq & Hx). apply list_elem_of_filter in Hx as [Hc Hx].
    apply in_with_future_iff in Hx as (pre & r & post & -> & ->).
    injection Heq as -> ->. exists pre, r, post.
    unfold complete_in in Hc. simpl in Hc.
    rewrite cell_set_cell_eq in *. split; [reflexivity |].
    split; [reflexivity |]. split; [reflexivity |].
    destruct (isna (future_of r post)); [destruct Hc | reflexivity].
  - intros (pre & r & post & -> & -> & -> & Hv).
    exists (set_cell "humidity_future" (future_of r post) r).
    rewrite cell_set_cell_eq. split; [reflexivity |].
    apply list_elem_of_filter. split.
    + unfold complete_in. simpl. rewrite cell_set_cell_eq, Hv. exact I.
    + apply in_with_future_iff. exists pre, r, post. auto.
Qed.

(** With distinct labels, the row at a given place of the sorted rows has
    one target at most, the one computed at that place. *)
Lemma target_at (pre post : list Row) r v :
  NoDup (map label (pre ++ r :: post)) →
  (label r, v) ∈ targets (pre ++ r :: post)
  ↔ v = future_of r post ∧ isna v = false.
Proof.
  intros Hnd. rewrite in_targets. split.
  - intros (pre' & r' & post' & Heq & Hlab & -> & Hv).
    destruct (unique_position pre pre' post post' r r' Hnd Heq Hlab)
      as (_ & <- & <-). auto.
  - intros [-> Hv]. exists pre, r, post. auto.
Qed.

Lemma label_not_in_targets (pre post : list Row) r :
  NoDup (map label (pre ++ r :: post)) →
  future_of r post = NA →
  label r ∉ map fst (targets (pre ++ r :: post)).
Proof.
  intros Hnd Hna Hin. apply list_elem_of_fmap in Hin as ([l v] & Hl & Hin).
  simpl in Hl. subst l. apply (target_at pre post r v Hnd) in Hin as [-> Hv].
  rewrite Hna in Hv. discriminate.
Qed.

Lemma training_y_targets e :
  training_y e = targets (by_node_and_time (rows e)).
Proof. reflexivity. Qed.

Lemma labels_training_X e :
  map label (rows (training_X e)) = map fst (training_y e).
Proof.
  unfold training_X, training_y. cbn [rows]. rewrite !map_map. reflexivity.
Qed.

(** The rows of a node, before and after feature engineering. *)
Lemma of_node_engineer_row cols n r :
  "node_id" ∈ cols → of_node n (engineer_row cols r) = of_node n r.
Proof.
  intros Hc. unfold of_node.
  rewrite cell_engineer_row_kept by (exact Hc || discriminate). reflexivity.
Qed.

Lemma filter_of_node_engineered cols n rs :
  "node_id" ∈ cols →
  filter (λ r, of_node n r) (map (engineer_row cols) rs)
  = map (engineer_row cols) (filter (λ r, of_node n r) rs).
Proof.
  intros Hc. induction rs as [| r rs IH]; [reflexivity |].
  simpl. rewrite !filter_cons, of_node_engineer_row by exact Hc.
  destruct (decide (of_node n r)); simpl; rewrite IH; reflexivity.
Qed.

Lemma labels_engineered d : map label (rows (engineered d)) = map label (rows d).
Proof.
  rewrite rows_engineered, map_map. apply map_ext. intros r.
  apply label_engineer_row.
Qed.

Lemma NoDup_labels_Permutation (l l' : list Row) :
  l ≡ₚ l' → NoDup (map label l') → NoDup (map label l).
Proof. intros Hperm Hnd. rewrite Hperm. exact Hnd. Qed.

Lemma NoDup_labels_sorted d :
  NoDup (map label (rows d)) →
  NoDup (map label (by_node_and_time (rows (engineered d)))).
Proof.
  intros Hnd. apply (NoDup_labels_Permutation _ (rows (engineered d))).
  - apply by_node_and_time_Permutation.
  - rewrite labels_engineered. exact Hnd.
Qed.

Lemma single_row_no_target (S : list Row) n g :
  isna n = false → NoDup (map label S) →
  filter (λ r, of_node n r) S = [g] →
  label g ∉ map fst (targets S).
Proof.
  intros Hn Hnd Hfilter.
  apply filter_cons_inv in Hfilter as (A & B & -> & _ & HB & Hg).
  apply Is_true_true in Hg.
  apply (label_not_in_targets A B g Hnd).
  rewrite (future_of_group n g B Hn Hg), HB. reflexivity.
Qed.

Lemma three_rows_targets (S : list Row) n g1 g2 g3 :
  isna n = false → NoDup (map label S) →
  filter (λ r, of_node n r) S = [g1; g2; g3] →
  isna (cell g2 "humidity_percent") = false →
  isna (cell g3 "humidity_percent") = false →
  (∀ v, (label g1, v) ∈ targets S ↔ v = cell g2 "humidity_percent")
  ∧ (∀ v, (label g2, v) ∈ targets S ↔ v = cell g3 "humidity_percent")
  ∧ label g3 ∉ map fst (targets S).
Proof.
  intros Hn Hnd Hfilter H2 H3.
  apply filter_cons_inv in Hfilter as (A & S1 & -> & _ & HS1 & Hg1).
  pose proof HS1 as HS1'.
  apply filter_cons_inv in HS1 as (B & S2 & -> & _ & HS2 & Hg2).
  pose proof HS2 as HS2'.
  apply filter_cons_inv in HS2 as (C & D & -> & _ & HD & Hg3).
  apply Is_true_true in Hg1, Hg2, Hg3.
  split; [| split].
  - intros v. rewrite (target_at A _ g1 v Hnd).
    rewrite (future_of_group n g1 _ Hn Hg1), HS1'. simpl.
    split; [tauto | intros ->; auto].
  - intros v.
    replace (A ++ g1 :: B ++ g2 :: C ++ g3 :: D)
      with ((A ++ g1 :: B) ++ g2 :: C ++ g3 :: D) in *
      by (rewrite <- app_assoc; reflexivity).
    rewrite (target_at (A ++ g1 :: B) _ g2 v Hnd).
    rewrite (future_of_group n g2 _ Hn Hg2), HS2'. simpl.
    split; [tauto | intros ->; auto].
  - replace (A ++ g1 :: B ++ g2 :: C ++ g3 :: D)
      with ((A ++ g1 :: B ++ g2 :: C) ++ g3 :: D) in *
      by (rewrite <- !app_assoc; simpl; rewrite <- app_assoc; reflexivity).
    apply (label_not_in_targets _ D g3 Hnd).
    rewrite (future_of_group n g3 D Hn Hg3), HD. reflexivity.
Qed.

(** Two rows of one node are ordered by their timestamps. *)
Lemma key_leb_same_node n a b :
  of_node n a = true → of_node n b = true →
  key_leb ["node_id"; "createdAt"] a b
  = cell_leb (cell a "createdAt") (cell b "createdAt").
Proof.
  unfold of_node. intros Ha Hb. simpl.
  assert (cell_eqb (cell a "node_id") (cell b "node_id") = true) as Hab.
  { apply (cell_eqb_trans _ n); [exact Ha | rewrite cell_eqb_sym; exact Hb]. }
  unfold cell_eqb in Hab. apply andb_true_iff in Hab as [-> ->].
  destruct (cell_leb (cell a "createdAt") (cell b "createdAt")); [| reflexivity].
  destruct (cell_leb (cell b "createdAt") (cell a "createdAt")); reflexivity.
Qed.

Lemma later_not_before n a b ta tb :
  of_node n a = true → of_node n b = true →
  cell a "createdAt" = Time ta → cell b "createdAt" = Time tb → (ta < tb)%Z →
  ¬ key_le ["node_id"; "createdAt"] b a.
Proof.
  intros Ha Hb Hta Htb Hlt Hle. unfold key_le in Hle. apply Is_true_true in Hle.
  rewrite (key_leb_same_node n b a Hb Ha), Hta, Htb in Hle. simpl in Hle.
  apply Z.leb_le in Hle. lia.
Qed.

(** Sorting puts the three rows of a node in the order of their
    timestamps. *)
Lemma sorted_group (rs : list Row) n g1 g2 g3 t1 t2 t3 :
  filter (λ r, of_node n r) rs ≡ₚ [g1; g2; g3] →
  cell g1 "createdAt" = Time t1 → cell g2 "createdAt" = Time t2 →
  cell g3 "createdAt" = Time t3 → (t1 < t2 < t3)%Z →
  filter (λ r, of_node n r) (by_node_and_time rs) = [g1; g2; g3].
Proof.
  intros Hperm Ht1 Ht2 Ht3 Hlt.
  assert (∀ g, g ∈ [g1; g2; g3] → of_node n g = true) as Hnode.
  { intros g Hg. rewrite <- Hperm in Hg.
    apply list_elem_of_filter in Hg as [Hg _]. apply Is_true_true, Hg. }
  assert (of_node n g1 = true) as Hg1
    by (apply Hnode; rewrite !elem_of_cons; auto).
  assert (of_node n g2 = true) as Hg2
    by (apply Hnode; rewrite !elem_of_cons; auto).
  assert (of_node n g3 = true) as Hg3
    by (apply Hnode; rewrite !elem_of_cons; auto).
  apply (sorted_strict_unique (key_le ["node_id"; "createdAt"])).
  - apply StronglySorted_filter, by_node_and_time_sorted.
  - repeat constructor.
    + apply (later_not_before n g2 g3 t2 t3); (assumption || lia).
    + apply (later_not_before n g1 g2 t1 t2); (assumption || lia).
    + apply (later_not_before n g1 g3 t1 t3); (assumption || lia).
  - rewrite (by_node_and_time_Permutation rs). exact Hperm.
Qed.

(** Every row of the training table comes from a reading of the input. *)
Lemma training_X_row e x :
  x ∈ rows (training_X e) →
  ∃ r0, r0 ∈ rows e ∧ label x = label r0
        ∧ ∀ c, c ∈ features → cell x c = cell r0 c.
Proof.
  unfold training_X. cbn [rows]. intros Hx.
  apply list_elem_of_fmap in Hx as (x1 & -> & Hx1).
  apply in_training_rows in Hx1 as (r0 & v & Hr0 & ->).
  exists r0. split; [exact Hr0 |]. split; [reflexivity |].
  intros c Hc. rewrite cell_select_row by exact Hc.
  apply cell_set_cell_ne. intros <-. exact (humidity_future_not_feature Hc).
Qed.

Lemma in_rows_engineered d r0 :
  r0 ∈ rows (engineered d) →
  ∃ r, r ∈ rows d ∧ r0 = engineer_row (columns d) r.
Proof.
  rewrite rows_engineered. intros Hr0.
  apply list_elem_of_fmap in Hr0 as (r & -> & Hr). exists r. auto.
Qed.

Lemma training_X_row_origin d x :
  x ∈ rows (training_X (engineered d)) →
  ∃ r, r ∈ rows d ∧ label x = label r
       ∧ ∀ c, c ∈ features → cell x c = cell (engineer_row (columns d) r) c.
Proof.
  intros Hx. destruct (training_X_row _ x Hx) as (r0 & Hr0 & Hlab & Hcells).
  destruct (in_rows_engineered d r0 Hr0) as (r & Hr & ->).
  exists r. split; [exact Hr |]. split; [| exact Hcells].
  rewrite Hlab. apply label_engineer_row.
Qed.

Lemma training_run_result df d w :
  heap w !! df = Some d → convertible d →
  "node_id" ∈ columns d → "createdAt" ∈ columns d →
  ∃ X w', preprocess_data df true w
          = (Ret (Training X (training_y (engineered d))), w')
          ∧ deref w' X = training_X (engineered d).
Proof.
  intros Hdf Hconv Hnode Htime. eexists _, _.
  split; [apply (preprocess_data_training_run df d w Hdf Hconv Hnode Htime) |].
  rewrite <- (length_heap_mutate df (engineered d) w). apply deref_alloc3.
Qed.

Lemma as_datetime_Some c t : to_datetime_cell c = Some t → as_datetime c = t.
Proof. intros Hc. unfold as_datetime. rewrite Hc. reflexivity. Qed.

(** C2. Target correctness: for a node with three readings, taken at
    [t1 < t2 < t3] with humidities [h1], [h2], [h3], wherever they stand in
    the table, the training build returns; the row of the reading at [t1]
    has the target [h2], the row of the reading at [t2] has the target
    [h3] (each of them is in [X], with the humidity of its reading), and
    the reading at [t3] has no row in [X] nor in [y].  Rows are known by
    their index label, which the build keeps. *)
Theorem target_correctness
    (df : nat) (d : DataFrame) (w : World) (n : Cell)
    (r1 r2 r3 : Row) (t1 t2 t3 : Z) (h1 h2 h3 : Q) :
  heap w !! df = Some d →
  "node_id" ∈ columns d → "createdAt" ∈ columns d →
  "humidity_percent" ∈ columns d →
  convertible d →
  NoDup (map label (rows d)) →
  isna n = false →
  filter (λ r, of_node n r) (rows d) ≡ₚ [r1; r2; r3] →
  to_datetime_cell (cell r1 "createdAt") = Some (Time t1) →
  to_datetime_cell (cell r2 "createdAt") = Some (Time t2) →
  to_datetime_cell (cell r3 "createdAt") = Some (Time t3) →
  (t1 < t2 < t3)%Z →
  cell r1 "humidity_percent" = Num h1 →
  cell r2 "humidity_percent" = Num h2 →
  cell r3 "humidity_percent" = Num h3 →
  ∃ X y w',
    preprocess_data df true w = (Ret (Training X y), w')
    ∧ map label (rows (deref w' X)) = map fst y
    ∧ (∀ v, (label r1, v) ∈ y ↔ v = Num h2)
    ∧ (∀ v, (label r2, v) ∈ y ↔ v = Num h3)
    ∧ (label r3 ∉ map fst y)
    ∧ (∀ x, x ∈ rows (deref w' X) → label x = label r1 →
            cell x "humidity_percent" = Num h1)
    ∧ (∀ x, x ∈ rows (deref w' X) → label x = label r2 →
            cell x "humidity_percent" = Num h2).
Proof.
  intros Hdf Hnode Htime Hhum Hconv Hnd Hn Hperm Ht1 Ht2 Ht3 Hlt Hh1 Hh2 Hh3.
  destruct (training_run_result df d w Hdf Hconv Hnode Htime)
    as (X & w' & Hrun & HX).
  exists X, (training_y (engineered d)), w'. split; [exact Hrun |].
  rewrite HX. split; [apply labels_training_X |].
  set (g := engineer_row (columns d)).
  assert (∀ r, cell (g r) "humidity_percent" = cell r "humidity_percent") as Hkept.
  { intros r. apply cell_engineer_row_kept; (exact Hhum || discriminate). }
  assert (∀ r t, to_datetime_cell (cell r "createdAt") = Some (Time t) →
                 cell (g r) "createdAt" = Time t) as Htimes.
  { intros r t Hr. unfold g. rewrite cell_engineer_row_createdAt by exact Htime.
    apply as_datetime_Some, Hr. }
  assert (filter (λ r, of_node n r) (by_node_and_time (rows (engineered d)))
          = [g r1; g r2; g r3]) as Hgroup.
  { apply (sorted_group _ n _ _ _ t1 t2 t3); auto.
    rewrite rows_engineered, filter_of_node_engineered by exact Hnode.
    apply (Permutation_map g) in Hperm. exact Hperm. }
  destruct (three_rows_targets _ n (g r1) (g r2) (g r3) Hn
              (NoDup_labels_sorted d Hnd) Hgroup)
    as (Hy1 & Hy2 & Hy3).
  { rewrite Hkept, Hh2. reflexivity. }
  { rewrite Hkept, Hh3. reflexivity. }
  unfold g in Hy1, Hy2, Hy3. rewrite !label_engineer_row in *.
  rewrite training_y_targets.
  split; [intros v; rewrite (Hy1 v), Hkept, Hh2; reflexivity |].
  split; [intros v; rewrite (Hy2 v), Hkept, Hh3; reflexivity |].
  split; [exact Hy3 |].
  assert (∀ r h x, r ∈ rows d → cell r "humidity_percent" = Num h →
            x ∈ rows (training_X (engineered d)) → label x = label r →
            cell x "humidity_percent" = Num h) as Horigin.
  { intros r h x Hr Hh Hx Hlab.
    destruct (training_X_row_origin d x Hx) as (r' & Hr' & Hlab' & Hcells).
    rewrite Hcells by compute_done.
    rewrite (unique_label (rows d) r' r Hnd Hr' Hr) by congruence.
    fold g. rewrite Hkept. exact Hh. }
  assert (∀ r, r ∈ [r1; r2; r3] → r ∈ rows d) as Hin.
  { intros r Hr. rewrite <- Hperm in Hr.
    apply list_elem_of_filter in Hr as [_ Hr]. exact Hr. }
  split; intros x Hx Hlab.
  - apply (Horigin r1 h1 x); auto. apply Hin. rewrite !elem_of_cons. auto.
  - apply (Horigin r2 h2 x); auto. apply Hin. rewrite !elem_of_cons. auto.
Qed.

(** C3. Single-reading node exclusion: for a node with exactly one
    reading, the training build returns (it is no error), and that reading
    has no row in [X] nor in [y]. *)
Theorem single_reading_node_exclusion
    (df : nat) (d : DataFrame) (w : World) (n : Cell) (r : Row) :
  heap w !! df = Some d →
  "node_id" ∈ columns d → "createdAt" ∈ columns d →
  convertible d →
  NoDup (map label (rows d)) →
  isna n = false →
  filter (λ r, of_node n r) (rows d) = [r] →
  ∃ X y w',
    preprocess_data df true w = (Ret (Training X y), w')
    ∧ (label r ∉ map label (rows (deref w' X)))
    ∧ (label r ∉ map fst y)
    ∧ length (rows (deref w' X)) = length y.
Proof.
  intros Hdf Hnode Htime Hconv Hnd Hn Hone.
  destruct (training_run_result df d w Hdf Hconv Hnode Htime)
    as (X & w' & Hrun & HX).
  exists X, (training_y (engineered d)), w'. split; [exact Hrun |].
  rewrite HX, labels_training_X.
  assert (label r ∉ map fst (training_y (engineered d))) as Hnot.
  { rewrite training_y_targets.
    rewrite <- (label_engineer_row (columns d) r).
    apply (single_row_no_target _ n); [exact Hn | apply NoDup_labels_sorted, Hnd |].
    apply Permutation_singleton_r.
    rewrite (by_node_and_time_Permutation (rows (engineered d))).
    rewrite rows_engineered, filter_of_node_engineered by exact Hnode.
    rewrite Hone. reflexivity. }
  split; [exact Hnot |]. split; [exact Hnot |].
  rewrite <- (length_map label), labels_training_X, length_map. reflexivity.
Qed.

(** ** main.py *)

Lemma bind_assoc_run {A B C} (m : Py A) (f : A → Py B) (g : B → Py C) w :
  ((m ≫= f) ≫= g) w = (m ≫= λ a, f a ≫= g) w.
Proof. unfold mbind, Py_bind, bind. destruct (m w) as [[a | e | c] w1]; reflexivity. Qed.

Lemma bind_ext_run {A B} (m : Py A) (f g : A → Py B) w :
  (∀ a w1, f a w1 = g a w1) → (m ≫= f) w = (m ≫= g) w.
Proof.
  intros Hfg. unfold mbind, Py_bind, bind.
  destruct (m w) as [[a | e | c] w1]; [apply Hfg | reflexivity | reflexivity].
Qed.

(** The run of [main] up to the fitted model and the metrics record. *)
Definition main_training : Py (nat * Dict) :=
  print (PText "--- [ML] Iniciando Pipeline de Entrenamiento de SoilNet ---" []);;
  df ← try_except
         (print (PText "[1/5] Cargando dataset desde: {}" [JStr (path_str DATA_PATH)]);;
          df ← load_dataset DATA_PATH;
          n ← df_len df;
          print (PText "-> Dataset cargado con {} registros." [JInt (Z.of_nat n)]);;
          mret df)
         (λ e,
          print (PText "Error crítico al cargar los datos: {}" [JStr (exn_str e)]);;
          sys_exit 1);
  print (PText "[2/5] Preprocesando datos y generando variables..." []);;
  built ← preprocess_data df true;
  let '(X, y) := match built with
                 | Training X y => (X, y)
                 | Inference X => (X, [])
                 end in
  n ← df_len X;
  print (PText "-> Datos procesados: {} muestras listas para el entrenamiento."
               [JInt (Z.of_nat n)]);;
  print (PText "[3/5] Inicializando el modelo de regresión..." []);;
  regressor ← SoilHumidityRegressor_init;
  print (PText "[4/5] Evaluando el rendimiento del modelo con Cross-Validation..." []);;
  metrics ← SoilHumidityRegressor_evaluate regressor X y 5;
  print (PText "-> Resultados de validación: RMSE Promedio = {:.4f} (+/- {:.4f})"
               (dict_get "rmse_mean" metrics ++ dict_get "rmse_std" metrics));;
  w ← get_world;
  let metrics := dict_set "training_timestamp" (JStr (clock w)) metrics in
  n ← df_len X;
  let metrics := dict_set "training_samples" (JInt (Z.of_nat n)) metrics in
  let metrics := dict_set "model_path" (JStr (path_str MODEL_PATH)) metrics in
  let metrics := dict_set "data_path" (JStr (path_str DATA_PATH)) metrics in
  print (PText "[5/5] Entrenando modelo final con el conjunto de datos completo..." []);;
  SoilHumidityRegressor_train regressor X y;;
  mret (regressor, metrics).

(** The end of [main]: the two artifacts are saved one after the other. *)
Definition main_persist (regressor : nat) (metrics : Dict) : Py unit :=
  print (PText "--- Guardando artefactos del entrenamiento ---" []);;
  save_model regressor MODEL_PATH;;
  save_metrics metrics METRICS_PATH;;
  print (PText "--- Pipeline de entrenamiento completado exitosamente ---" []).

Lemma main_decompose w :
  main w = (rm ← main_training; main_persist rm.1 rm.2) w.
Proof.
  symmetry. unfold main_training, main.
  repeat (rewrite bind_assoc_run; apply bind_ext_run; intros ? ?).
  match goal with
  | |- context [match ?b with Training _ _ => _ | Inference _ => _ end] =>
      destruct b
  end;
    repeat (rewrite bind_assoc_run; apply bind_ext_run; intros ? ?);
    reflexivity.
Qed.

Ltac run_io :=
  unfold path_exists, os_makedirs, joblib_dump, write_file, read_estimator,
    print, emit, get_world, raise, mbind, Py_bind, bind, mret, Py_ret, ret;
  cbn [fst snd negb andb heap estimators stdout files dirs denied clock trace
       set_heap set_estimators set_stdout set_files set_dirs set_trace].

(** What [save_model] does: it looks the directory up, creates it if need
    be, and dumps the model; when it fails no file has been written. *)
Lemma save_model_outcome (model : nat) (p : Path) (w : World) :
  ∃ evs,
    trace (save_model model p w).2 = trace w ++ evs
    ∧ (∀ ev, ev ∈ evs →
         ev ∈ [EvExists (dirname p); EvMakedirs (dirname p); EvJoblibDump p])
    ∧ (((save_model model p w).1 = Ret tt
        ∧ files (save_model model p w).2
          = <[p := FPickle (estimator_at w model)]> (files w))
       ∨ ((∃ e, (save_model model p w).1 = Raise e)
          ∧ files (save_model model p w).2 = files w)).
Proof.
  unfold save_model. run_io.
  repeat (case_bool_decide; run_io);
    rewrite <- ?app_assoc; simpl;
    (eexists; split; [reflexivity |]; split;
     [intros ev; rewrite !elem_of_cons, ?elem_of_nil; tauto |]);
    first [left; split; reflexivity | right; split; [eexists |]; reflexivity].
Qed.

(** [save_metrics] writes no file but its own. *)
Lemma save_metrics_other_files (metrics : Dict) (p q : Path) (k : Py unit) (w : World) :
  q ≠ p → (∀ w1, files (k w1).2 = files w1) →
  files ((save_metrics metrics p ≫= λ _, k) w).2 !! q = files w !! q.
Proof.
  intros Hne Hk. unfold save_metrics. run_io.
  repeat (case_bool_decide; run_io); try reflexivity;
    rewrite Hk; run_io; rewrite lookup_insert_ne by congruence; reflexivity.
Qed.

Lemma MODEL_PATH_not_METRICS_PATH : MODEL_PATH ≠ METRICS_PATH.
Proof.
  unfold MODEL_PATH, METRICS_PATH. intros Heq.
  apply app_inv_head in Heq. discriminate.
Qed.

(** C9 (amended). Persistence in sequence: once the run has a fitted model
    and a metrics record, [main] saves the model first and the metrics
    after it.
    - When saving the model fails, the run ends with that error: no file
      has been written, and nothing is even looked up for the metrics.
    - When saving the model returns, the model artifact is in place, the
      run goes on with saving the metrics, and the model artifact is still
      in place however that ends. *)
Theorem persistence_in_sequence
    (w w0 : World) (regressor : nat) (metrics : Dict) :
  main_training w = (Ret (regressor, metrics), w0) →
  let w1 := set_stdout
              (stdout w0 ++ [PText "--- Guardando artefactos del entrenamiento ---" []])
              w0 in
  (∀ e w2, save_model regressor MODEL_PATH w1 = (Raise e, w2) →
     main w = (Raise e, w2)
     ∧ files w2 = files w0
     ∧ ∃ evs, trace w2 = trace w0 ++ evs
              ∧ ∀ ev, ev ∈ evs →
                  ev ∈ [EvExists (dirname MODEL_PATH);
                        EvMakedirs (dirname MODEL_PATH);
                        EvJoblibDump MODEL_PATH])
  ∧ (∀ w2, save_model regressor MODEL_PATH w1 = (Ret tt, w2) →
     main w
     = (save_metrics metrics METRICS_PATH;;
        print (PText "--- Pipeline de entrenamiento completado exitosamente ---" []))
         w2
     ∧ files w2 !! MODEL_PATH = Some (FPickle (estimator_at w0 regressor))
     ∧ files (main w).2 !! MODEL_PATH = files w2 !! MODEL_PATH).
Proof.
  intros Htrain w1.
  assert (main w = (save_model regressor MODEL_PATH;;
                    save_metrics metrics METRICS_PATH;;
                    print (PText "--- Pipeline de entrenamiento completado exitosamente ---" []))
                     w1) as Hmain.
  { rewrite main_decompose, (bind_run _ _ _ _ _ Htrain). reflexivity. }
  destruct (save_model_outcome regressor MODEL_PATH w1)
    as (evs & Htrace & Hevs & Hfiles).
  split.
  - intros e w2 Hsave. rewrite Hsave in Htrace, Hfiles. cbn [fst snd] in *.
    split; [rewrite Hmain; apply (bind_raise _ _ _ _ _ Hsave) |].
    split.
    + destruct Hfiles as [[Hret _] | [_ Hfiles]]; [discriminate | exact Hfiles].
    + exists evs. split; [exact Htrace | exact Hevs].
  - intros w2 Hsave. rewrite Hsave in Htrace, Hfiles. cbn [fst snd] in *.
    assert (main w
            = (save_metrics metrics METRICS_PATH;;
               print (PText "--- Pipeline de entrenamiento completado exitosamente ---" []))
                w2) as Hmain2.
    { rewrite Hmain, (bind_run _ _ _ _ _ Hsave). reflexivity. }
    split; [exact Hmain2 |]. split.
    + destruct Hfiles as [[_ Hfiles] | [[e He] _]]; [| discriminate].
      rewrite Hfiles. apply lookup_insert_eq.
    + rewrite Hmain2.
      apply save_metrics_other_files;
        [exact MODEL_PATH_not_METRICS_PATH | reflexivity].
Qed.

End Properties.

(** * Further properties of the code *)

Section Further.

Context `{Externals}.

(** Unfolds the calls to the system and runs the state through them. *)
Ltac run_sys :=
  unfold path_exists, os_makedirs, joblib_dump, joblib_load, write_file,
    read_estimator, new_estimator, write_estimator, new_df, read_df,
    print, emit, get_world, raise, sys_exit, mbind, Py_bind, bind, mret,
    Py_ret, ret;
  cbn [fst snd negb andb heap estimators stdout files dirs denied clock trace
       set_heap set_estimators set_stdout set_files set_dirs set_trace].

(** ** utils.py: loading and saving *)

(** X1. [load_dataset] on a path where there is nothing: it raises
    [FileNotFoundError] after the look-up; nothing is read. *)
Theorem load_dataset_missing (p : Path) (w : World) :
  p ∉ dirs w → p ∉ dom (files w) →
  ∃ msg,
    load_dataset p w
    = (Raise (FileNotFoundError msg), set_trace (trace w ++ [EvExists p]) w).
Proof.
  intros Hdir Hfile. eexists. unfold load_dataset. run_sys.
  rewrite bool_decide_eq_false_2 by tauto. reflexivity.
Qed.

(** X2. [load_dataset] on a CSV file: a new table, with the header as its
    columns, one row per record in the order of the file, labelled
    0, 1, 2, ... (so that no two rows share a label); the tables there
    were are as they were. *)
Theorem load_dataset_reads
    (p : Path) (header : list string) (records : list (gmap string Cell))
    (w : World) :
  p ≠ [] → files w !! p = Some (FCsv header records) →
  ∃ w', load_dataset p w = (Ret (length (heap w)), w')
        ∧ columns (deref w' (length (heap w))) = header
        ∧ map cells (rows (deref w' (length (heap w)))) = records
        ∧ map label (rows (deref w' (length (heap w))))
          = map Z.of_nat (seq 0 (length records))
        ∧ NoDup (map label (rows (deref w' (length (heap w)))))
        ∧ (∀ l, l < length (heap w) → deref w' l = deref w l)
        ∧ trace w' = trace w ++ [EvExists p; EvReadCsv p].
Proof.
  intros Hp Hfile. unfold load_dataset, pd_read_csv. run_sys.
  rewrite bool_decide_eq_true_2
    by (split; [exact Hp | right; apply elem_of_dom; eauto]).
  run_sys. rewrite Hfile. run_sys.
  eexists. split; [reflexivity |].
  set (d := mkDF header (imap (λ i cs, mkRow (Z.of_nat i) cs) records)).
  assert (∀ w0, deref (set_heap (heap w ++ [d]) w0) (length (heap w)) = d) as Hd.
  { intros w0. unfold deref. cbn [heap set_heap].
    rewrite lookup_app_r by lia. rewrite Nat.sub_diag. reflexivity. }
  rewrite Hd. subst d. cbn [columns rows].
  split; [reflexivity |].
  split.
  { assert (∀ (f : nat → Z), map cells (imap (λ i cs, mkRow (f i) cs) records)
                             = records) as Hgen.
    { clear Hfile Hd.
      induction records as [| cs records IH]; intros f; [reflexivity |].
      simpl. f_equal. apply (IH (λ i, f (S i))). }
    apply (Hgen Z.of_nat). }
  split; [apply (labels_read_csv 0 records) |].
  split; [apply NoDup_labels_read_csv |].
  split.
  - intros l Hl. unfold deref. cbn [heap set_heap set_trace].
    rewrite lookup_app_l by exact Hl. reflexivity.
  - cbn [trace set_heap set_trace]. rewrite <- app_assoc. reflexivity.
Qed.

Lemma dirname_nil_inv (p : Path) : dirname p ≠ [] → p ≠ [].
Proof. intros Hd ->. apply Hd. reflexivity. Qed.

(** What is known once [save_model] has returned. *)
Lemma save_model_Ret (model : nat) (p : Path) (w w1 : World) :
  save_model model p w = (Ret tt, w1) →
  p ≠ []
  ∧ files w1 = <[p := FPickle (estimator_at w model)]> (files w)
  ∧ estimators w1 = estimators w
  ∧ heap w1 = heap w.
Proof.
  unfold save_model. run_sys.
  repeat (case_bool_decide; run_sys); intros Hrun;
    try discriminate Hrun;
    apply Ret_inv in Hrun as [_ <-]; cbn [files estimators heap set_stdout set_files
      set_trace set_dirs];
    (split; [apply dirname_nil_inv; tauto | auto]).
Qed.

(** X3. Round trip: once [save_model] has returned, [load_model] on the
    same path returns a new regressor object in the state the saved one
    was in, which predicts what the saved one predicts, on every table.
    Whatever was at the path before is replaced. *)
Theorem save_model_load_model (model : nat) (p : Path) (w w1 : World) :
  save_model model p w = (Ret tt, w1) →
  ∃ w2, load_model p w1 = (Ret (length (estimators w1)), w2)
        ∧ estimator_at w2 (length (estimators w1)) = estimator_at w model
        ∧ files w2 = files w1
        ∧ ∀ X, (estimator_predict (length (estimators w1)) X w2).1
               = (estimator_predict model X w).1.
Proof.
  intros Hsave.
  destruct (save_model_Ret model p w w1 Hsave) as (Hp & Hfiles & Hest & Hheap).
  unfold load_model. run_sys.
  rewrite bool_decide_eq_true_2
    by (split; [exact Hp | right; rewrite Hfiles; set_solver]).
  run_sys. rewrite Hfiles, lookup_insert_eq. run_sys.
  eexists. split; [reflexivity |].
  assert (∀ w0, estimator_at (set_estimators (estimators w1 ++ [estimator_at w model]) w0)
                  (length (estimators w1)) = estimator_at w model) as Hnew.
  { intros w0. unfold estimator_at at 1. cbn [estimators set_estimators].
    rewrite lookup_app_r by lia. rewrite Nat.sub_diag. reflexivity. }
  split; [apply Hnew |].
  split; [exact Hfiles |].
  intros X. unfold estimator_predict. run_sys. fold (estimator_at w model).
  match goal with
  | |- context [default default_estimator (?es !! ?i)] =>
      change (default default_estimator (es !! i))
        with (estimator_at (set_estimators es w1) i)
  end.
  rewrite Hnew. unfold deref. cbn [heap set_trace set_estimators].
  rewrite Hheap.
  destruct (fitted_on (estimator_at w model)); [| reflexivity].
  destruct (rf_predict _ _); reflexivity.
Qed.

(** X4. [load_model] on a path where there is nothing: it raises
    [FileNotFoundError] after the look-up; nothing is unpickled. *)
Theorem load_model_missing (p : Path) (w : World) :
  p ∉ dirs w → p ∉ dom (files w) →
  ∃ msg,
    load_model p w
    = (Raise (FileNotFoundError msg), set_trace (trace w ++ [EvExists p]) w).
Proof.
  intros Hdir Hfile. eexists. unfold load_model. run_sys.
  rewrite bool_decide_eq_false_2 by tauto. reflexivity.
Qed.

(** X5. A path without a directory part.  [save_model] looks the empty
    directory name up, asks [os.makedirs] for it and fails with
    [FileNotFoundError], before anything is dumped; [save_metrics], which
    tests the directory name first, looks nothing up, makes no directory
    and writes the file (where the system lets it). *)
Theorem save_without_directory
    (name : string) (model : nat) (metrics : Dict) (w : World) :
  [name] ∉ denied w → [name] ∉ dirs w →
  (∃ msg,
     save_model model [name] w
     = (Raise (FileNotFoundError msg),
        set_trace (trace w ++ [EvExists []; EvMakedirs []]) w))
  ∧ (∃ w', save_metrics metrics [name] w = (Ret tt, w')
           ∧ files w' = <[[name] := FJson metrics]> (files w)
           ∧ dirs w' = dirs w
           ∧ trace w' = trace w ++ [EvOpenWrite [name]]).
Proof.
  intros Hdenied Hdir. split.
  - eexists. unfold save_model. cbn [dirname removelast]. run_sys.
    rewrite bool_decide_eq_false_2 by (intros [Hne _]; apply Hne; reflexivity).
    run_sys. rewrite <- app_assoc. reflexivity.
  - unfold save_metrics. cbn [dirname removelast]. run_sys.
    rewrite bool_decide_eq_false_2 by (intros Hne; apply Hne; reflexivity).
    run_sys. cbn [dirname removelast].
    rewrite bool_decide_eq_false_2
      by (intros [? | [? | [Hne _]]]; [tauto | tauto | apply Hne; reflexivity]).
    eexists. split; [reflexivity |]. cbn [files dirs trace set_stdout set_files set_trace].
    auto.
Qed.

(** ** What a computation leaves as it was *)

(** [keeps R m]: however [m] ends, the state it leaves is related by [R]
    to the state it started from. *)
Definition keeps {A} (R : relation World) (m : Py A) : Prop :=
  ∀ w, R w (m w).2.

Section Keeps.

Context (R : relation World) `{!PreOrder R}.

Lemma keeps_ret {A} (a : A) : keeps R (mret a).
Proof. intros w. reflexivity. Qed.

Lemma keeps_raise {A} (e : Exn) : keeps R (@raise A e).
Proof. intros w. reflexivity. Qed.

Lemma keeps_sys_exit {A} (c : Z) : keeps R (@sys_exit A c).
Proof. intros w. reflexivity. Qed.

Lemma keeps_bind {A B} (m : Py A) (k : A → Py B) :
  keeps R m → (∀ a, keeps R (k a)) → keeps R (m ≫= k).
Proof.
  intros Hm Hk w. unfold mbind, Py_bind, bind. specialize (Hm w).
  destruct (m w) as [[a | e | c] w1]; cbn [snd] in *; [| exact Hm | exact Hm].
  transitivity w1; [exact Hm | apply Hk].
Qed.

Lemma keeps_try_except {A} (m : Py A) (h : Exn → Py A) :
  keeps R m → (∀ e, keeps R (h e)) → keeps R (try_except m h).
Proof.
  intros Hm Hh w. unfold try_except. specialize (Hm w).
  destruct (m w) as [[a | e | c] w1]; cbn [snd] in *; [exact Hm | | exact Hm].
  transitivity w1; [exact Hm | apply Hh].
Qed.

Lemma keeps_for_each {A} (l : list A) (body : A → Py unit) :
  (∀ a, keeps R (body a)) → keeps R (for_each l body).
Proof.
  intros Hb. induction l as [| a l IH]; simpl.
  - apply keeps_ret.
  - apply keeps_bind; [apply Hb | intros _; exact IH].
Qed.

Lemma keeps_py_map {A B} (f : A → Py B) (l : list A) :
  (∀ a, keeps R (f a)) → keeps R (py_map f l).
Proof.
  intros Hf. induction l as [| a l IH]; simpl.
  - apply keeps_ret.
  - apply keeps_bind; [apply Hf | intros b].
    apply keeps_bind; [exact IH | intros bs; apply keeps_ret].
Qed.

Lemma keeps_state {A} (f : World → A) (g : World → World) :
  (∀ w, R w (g w)) → keeps R (λ w, (Ret (f w), g w)).
Proof. intros Hg w. apply Hg. Qed.

End Keeps.

(** Goes through a computation built from binds, handlers, loops,
    conditionals and matches; [prim] settles the calls it is made of. *)
Ltac keeps_with prim :=
  repeat match goal with
  | |- keeps _ (_ ≫= _) => apply keeps_bind; [typeclasses eauto | | intros ?]
  | |- keeps _ (try_except _ _) =>
      apply keeps_try_except; [typeclasses eauto | | intros ?]
  | |- keeps _ (for_each _ _) =>
      apply keeps_for_each; [typeclasses eauto | intros ?]
  | |- keeps _ (py_map _ _) =>
      apply keeps_py_map; [typeclasses eauto | intros [? ?]]
  | |- keeps _ (if ?b then _ else _) => destruct b
  | |- keeps _ (match ?x with _ => _ end) => destruct x
  | |- keeps _ _ => solve [prim]
  end.

(** The file system is as it was: the same files with the same contents,
    the same directories. *)
Definition same_files : relation World :=
  λ w w', files w' = files w ∧ dirs w' = dirs w.

#[local] Instance same_files_preorder : PreOrder same_files.
Proof.
  split.
  - intros w. split; reflexivity.
  - intros w1 w2 w3 [Hf1 Hd1] [Hf2 Hd2]. split; congruence.
Qed.

(** Nothing has changed but the record of the calls made. *)
Definition same_but_trace : relation World :=
  λ w w', heap w' = heap w ∧ estimators w' = estimators w
          ∧ stdout w' = stdout w ∧ files w' = files w ∧ dirs w' = dirs w
          ∧ clock w' = clock w.

#[local] Instance same_but_trace_preorder : PreOrder same_but_trace.
Proof.
  split.
  - intros w. repeat split; reflexivity.
  - intros w1 w2 w3 (? & ? & ? & ? & ? & ?) (? & ? & ? & ? & ? & ?).
    repeat split; congruence.
Qed.

(** The regressors, the file system and the clock are as they were. *)
Definition same_setting : relation World :=
  λ w w', estimators w' = estimators w ∧ files w' = files w
          ∧ dirs w' = dirs w ∧ clock w' = clock w.

#[local] Instance same_setting_preorder : PreOrder same_setting.
Proof.
  split.
  - intros w. repeat split; reflexivity.
  - intros w1 w2 w3 (? & ? & ? & ?) (? & ? & ? & ?). repeat split; congruence.
Qed.

(** The file at [q] is as it was, or as absent as it was. *)
Definition same_file_at (q : Path) : relation World :=
  λ w w', files w' !! q = files w !! q.

#[local] Instance same_file_at_preorder q : PreOrder (same_file_at q).
Proof.
  split.
  - intros w. reflexivity.
  - intros w1 w2 w3 H1 H2. unfold same_file_at in *. congruence.
Qed.

(** Calls that go through the state without touching what [R] looks at. *)
Ltac keeps_prim :=
  first [ apply keeps_ret; typeclasses eauto
        | apply keeps_raise; typeclasses eauto
        | apply keeps_sys_exit; typeclasses eauto
        | intros ?; repeat split; reflexivity ].

Lemma preprocess_data_keeps_files df is_training :
  keeps same_files (preprocess_data df is_training).
Proof.
  unfold preprocess_data, df_columns, df_getitem, pd_to_datetime, df_setitem,
    df_setitem_scalar, df_sort_values, df_groupby_shift, df_dropna, df_select.
  keeps_with keeps_prim.
Qed.

Lemma load_model_keeps_files p : keeps same_files (load_model p).
Proof. unfold load_model, path_exists, joblib_load. keeps_with keeps_prim. Qed.

Lemma estimator_predict_keeps_files m X :
  keeps same_files (estimator_predict m X).
Proof. unfold estimator_predict. keeps_with keeps_prim. Qed.

(** ** utils.py: feature engineering done twice *)

Lemma as_datetime_idempotent c : as_datetime (as_datetime c) = as_datetime c.
Proof.
  unfold as_datetime. destruct c; cbn [to_datetime_cell default]; try reflexivity.
  - destruct (parse_datetime (Num q)); reflexivity.
  - destruct (parse_datetime (Str s)); reflexivity.
Qed.

Lemma set_cell_id c v r : cells r !! c = Some v → set_cell c v r = r.
Proof.
  intros Hc. destruct r as [l cs]. unfold set_cell. cbn [label cells] in *.
  f_equal. apply insert_id, Hc.
Qed.

Lemma set_column_id c f d :
  c ∈ columns d → (∀ r, r ∈ rows d → cells r !! c = Some (f r)) →
  set_column c f d = d.
Proof.
  intros Hc Hr. destruct d as [cols rs]. unfold set_column, add_column.
  cbn [columns rows] in *. rewrite bool_decide_eq_true_2 by exact Hc. f_equal.
  induction rs as [| r rs IH]; [reflexivity |].
  cbn [map]. rewrite set_cell_id by (apply Hr, list_elem_of_here).
  rewrite IH; [reflexivity |].
  intros r' Hr'. apply Hr, list_elem_of_further, Hr'.
Qed.

Lemma fold_fill_column_id cs d :
  (∀ c, c ∈ cs → c ∈ columns d) → fold_left fill_column cs d = d.
Proof.
  induction cs as [| c cs IH]; intros Hcs; [reflexivity |].
  cbn [fold_left]. unfold fill_column at 2.
  rewrite bool_decide_eq_true_2 by (apply Hcs, list_elem_of_here).
  apply IH. intros c' Hc'. apply Hcs, list_elem_of_further, Hc'.
Qed.

Lemma lookup_fold_fill_cell cols cs r c :
  c ∈ cols → cells (fold_left (fill_cell cols) cs r) !! c = cells r !! c.
Proof.
  intros Hc. revert r. induction cs as [| c' cs IH]; intros r; [reflexivity |].
  cbn [fold_left]. rewrite IH. unfold fill_cell.
  case_bool_decide as Hc'; [reflexivity |].
  cbn [set_cell cells]. apply lookup_insert_ne. intros ->. contradiction.
Qed.

(** A row that carries its timestamp and what was derived from it. *)
Definition stamped (r : Row) : Prop :=
  ∃ t, as_datetime t = t
       ∧ cells r !! "createdAt" = Some t
       ∧ cells r !! "hour" = Some (hour_of t)
       ∧ cells r !! "day_of_week" = Some (dayofweek_of t).

Lemma stamped_engineer_row cols r :
  "createdAt" ∈ cols → stamped (engineer_row cols r).
Proof.
  intros Hc. exists (as_datetime (cell r "createdAt")).
  split; [apply as_datetime_idempotent |].
  unfold engineer_row.
  rewrite !lookup_fold_fill_cell
    by (apply in_columns_with_temporal; cbn [columns]; auto).
  unfold temporal_row. rewrite bool_decide_eq_true_2 by exact Hc.
  cbn [set_cell cells label].
  split; [| split].
  - rewrite !lookup_insert_ne by discriminate. apply lookup_insert_eq.
  - rewrite lookup_insert_ne by discriminate. apply lookup_insert_eq.
  - apply lookup_insert_eq.
Qed.

Lemma with_temporal_stamped e :
  "createdAt" ∈ columns e → "hour" ∈ columns e → "day_of_week" ∈ columns e →
  (∀ r, r ∈ rows e → stamped r) → with_temporal e = e.
Proof.
  intros Hc Hh Hd Hst. unfold with_temporal.
  rewrite bool_decide_eq_true_2 by exact Hc.
  rewrite (set_column_id "createdAt" _ e Hc).
  - rewrite (set_column_id "hour" _ e Hh).
    + apply (set_column_id "day_of_week" _ e Hd).
      intros r Hr. destruct (Hst r Hr) as (t & _ & Ht & _ & Hdow).
      unfold cell. rewrite Ht. exact Hdow.
    + intros r Hr. destruct (Hst r Hr) as (t & _ & Ht & Hhour & _).
      unfold cell. rewrite Ht. exact Hhour.
  - intros r Hr. destruct (Hst r Hr) as (t & Hid & Ht & _).
    unfold cell. rewrite Ht. change (default NA (Some t)) with t.
    rewrite Hid. reflexivity.
Qed.

(** Engineering an engineered table changes nothing. *)
Lemma engineered_idempotent d : engineered (engineered d) = engineered d.
Proof.
  destruct (decide ("createdAt" ∈ columns d)) as [Hc | Hc].
  - unfold engineered at 1. rewrite with_temporal_stamped.
    + apply fold_fill_column_id. intros c Hf. apply features_in_engineered, Hf.
    + apply in_columns_engineered. left. exact Hc.
    + apply features_in_engineered. compute_done.
    + apply features_in_engineered. compute_done.
    + intros r Hr. apply in_rows_engineered in Hr as (r0 & _ & ->).
      apply stamped_engineer_row, Hc.
  - apply engineered_unchanged.
    + rewrite in_columns_engineered. intros [? | Hf]; [contradiction |].
      exact (createdAt_not_feature Hf).
    + intros c Hf. apply features_in_engineered, Hf.
Qed.

(** Where the caller finds its table once [preprocess_data] is over. *)
Lemma caller_table_lookup df d (is_training : bool) w :
  heap w !! df = Some d → convertible d →
  heap (preprocess_data df is_training w).2 !! df = Some (engineered d).
Proof.
  intros Hdf Hconv. pose proof (lookup_lt_Some _ _ _ Hdf) as Hlt.
  destruct is_training.
  - destruct (decide ("node_id" ∈ columns d ∧ "createdAt" ∈ columns d))
      as [[Hnode Htime] | Hmiss].
    + rewrite (preprocess_data_training_run df d w Hdf Hconv Hnode Htime).
      cbn [snd heap set_heap].
      apply lookup_app_l_Some, heap_mutate_lookup, Hlt.
    + destruct (preprocess_data_training_KeyError df d w Hdf Hconv Hmiss)
        as (k & _ & _ & ->).
      cbn [snd]. apply heap_mutate_lookup, Hlt.
  - rewrite (preprocess_data_inference_run df d w Hdf Hconv).
    cbn [snd heap set_heap].
    apply lookup_app_l_Some, heap_mutate_lookup, Hlt.
Qed.

(** X6. The feature builder is idempotent on the table of its caller.
    After a first call, in either mode and however it ended, a second
    call, in either mode, finds nothing to change in that table; and two
    inference calls in a row return two tables with the same contents (the
    second a new object; the first is still there, as it was). *)
Theorem preprocess_data_twice (df : nat) (d : DataFrame) (w : World) :
  heap w !! df = Some d → convertible d →
  (∀ first second : bool,
     let w1 := (preprocess_data df first w).2 in
     deref (preprocess_data df second w1).2 df = deref w1 df)
  ∧ ∃ X1 w1 X2 w2,
      preprocess_data df false w = (Ret (Inference X1), w1)
      ∧ preprocess_data df false w1 = (Ret (Inference X2), w2)
      ∧ X2 ≠ X1
      ∧ deref w2 X2 = deref w1 X1
      ∧ deref w2 X1 = deref w1 X1.
Proof.
  intros Hdf Hconv. pose proof (lookup_lt_Some _ _ _ Hdf) as Hlt. split.
  - intros first second w1. subst w1.
    pose proof (caller_table_lookup df d first w Hdf Hconv) as Hdf1.
    rewrite (caller_table_after df (engineered d) second _ Hdf1
               (convertible_engineered d)).
    rewrite (deref_Some _ _ _ Hdf1). apply engineered_idempotent.
  - pose proof (preprocess_data_inference_run df d w Hdf Hconv) as Hrun1.
    pose proof (caller_table_lookup df d false w Hdf Hconv) as Hdf1.
    rewrite Hrun1 in Hdf1. cbn [snd] in Hdf1.
    eexists _, _, _, _. split; [exact Hrun1 |].
    split; [apply (preprocess_data_inference_run df (engineered d) _ Hdf1
                     (convertible_engineered d)) |].
    set (e := engineered d) in *.
    set (w1 := set_heap _ (mutate df e w)) in *.
    assert (length (heap w1) = S (length (heap w))) as Hlen.
    { subst w1. cbn [heap set_heap].
      rewrite length_app, length_heap_mutate. cbn [length]. lia. }
    split; [rewrite Hlen; lia |].
    rewrite <- (length_heap_mutate df (engineered e) w1).
    rewrite deref_alloc.
    assert (deref w1 (length (heap w))
            = mkDF features (map (select_row features) (rows e))) as HX1.
    { subst w1. rewrite <- (length_heap_mutate df e w). apply deref_alloc. }
    split.
    + rewrite HX1. unfold e. rewrite engineered_idempotent. reflexivity.
    + rewrite deref_alloc_old
        by (rewrite length_heap_mutate, Hlen; lia).
      unfold deref, mutate. cbn [heap set_heap].
      rewrite list_lookup_insert_ne; [reflexivity |]. lia.
Qed.

(** ** utils.py: what the inference build hands over *)

Lemma cell_select_row_out cs r c : c ∉ cs → cell (select_row cs r) c = NA.
Proof.
  intros Hc. unfold cell, select_row. cbn [cells]. rewrite map_lookup_filter.
  destruct (cells r !! c) as [v |]; cbn; [| reflexivity].
  rewrite option_guard_False by exact Hc. reflexivity.
Qed.

(** A feature that the table has, and that is not derived from the
    timestamp, keeps its values. *)
Lemma cell_engineer_row_given cols r c :
  c ∈ features → c ∈ cols →
  ¬ ("createdAt" ∈ cols ∧ (c = "hour" ∨ c = "day_of_week")) →
  cell (engineer_row cols r) c = cell r c.
Proof.
  intros Hf Hc Hder. rewrite cell_engineer_row. rewrite bool_decide_eq_false_2.
  - unfold temporal_row. case_bool_decide as Ht; [| reflexivity].
    cbn zeta. rewrite !cell_set_cell_ne; [reflexivity | | |].
    + intros <-. exact (createdAt_not_feature Hf).
    + intros <-. tauto.
    + intros <-. tauto.
  - intros [_ Hnot]. apply Hnot, in_columns_with_temporal. left. exact Hc.
Qed.

(** X7. The inference build keeps the readings as they come: the table
    it returns is a new one, with one row per row of the input, in the
    same order and under the same labels; a feature that the input has
    keeps its value (unless it is [hour] or [day_of_week] and the input has
    timestamps: these two are then derived anew, over what the caller
    gave); nothing but the seven features is handed over. *)
Theorem inference_keeps_readings (df : nat) (d : DataFrame) (w : World) :
  heap w !! df = Some d → convertible d →
  ∃ X w',
    preprocess_data df false w = (Ret (Inference X), w')
    ∧ X ≠ df
    ∧ map label (rows (deref w' X)) = map label (rows d)
    ∧ ∀ i r, rows d !! i = Some r →
        ∃ x, rows (deref w' X) !! i = Some x
             ∧ label x = label r
             ∧ (∀ c, c ∈ features → c ∈ columns d →
                  ¬ ("createdAt" ∈ columns d ∧ (c = "hour" ∨ c = "day_of_week")) →
                  cell x c = cell r c)
             ∧ ("createdAt" ∈ columns d →
                  cell x "hour" = hour_of (as_datetime (cell r "createdAt"))
                  ∧ cell x "day_of_week"
                    = dayofweek_of (as_datetime (cell r "createdAt")))
             ∧ (∀ c, c ∉ features → cell x c = NA).
Proof.
  intros Hdf Hconv. pose proof (lookup_lt_Some _ _ _ Hdf) as Hlt.
  eexists _, _.
  split; [apply (preprocess_data_inference_run df d w Hdf Hconv) |].
  split; [lia |].
  rewrite <- (length_heap_mutate df (engineered d) w). rewrite deref_alloc.
  cbn [rows]. rewrite rows_engineered, !map_map.
  split.
  { apply map_ext. intros r. cbn [select_row label]. apply label_engineer_row. }
  intros i r Hi.
  exists (select_row features (engineer_row (columns d) r)).
  split; [rewrite list_lookup_fmap, Hi; reflexivity |].
  split; [apply label_engineer_row |].
  split; [| split].
  - intros c Hf Hc Hder. rewrite cell_select_row by exact Hf.
    apply cell_engineer_row_given; assumption.
  - intros Hc. rewrite !cell_select_row by compute_done.
    rewrite !cell_engineer_row.
    rewrite !bool_decide_eq_false_2.
    + split; [apply cell_temporal_row_hour | apply cell_temporal_row_day_of_week];
        exact Hc.
    + intros [_ Hnot]. apply Hnot, in_columns_with_temporal. cbn [columns]. auto.
    + intros [_ Hnot]. apply Hnot, in_columns_with_temporal. cbn [columns]. auto.
  - intros c Hc. apply cell_select_row_out, Hc.
Qed.

(** ** utils.py: the training set, reading by reading *)

(** Two readings of one node; the time of a reading, as the build reads
    it; a reading that is not after another one. *)
Definition same_node (a b : Row) : Prop :=
  cell_eqb (cell a "node_id") (cell b "node_id") = true.

Definition stamp (r : Row) : Cell := as_datetime (cell r "createdAt").

Definition not_after (a b : Row) : Prop := cell_leb (stamp a) (stamp b) = true.

(** The value that [shift(-1)] finds for a key is in the first of the
    following rows that has this key. *)
Lemma next_in_group_found k c key rs v :
  next_in_group k c key rs = v → isna v = false →
  ∃ mid r' rest,
    rs = mid ++ r' :: rest
    ∧ Forall (λ x, cell_eqb (cell x k) key = false) mid
    ∧ cell_eqb (cell r' k) key = true
    ∧ v = cell r' c.
Proof.
  intros <-. induction rs as [| a rs IH]; cbn [next_in_group]; intros Hv.
  - discriminate.
  - destruct (cell_eqb (cell a k) key) eqn:Ha.
    + exists [], a, rs. auto.
    + destruct (IH Hv) as (mid & r' & rest & -> & Hmid & Hr' & Heq).
      exists (a :: mid), r', rest. auto.
Qed.

Lemma sorted_suffix {A} (R : relation A) (pre post : list A) :
  StronglySorted R (pre ++ post) → StronglySorted R post.
Proof.
  induction pre as [| p pre IH]; [auto |].
  intros Hs. inversion Hs; subst. auto.
Qed.

Lemma sorted_before {A} (R : relation A) (pre post : list A) (a b : A) :
  StronglySorted R (pre ++ a :: post) →
  (b ∈ pre → R b a) ∧ (b ∈ post → R a b).
Proof.
  intros Hs. split.
  - induction pre as [| p pre IH]; intros Hb.
    + apply elem_of_nil in Hb as [].
    + inversion Hs as [| ? ? Hs' Hall]; subst.
      apply elem_of_cons in Hb as [-> | Hb]; [| exact (IH Hs' Hb)].
      rewrite Forall_forall in Hall. apply Hall.
      apply elem_of_app. right. apply list_elem_of_here.
  - intros Hb. apply sorted_suffix in Hs.
    inversion Hs as [| ? ? _ Hall]; subst.
    rewrite Forall_forall in Hall. apply Hall, Hb.
Qed.

(** The last row of a table never has a target. *)
Lemma length_training_filter (rs : list Row) :
  rs ≠ [] →
  length (filter (complete_in ["humidity_future"]) (with_future rs)) < length rs.
Proof.
  intros Hne.
  assert (length (with_future rs) = length rs) as Hlen.
  { clear Hne. induction rs as [| r rs IH]; [reflexivity |].
    cbn [with_future length]. rewrite IH. reflexivity. }
  destruct (exists_last Hne) as (pre & r & ->).
  rewrite <- Hlen.
  apply (length_filter_lt _ _ (set_cell "humidity_future" NA r)).
  - apply in_with_future_iff. exists pre, r, []. split; [reflexivity |].
    unfold future_of. destruct (isna (cell r "node_id")); reflexivity.
  - unfold complete_in. cbn [forallb]. rewrite cell_set_cell_eq. cbn. auto.
Qed.

(** What is known of the table once the training build has returned. *)
Lemma training_returned df d w X y w' :
  heap w !! df = Some d →
  preprocess_data df true w = (Ret (Training X y), w') →
  convertible d ∧ "node_id" ∈ columns d ∧ "createdAt" ∈ columns d
  ∧ y = training_y (engineered d)
  ∧ deref w' X = training_X (engineered d).
Proof.
  intros Hdf Hrun.
  destruct (decide (convertible d)) as [Hconv | Hconv];
    [| destruct (preprocess_data_not_convertible df d true w Hdf Hconv) as [msg Hfail];
       congruence].
  destruct (decide ("node_id" ∈ columns d ∧ "createdAt" ∈ columns d))
    as [[Hnode Htime] | Hmiss];
    [| destruct (preprocess_data_training_KeyError df d w Hdf Hconv Hmiss)
         as (k & _ & _ & Hfail); congruence].
  destruct (training_run_result df d w Hdf Hconv Hnode Htime)
    as (X0 & w0 & Hrun0 & HX0).
  rewrite Hrun0 in Hrun.
  apply Ret_inv in Hrun as [[-> ->]%Training_inv ->]. auto.
Qed.

Lemma in_sorted_engineered d x :
  x ∈ by_node_and_time (rows (engineered d))
  ↔ ∃ r, r ∈ rows d ∧ x = engineer_row (columns d) r.
Proof.
  rewrite (by_node_and_time_Permutation (rows (engineered d))).
  rewrite rows_engineered, list_elem_of_fmap. split.
  - intros (r & -> & Hr). exists r. auto.
  - intros (r & Hr & ->). exists r. auto.
Qed.

(** X8. Every target is the humidity of the next reading of the same
    node.  Once the training build has returned, on a table whose rows
    have distinct labels, every entry [(l, v)] of [y] comes from two
    readings [r] and [r'] of the input: [r] has the label [l] and a node
    identifier; [r'] is another reading, of the same node, not earlier than
    [r]; [v] is the humidity of [r'], and it is not missing; and no reading
    of that node lies between the two: every other one is not after [r] or
    not before [r']. *)
Theorem target_is_next_reading
    (df : nat) (d : DataFrame) (w : World) (X : nat) (y : Series) (w' : World) :
  heap w !! df = Some d →
  NoDup (map label (rows d)) →
  preprocess_data df true w = (Ret (Training X y), w') →
  ∀ l v, (l, v) ∈ y →
    ∃ r r', r ∈ rows d ∧ r' ∈ rows d
      ∧ label r = l ∧ label r' ≠ l
      ∧ isna (cell r "node_id") = false
      ∧ same_node r' r
      ∧ not_after r r'
      ∧ isna v = false
      ∧ ("humidity_percent" ∈ columns d → v = cell r' "humidity_percent")
      ∧ ∀ x, x ∈ rows d → same_node x r →
          label x = l ∨ label x = label r' ∨ not_after x r ∨ not_after r' x.
Proof.
  intros Hdf Hnd Hrun l v Hin.
  destruct (training_returned df d w X y w' Hdf Hrun)
    as (Hconv & Hnode & Htime & -> & _).
  rewrite training_y_targets in Hin.
  pose proof (by_node_and_time_sorted (rows (engineered d))) as Hsorted.
  pose proof (NoDup_labels_sorted d Hnd) as Hlabels.
  set (g := engineer_row (columns d)).
  assert (∀ r, cell (g r) "node_id" = cell r "node_id") as Hnode_kept.
  { intros r. apply cell_engineer_row_kept; (exact Hnode || discriminate). }
  assert (∀ r, cell (g r) "createdAt" = stamp r) as Hstamp.
  { intros r. apply cell_engineer_row_createdAt, Htime. }
  assert (∀ a b, same_node a b → key_le ["node_id"; "createdAt"] (g a) (g b) →
                 not_after a b) as Hle.
  { intros a b Hab Hkey. unfold key_le in Hkey. apply Is_true_true in Hkey.
    unfold not_after. rewrite <- (Hstamp a), <- (Hstamp b).
    rewrite <- (key_leb_same_node (cell b "node_id") (g a) (g b)); [exact Hkey | |].
    - unfold of_node. rewrite Hnode_kept. exact Hab.
    - unfold of_node. rewrite Hnode_kept. apply cell_eqb_refl. }
  apply in_targets in Hin as (pre & re & post & HS & -> & -> & Hv).
  unfold future_of in Hv |- *.
  destruct (isna (cell re "node_id")) eqn:Hna; [discriminate |].
  destruct (next_in_group_found _ _ _ _ _ eq_refl Hv)
    as (mid & re' & rest & -> & Hmid & Hsame & Hval).
  set (S := by_node_and_time (rows (engineered d))) in *.
  assert (re ∈ S) as Hre by (rewrite HS, elem_of_app, elem_of_cons; auto).
  assert (re' ∈ S) as Hre'
    by (rewrite HS, elem_of_app, !elem_of_cons, elem_of_app, elem_of_cons; auto).
  apply in_sorted_engineered in Hre as (r & Hr & ->).
  apply in_sorted_engineered in Hre' as (r' & Hr' & ->).
  fold g in HS, Hna, Hmid, Hsame, Hval, Hv |- *.
  rewrite HS in Hsorted, Hlabels.
  destruct (sorted_before _ pre (mid ++ g r' :: rest) (g r) (g r') Hsorted)
    as [_ Hafter].
  assert (same_node r' r) as Hsame'.
  { unfold same_node. rewrite <- (Hnode_kept r'), <- (Hnode_kept r). exact Hsame. }
  exists r, r'. split; [exact Hr |]. split; [exact Hr' |].
  split; [symmetry; apply label_engineer_row |].
  split.
  { unfold g. rewrite label_engineer_row. intros Heq.
    rewrite fmap_app, fmap_cons in Hlabels.
    apply NoDup_app in Hlabels as (_ & _ & Hlabels).
    apply NoDup_cons in Hlabels as [Hnot _]. apply Hnot.
    apply list_elem_of_fmap. exists (g r'). split.
    - unfold g. rewrite !label_engineer_row. symmetry. exact Heq.
    - rewrite elem_of_app, elem_of_cons. auto. }
  split; [rewrite <- Hnode_kept; exact Hna |].
  split; [exact Hsame' |].
  split.
  { apply Hle.
    - unfold same_node. rewrite cell_eqb_sym. exact Hsame'.
    - apply Hafter. apply elem_of_app. right. apply list_elem_of_here. }
  split; [exact Hv |].
  split.
  { intros Hhum. rewrite Hval. unfold g.
    apply cell_engineer_row_kept; (exact Hhum || discriminate). }
  intros x Hx Hxr.
  assert (g x ∈ S) as Hgx by (apply in_sorted_engineered; exists x; auto).
  rewrite HS in Hgx.
  apply elem_of_app in Hgx as [Hgx | Hgx]; [| apply elem_of_cons in Hgx as [Hgx | Hgx]].
  - right. right. left. apply Hle; [exact Hxr |].
    destruct (sorted_before _ pre (mid ++ g r' :: rest) (g r) (g x) Hsorted)
      as [Hbefore _].
    exact (Hbefore Hgx).
  - left. rewrite <- (label_engineer_row (columns d) x). fold g. rewrite Hgx.
    reflexivity.
  - apply elem_of_app in Hgx as [Hgx | Hgx];
      [| apply elem_of_cons in Hgx as [Hgx | Hgx]].
    + exfalso. rewrite Forall_forall in Hmid. specialize (Hmid (g x) Hgx).
      rewrite !Hnode_kept in Hmid. unfold same_node in Hxr. congruence.
    + right. left. rewrite <- (label_engineer_row (columns d) x). fold g.
      rewrite Hgx. apply label_engineer_row.
    + right. right. right. apply Hle.
      * unfold same_node in *.
        apply (cell_eqb_trans _ (cell r "node_id")); [exact Hsame' |].
        rewrite cell_eqb_sym. exact Hxr.
      * apply sorted_suffix in Hsorted.
        apply (sorted_suffix _ [g r]) in Hsorted.
        destruct (sorted_before _ mid rest (g r') (g x) Hsorted) as [_ Hlater].
        exact (Hlater Hgx).
Qed.

Lemma length_with_future rs : length (with_future rs) = length rs.
Proof.
  induction rs as [| r rs IH]; [reflexivity |].
  cbn [with_future length]. rewrite IH. reflexivity.
Qed.

Lemma length_training_rows (e : DataFrame) :
  (length (training_rows e) ≤ length (rows e))%nat
  ∧ (rows e ≠ [] → (length (training_rows e) < length (rows e))%nat).
Proof.
  unfold training_rows.
  pose proof (Permutation_length (by_node_and_time_Permutation (rows e))) as Hlen.
  split.
  - etransitivity; [apply length_filter |].
    rewrite length_with_future, Hlen. reflexivity.
  - intros Hne. rewrite <- Hlen. apply length_training_filter.
    intros Hnil. rewrite Hnil in Hlen. cbn [length] in Hlen.
    destruct (rows e); [contradiction | discriminate].
Qed.

(** A row of the training table is a row of the sorted table that has a
    node identifier. *)
Lemma training_rows_origin (e : DataFrame) x1 :
  x1 ∈ training_rows e →
  ∃ re v, re ∈ by_node_and_time (rows e)
          ∧ x1 = set_cell "humidity_future" v re
          ∧ isna (cell re "node_id") = false.
Proof.
  unfold training_rows. intros Hx1.
  apply list_elem_of_filter in Hx1 as [Hcomplete Hx1].
  apply in_with_future_iff in Hx1 as (pre & re & post & HS & ->).
  exists re, (future_of re post).
  split; [rewrite HS, elem_of_app, elem_of_cons; auto |].
  split; [reflexivity |].
  unfold complete_in in Hcomplete. cbn [forallb] in Hcomplete.
  rewrite cell_set_cell_eq in Hcomplete. unfold future_of in Hcomplete.
  destruct (isna (cell re "node_id")); [destruct Hcomplete | reflexivity].
Qed.

Lemma training_X_rows_origin (e : DataFrame) x :
  x ∈ rows (training_X e) →
  ∃ re v, re ∈ by_node_and_time (rows e)
          ∧ x = select_row features (set_cell "humidity_future" v re)
          ∧ isna (cell re "node_id") = false.
Proof.
  unfold training_X. cbn [rows]. intros Hx.
  apply list_elem_of_fmap in Hx as (x1 & -> & Hx1).
  apply training_rows_origin in Hx1 as (re & v & Hre & -> & Hna).
  exists re, v. auto.
Qed.

(** X9. The shape of the training set.  Once the training build has
    returned, [X] and [y] go row by row under the same labels; no target
    is missing; every row of [X] is a reading of the input that has a node
    identifier, with the features that feature engineering gives it and
    nothing else; and at least one reading of a table that has any is left
    out, so that [X] is shorter than the input. *)
Theorem training_set_shape
    (df : nat) (d : DataFrame) (w : World) (X : nat) (y : Series) (w' : World) :
  heap w !! df = Some d →
  preprocess_data df true w = (Ret (Training X y), w') →
  map label (rows (deref w' X)) = map fst y
  ∧ (∀ l v, (l, v) ∈ y → isna v = false)
  ∧ (∀ x, x ∈ rows (deref w' X) →
       ∃ r, r ∈ rows d ∧ label x = label r
            ∧ isna (cell r "node_id") = false
            ∧ (∀ c, c ∈ features →
                 cell x c = cell (engineer_row (columns d) r) c)
            ∧ (∀ c, c ∉ features → cell x c = NA))
  ∧ (length (rows (deref w' X)) ≤ length (rows d))%nat
  ∧ (rows d ≠ [] → (length (rows (deref w' X)) < length (rows d))%nat).
Proof.
  intros Hdf Hrun.
  destruct (training_returned df d w X y w' Hdf Hrun)
    as (Hconv & Hnode & Htime & -> & ->).
  split; [apply labels_training_X |].
  split.
  { intros l v Hin. rewrite training_y_targets in Hin.
    apply in_targets in Hin as (_ & _ & _ & _ & _ & _ & Hv). exact Hv. }
  assert (length (rows (engineered d)) = length (rows d)) as Hlen
    by (rewrite rows_engineered; apply length_map).
  assert (length (rows (training_X (engineered d)))
          = length (training_rows (engineered d))) as HlenX
    by (unfold training_X; cbn [rows]; apply length_map).
  destruct (length_training_rows (engineered d)) as [Hle Hlt].
  split; [| split].
  - intros x Hx.
    destruct (training_X_rows_origin (engineered d) x Hx)
      as (re & v & Hre & -> & Hna).
    apply in_sorted_engineered in Hre as (r & Hr & ->).
    exists r. split; [exact Hr |].
    split; [cbn [select_row label set_cell]; apply label_engineer_row |].
    split.
    { rewrite <- (cell_engineer_row_kept (columns d) r "node_id")
        by (exact Hnode || discriminate).
      exact Hna. }
    split.
    + intros c Hc. rewrite cell_select_row by exact Hc.
      apply cell_set_cell_ne. intros <-. exact (humidity_future_not_feature Hc).
    + intros c Hc. apply cell_select_row_out, Hc.
  - rewrite HlenX, <- Hlen. exact Hle.
  - intros Hne. rewrite HlenX, <- Hlen. apply Hlt.
    intros Hnil. rewrite Hnil in Hlen. cbn [length] in Hlen.
    destruct (rows d); [contradiction | discriminate].
Qed.

(** ** models.py: the life of a regressor *)

Lemma evaluate_keeps_state (self X : nat) (y : Series) (k_folds : Z) :
  keeps same_but_trace (SoilHumidityRegressor_evaluate self X y k_folds).
Proof.
  unfold SoilHumidityRegressor_evaluate, df_len, KFold, cross_val_score,
    kfold_split.
  keeps_with keeps_prim.
Qed.

(** X10. [evaluate] works on clones: however it ends, the regressor it was
    called on is as it was (a regressor that was not fitted is still not
    fitted), and so are the tables, what has been printed and the file
    system; only the calls to the cross-validation are recorded. *)
Theorem evaluate_leaves_model
    (self X : nat) (y : Series) (k_folds : Z) (w : World) :
  let w' := (SoilHumidityRegressor_evaluate self X y k_folds w).2 in
  estimator_at w' self = estimator_at w self
  ∧ heap w' = heap w ∧ estimators w' = estimators w
  ∧ stdout w' = stdout w ∧ files w' = files w ∧ dirs w' = dirs w.
Proof.
  destruct (evaluate_keeps_state self X y k_folds w)
    as (Hheap & Hest & Hout & Hfiles & Hdirs & _).
  cbn zeta. unfold estimator_at. rewrite Hest.
  repeat split; assumption || reflexivity.
Qed.

(** What is known once [fit] has returned. *)
Lemma estimator_fit_Ret (m X : nat) (y : Series) (w w1 : World) :
  m < length (estimators w) →
  estimator_fit m X y w = (Ret tt, w1) →
  let e := estimator_at w m in
  estimator_at w1 m
  = mkEstimator (n_estimators e) (max_depth e) (random_state e)
                (Some (rows (deref w X), y))
  ∧ (∀ m', m' ≠ m → estimator_at w1 m' = estimator_at w m')
  ∧ heap w1 = heap w ∧ files w1 = files w ∧ dirs w1 = dirs w
  ∧ stdout w1 = stdout w
  ∧ trace w1 = trace w ++ [EvFit (length (rows (deref w X)))].
Proof.
  intros Hm. unfold estimator_fit. run_sys.
  fold (deref w X). fold (estimator_at w m).
  destruct (rf_fit_error (estimator_at w m) (rows (deref w X)) y) as [err |];
    [discriminate |].
  intros [_ <-]%Ret_inv. cbn zeta.
  split.
  { unfold estimator_at at 1. cbn [estimators set_estimators set_trace].
    rewrite list_lookup_insert_eq by exact Hm. reflexivity. }
  split.
  { intros m' Hm'. unfold estimator_at. cbn [estimators set_estimators set_trace].
    rewrite list_lookup_insert_ne by congruence. reflexivity. }
  repeat split; reflexivity.
Qed.

(** X11. Training, then predicting.  Once [train] has returned on the
    table [X] with the targets [y], the regressor keeps its three
    hyper-parameters and is fitted on the rows of [X] and on [y]; nothing
    else has changed but the record of the call; and [predict] on a table
    [X'] gives what the forest so fitted gives on the rows of [X']. *)
Theorem train_then_predict
    (self X X' : nat) (y : Series) (w w1 : World) :
  self < length (estimators w) →
  SoilHumidityRegressor_train self X y w = (Ret tt, w1) →
  let e := estimator_at w self in
  let e1 := mkEstimator (n_estimators e) (max_depth e) (random_state e)
                        (Some (rows (deref w X), y)) in
  estimator_at w1 self = e1
  ∧ (∀ m, m ≠ self → estimator_at w1 m = estimator_at w m)
  ∧ heap w1 = heap w ∧ files w1 = files w ∧ stdout w1 = stdout w
  ∧ trace w1 = trace w ++ [EvFit (length (rows (deref w X)))]
  ∧ SoilHumidityRegressor_predict self X' w1
    = (match rf_predict e1 (rows (deref w X')) with
       | inl err => Raise err
       | inr ys => Ret ys
       end,
       set_trace (trace w1 ++ [EvPredict (length (rows (deref w X')))]) w1).
Proof.
  intros Hself Htrain. unfold SoilHumidityRegressor_train in Htrain.
  destruct (estimator_fit_Ret self X y w w1 Hself Htrain)
    as (Hnew & Hothers & Hheap & Hfiles & _ & Hout & Htrace).
  cbn zeta in *.
  split; [exact Hnew |]. split; [exact Hothers |].
  split; [exact Hheap |]. split; [exact Hfiles |]. split; [exact Hout |].
  split; [exact Htrace |].
  unfold SoilHumidityRegressor_predict, estimator_predict. run_sys.
  fold (estimator_at w1 self). rewrite Hnew. unfold deref. rewrite Hheap.
  fold (deref w X'). cbn [fitted_on].
  destruct (rf_predict _ (rows (deref w X'))); reflexivity.
Qed.

(** ** server.py: the runs of the predictor *)

Lemma try_except_run {A} (m : Py A) (h : Exn → Py A) w a w' :
  m w = (Ret a, w') → try_except m h w = (Ret a, w').
Proof. intros Hm. unfold try_except. rewrite Hm. reflexivity. Qed.

Lemma try_except_raise {A} (m : Py A) (h : Exn → Py A) w e w' :
  m w = (Raise e, w') → try_except m h w = h e w'.
Proof. intros Hm. unfold try_except. rewrite Hm. reflexivity. Qed.

Lemma float_of_run s q w : py_float s = Some q → float_of s w = (Ret (Num q), w).
Proof. intros Hs. unfold float_of. rewrite Hs. reflexivity. Qed.

Lemma int_of_run s n w :
  py_int s = Some n → int_of s w = (Ret (Num (inject_Z n)), w).
Proof. intros Hs. unfold int_of. rewrite Hs. reflexivity. Qed.

Lemma float_of_fail s w :
  py_float s = None → ∃ msg, float_of s w = (Raise (ValueError msg), w).
Proof. intros Hs. unfold float_of. rewrite Hs. eexists. reflexivity. Qed.

Lemma int_of_fail s w :
  py_int s = None → ∃ msg, int_of s w = (Raise (ValueError msg), w).
Proof. intros Hs. unfold int_of. rewrite Hs. eexists. reflexivity. Qed.

(** Reading one value: [parse(sys.argv[i])]. *)
Lemma read_run {B} (argv : list string) (i : nat) (a : string)
    (parse : string → Py Cell) (k : Cell → Py B) (w : World) (c : Cell) :
  argv !! i = Some a → parse a w = (Ret c, w) →
  (x ← argv_at argv i; v ← parse x; k v) w = k c w.
Proof.
  intros Hi Hparse. unfold argv_at. rewrite Hi.
  change ((mret a ≫= λ x, parse x ≫= λ v, k v) w) with ((parse a ≫= λ v, k v) w).
  apply (bind_run _ _ _ _ _ Hparse).
Qed.

Lemma read_fail {B} (argv : list string) (i : nat) (a : string)
    (parse : string → Py Cell) (k : Cell → Py B) (w : World) (e : Exn) :
  argv !! i = Some a → parse a w = (Raise e, w) →
  (x ← argv_at argv i; v ← parse x; k v) w = (Raise e, w).
Proof.
  intros Hi Hparse. unfold argv_at. rewrite Hi.
  change ((mret a ≫= λ x, parse x ≫= λ v, k v) w) with ((parse a ≫= λ v, k v) w).
  apply (bind_raise _ _ _ _ _ Hparse).
Qed.

(** X13. Arguments after the seventh value are not looked at: a run of
    [predict] with more than seven values is the run with the first
    seven. *)
Theorem predict_ignores_further_arguments (argv : list string) (w : World) :
  (8 ≤ length argv)%nat → predict argv w = predict (take 8 argv) w.
Proof.
  intros Hlen. unfold predict.
  assert ((length argv <? 8)%nat = false) as -> by (apply Nat.ltb_ge; lia).
  assert ((length (take 8 argv) <? 8)%nat = false) as ->
    by (apply Nat.ltb_ge; rewrite length_take; lia).
  unfold argv_at. rewrite !lookup_take_lt by lia. reflexivity.
Qed.

(** The seven values, as the predictor puts them in a table of one row. *)
Definition input_dict (q1 q2 q3 q4 : Q) (n5 n6 n7 : Z) : list (string * Cell) :=
  [("humidity_percent", Num q1); ("raw_value", Num q2); ("rssi", Num q3);
   ("voltage", Num q4); ("sampling_interval", Num (inject_Z n5));
   ("hour", Num (inject_Z n6)); ("day_of_week", Num (inject_Z n7))].

Definition input_table (vals : list (string * Cell)) : DataFrame :=
  mkDF (map fst vals) [mkRow 0 (list_to_map vals)].

(** What [predict] does with the values once it has read them, and what
    it does with an exception. *)
Definition answer (vals : list (string * Cell)) : Py unit :=
  input_df ← pd_DataFrame vals;
  built ← preprocess_data input_df false;
  let X_new := match built with Inference X => X | Training X _ => X end in
  model ← load_model MODEL_PATH;
  prediction ← estimator_predict model X_new;
  p0 ← match prediction with
       | p :: _ => mret p
       | [] => raise (IndexError "index 0 is out of bounds")
       end;
  print (PJson [("humidity_future_prediction", JNum p0);
                ("status", JStr "success")]).

Definition failure (e : Exn) : Py unit :=
  print (PJson [("error", JStr (exn_str e)); ("status", JStr "failed")]);;
  sys_exit 1.

(** The part of [predict] that reads the seven values. *)
Definition read_values (argv : list string) (k : list (string * Cell) → Py unit)
    : Py unit :=
  a1 ← argv_at argv 1; humidity_percent ← float_of a1;
  a2 ← argv_at argv 2; raw_value ← float_of a2;
  a3 ← argv_at argv 3; rssi ← float_of a3;
  a4 ← argv_at argv 4; voltage ← float_of a4;
  a5 ← argv_at argv 5; sampling_interval ← int_of a5;
  a6 ← argv_at argv 6; hour ← int_of a6;
  a7 ← argv_at argv 7; day_of_week ← int_of a7;
  k [("humidity_percent", humidity_percent); ("raw_value", raw_value);
     ("rssi", rssi); ("voltage", voltage);
     ("sampling_interval", sampling_interval); ("hour", hour);
     ("day_of_week", day_of_week)].

Lemma predict_unfold (argv : list string) (w : World) :
  (8 ≤ length argv)%nat →
  predict argv w = try_except (read_values argv answer) failure w.
Proof.
  intros Hlen. unfold predict.
  assert ((length argv <? 8)%nat = false) as -> by (apply Nat.ltb_ge; lia).
  reflexivity.
Qed.

Ltac read_float w argv i a :=
  let q := fresh "q" in
  let Hq := fresh "Hq" in
  destruct (py_float a) as [q |] eqn:Hq;
  [ rewrite (read_run argv i a float_of _ w (Num q) eq_refl (float_of_run a q w Hq))
  | let msg := fresh "msg" in
    let Hfail := fresh "Hfail" in
    destruct (float_of_fail a w Hq) as [msg Hfail];
    exists msg;
    apply (read_fail argv i a float_of _ w (ValueError msg) eq_refl Hfail) ].

Ltac read_int w argv i a :=
  let n := fresh "n" in
  let Hn := fresh "Hn" in
  destruct (py_int a) as [n |] eqn:Hn;
  [ rewrite (read_run argv i a int_of _ w (Num (inject_Z n)) eq_refl
               (int_of_run a n w Hn))
  | let msg := fresh "msg" in
    let Hfail := fresh "Hfail" in
    destruct (int_of_fail a w Hn) as [msg Hfail];
    exists msg;
    apply (read_fail argv i a int_of _ w (ValueError msg) eq_refl Hfail) ].

Section Arguments.

Context (script a1 a2 a3 a4 a5 a6 a7 : string) (rest : list string).

Definition arguments : list string :=
  script :: a1 :: a2 :: a3 :: a4 :: a5 :: a6 :: a7 :: rest.

Lemma read_values_run (k : list (string * Cell) → Py unit) (w : World)
    (q1 q2 q3 q4 : Q) (n5 n6 n7 : Z) :
  py_float a1 = Some q1 → py_float a2 = Some q2 → py_float a3 = Some q3 →
  py_float a4 = Some q4 → py_int a5 = Some n5 → py_int a6 = Some n6 →
  py_int a7 = Some n7 →
  read_values arguments k w = k (input_dict q1 q2 q3 q4 n5 n6 n7) w.
Proof.
  intros H1 H2 H3 H4 H5 H6 H7. unfold read_values.
  rewrite (read_run arguments 1 a1 float_of _ w _ eq_refl (float_of_run _ _ w H1)).
  rewrite (read_run arguments 2 a2 float_of _ w _ eq_refl (float_of_run _ _ w H2)).
  rewrite (read_run arguments 3 a3 float_of _ w _ eq_refl (float_of_run _ _ w H3)).
  rewrite (read_run arguments 4 a4 float_of _ w _ eq_refl (float_of_run _ _ w H4)).
  rewrite (read_run arguments 5 a5 int_of _ w _ eq_refl (int_of_run _ _ w H5)).
  rewrite (read_run arguments 6 a6 int_of _ w _ eq_refl (int_of_run _ _ w H6)).
  rewrite (read_run arguments 7 a7 int_of _ w _ eq_refl (int_of_run _ _ w H7)).
  reflexivity.
Qed.

(** X14. A value that cannot be read as a number ends the run at once:
    when one of the first four values is not a float, or one of the last
    three is not an integer, [predict] prints an error object with status
    [failed] and exits with status 1; no table has been made, no file has
    been looked up, no model has been loaded. *)
Theorem predict_malformed_value (w : World) :
  py_float a1 = None ∨ py_float a2 = None ∨ py_float a3 = None
  ∨ py_float a4 = None ∨ py_int a5 = None ∨ py_int a6 = None
  ∨ py_int a7 = None →
  ∃ msg,
    predict (script :: a1 :: a2 :: a3 :: a4 :: a5 :: a6 :: a7 :: rest) w
    = (SysExit 1,
       set_stdout (stdout w ++ [PJson [("error", JStr msg);
                                       ("status", JStr "failed")]]) w).
Proof.
  intros Hbad. fold arguments.
  cut (∃ msg, read_values arguments answer w = (Raise (ValueError msg), w)).
  { intros [msg Hread]. exists msg.
    rewrite predict_unfold by (unfold arguments; cbn [length]; lia).
    rewrite (try_except_raise _ _ _ _ _ Hread). reflexivity. }
  unfold read_values.
  read_float w arguments 1 a1. read_float w arguments 2 a2.
  read_float w arguments 3 a3. read_float w arguments 4 a4.
  read_int w arguments 5 a5. read_int w arguments 6 a6.
  read_int w arguments 7 a7.
  exfalso. intuition congruence.
Qed.

Lemma MODEL_PATH_not_nil : MODEL_PATH ≠ [].
Proof. unfold MODEL_PATH. intros Heq. apply app_nil in Heq as [_ Heq]. discriminate. Qed.

Lemma input_table_engineered (q1 q2 q3 q4 : Q) (n5 n6 n7 : Z) :
  engineered (input_table (input_dict q1 q2 q3 q4 n5 n6 n7))
  = input_table (input_dict q1 q2 q3 q4 n5 n6 n7).
Proof.
  apply engineered_unchanged.
  - cbn [input_table input_dict columns map fst]. compute_done.
  - intros c Hc. exact Hc.
Qed.

Lemma input_table_selected (q1 q2 q3 q4 : Q) (n5 n6 n7 : Z) :
  mkDF features
    (map (select_row features)
         (rows (input_table (input_dict q1 q2 q3 q4 n5 n6 n7))))
  = input_table (input_dict q1 q2 q3 q4 n5 n6 n7).
Proof.
  unfold input_table. cbn [rows map]. apply (f_equal (λ r, mkDF features [r])).
  unfold select_row. cbn [label cells]. apply (f_equal (mkRow 0)).
  apply map_filter_id. intros k v Hk. apply elem_of_list_to_map_2 in Hk.
  cbn [fst]. apply (list_elem_of_fmap_2 fst) in Hk. exact Hk.
Qed.

Lemma input_table_convertible vals :
  "createdAt" ∉ map fst vals → convertible (input_table vals).
Proof. intros Hno Hin. contradiction. Qed.

(** The run of [answer] up to the look-up of the model: the table of the
    values and the table of the features are made; they hold the same. *)
Lemma answer_run (q1 q2 q3 q4 : Q) (n5 n6 n7 : Z) (w : World) :
  let d := input_table (input_dict q1 q2 q3 q4 n5 n6 n7) in
  answer (input_dict q1 q2 q3 q4 n5 n6 n7) w
  = (model ← load_model MODEL_PATH;
     prediction ← estimator_predict model (S (length (heap w)));
     p0 ← match prediction with
          | p :: _ => mret p
          | [] => raise (IndexError "index 0 is out of bounds")
          end;
     print (PJson [("humidity_future_prediction", JNum p0);
                   ("status", JStr "success")]))
      (set_heap (heap w ++ [d; d]) w).
Proof.
  intros d. unfold answer.
  set (w1 := set_heap (heap w ++ [d]) w).
  rewrite (bind_run _ _ _ _ _
             (eq_refl : pd_DataFrame (input_dict q1 q2 q3 q4 n5 n6 n7) w
                        = (Ret (length (heap w)), w1))).
  assert (heap w1 !! length (heap w) = Some d) as Hdf.
  { subst w1. cbn [heap set_heap]. rewrite lookup_app_r by lia.
    rewrite Nat.sub_diag. reflexivity. }
  assert (convertible d) as Hconv
    by (apply input_table_convertible; cbn [input_dict map fst]; compute_done).
  rewrite (bind_run _ _ _ _ _
             (preprocess_data_inference_run (length (heap w)) d w1 Hdf Hconv)).
  subst d. rewrite input_table_engineered, input_table_selected.
  rewrite (mutate_id _ _ _ Hdf).
  subst w1. cbn [heap set_heap length]. rewrite <- app_assoc.
  rewrite length_app. cbn [length app].
  replace (length (heap w) + 1) with (S (length (heap w))) by lia.
  reflexivity.
Qed.

(** X15. The predictor without a model.  With seven values that can be
    read and no file at the path of the model, [predict] prints an error
    object with status [failed] and exits with status 1; the path of the
    model has been looked up, and that is the only call made: nothing has
    been loaded, nothing has been asked of a regressor. *)
Theorem predict_without_model
    (w : World) (q1 q2 q3 q4 : Q) (n5 n6 n7 : Z) :
  py_float a1 = Some q1 → py_float a2 = Some q2 → py_float a3 = Some q3 →
  py_float a4 = Some q4 → py_int a5 = Some n5 → py_int a6 = Some n6 →
  py_int a7 = Some n7 →
  MODEL_PATH ∉ dirs w → MODEL_PATH ∉ dom (files w) →
  ∃ msg w',
    predict (script :: a1 :: a2 :: a3 :: a4 :: a5 :: a6 :: a7 :: rest) w
    = (SysExit 1, w')
    ∧ stdout w' = stdout w ++ [PJson [("error", JStr msg);
                                      ("status", JStr "failed")]]
    ∧ trace w' = trace w ++ [EvExists MODEL_PATH]
    ∧ estimators w' = estimators w.
Proof.
  intros H1 H2 H3 H4 H5 H6 H7 Hdir Hfile. fold arguments.
  rewrite predict_unfold by (unfold arguments; cbn [length]; lia).
  set (d := input_table (input_dict q1 q2 q3 q4 n5 n6 n7)).
  set (w2 := set_heap (heap w ++ [d; d]) w).
  assert (read_values arguments answer w
          = (Raise (FileNotFoundError "No se encontró el modelo"),
             set_trace (trace w ++ [EvExists MODEL_PATH]) w2)) as Hrun.
  { rewrite (read_values_run answer w q1 q2 q3 q4 n5 n6 n7) by assumption.
    rewrite answer_run. fold d. fold w2.
    apply bind_raise. unfold load_model. run_sys.
    rewrite bool_decide_eq_false_2; [reflexivity |].
    subst w2. cbn [files dirs set_heap]. tauto. }
  rewrite (try_except_raise _ _ _ _ _ Hrun).
  eexists _, _. split; [reflexivity |].
  cbn [stdout trace estimators set_stdout set_trace set_heap w2 exn_str].
  auto.
Qed.

(** The run of [answer] when a fitted forest is pickled at the path of
    the model and answers. *)
Lemma answer_with_model
    (w : World) (q1 q2 q3 q4 : Q) (n5 n6 n7 : Z)
    (e : Estimator) (p : Q) (ps : list Q) :
  files w !! MODEL_PATH = Some (FPickle e) →
  is_Some (fitted_on e) →
  rf_predict e [mkRow 0 (list_to_map (input_dict q1 q2 q3 q4 n5 n6 n7))]
  = inr (p :: ps) →
  ∃ w',
    answer (input_dict q1 q2 q3 q4 n5 n6 n7) w = (Ret tt, w')
    ∧ stdout w' = stdout w ++ [PJson [("humidity_future_prediction", JNum p);
                                      ("status", JStr "success")]]
    ∧ trace w' = trace w ++ [EvExists MODEL_PATH; EvJoblibLoad MODEL_PATH;
                             EvPredict 1].
Proof.
  intros Hfile [fit Hfit] Hforest.
  set (d := input_table (input_dict q1 q2 q3 q4 n5 n6 n7)).
  set (w2 := set_heap (heap w ++ [d; d]) w).
  set (w3 := set_estimators (estimators w ++ [e])
               (set_trace (trace w ++ [EvExists MODEL_PATH; EvJoblibLoad MODEL_PATH])
                  w2)).
  assert (load_model MODEL_PATH w2 = (Ret (length (estimators w)), w3)) as Hload.
  { unfold load_model. run_sys.
    rewrite bool_decide_eq_true_2.
    - run_sys. subst w2. cbn [files set_heap]. rewrite Hfile. run_sys.
      subst w3. cbn [set_heap]. rewrite <- app_assoc. reflexivity.
    - split; [exact MODEL_PATH_not_nil |]. right.
      subst w2. cbn [files set_heap]. apply elem_of_dom. eauto. }
  assert (estimator_predict (length (estimators w)) (S (length (heap w))) w3
          = (Ret (p :: ps), set_trace (trace w3 ++ [EvPredict 1]) w3)) as Hpredict.
  { unfold estimator_predict. run_sys.
    assert (deref w3 (S (length (heap w))) = d) as ->.
    { unfold deref. subst w3 w2. cbn [heap set_heap set_estimators set_trace].
      rewrite lookup_app_r by lia.
      replace (S (length (heap w)) - length (heap w)) with 1 by lia.
      reflexivity. }
    assert (default default_estimator (estimators w3 !! length (estimators w)) = e)
      as ->.
    { subst w3. cbn [estimators set_estimators].
      rewrite lookup_app_r by lia. rewrite Nat.sub_diag. reflexivity. }
    rewrite Hfit. subst d. cbn [rows input_table length].
    rewrite Hforest. reflexivity. }
  eexists. split.
  { rewrite answer_run. fold d. fold w2.
    rewrite (bind_run _ _ _ _ _ Hload), (bind_run _ _ _ _ _ Hpredict).
    reflexivity. }
  cbn [stdout trace set_stdout set_trace set_estimators set_heap w3 w2].
  rewrite <- app_assoc. auto.
Qed.

(** X16. The predictor with a model.  With seven values that can be read
    and a fitted forest pickled at the path of the model, [predict] hands
    the forest one row that holds the seven values as they were read,
    under the names of the seven features; when the forest answers,
    [predict] prints the success object with the first prediction and
    returns.  The model is looked up, loaded and asked once. *)
Theorem predict_with_model
    (w : World) (q1 q2 q3 q4 : Q) (n5 n6 n7 : Z)
    (e : Estimator) (p : Q) (ps : list Q) :
  py_float a1 = Some q1 → py_float a2 = Some q2 → py_float a3 = Some q3 →
  py_float a4 = Some q4 → py_int a5 = Some n5 → py_int a6 = Some n6 →
  py_int a7 = Some n7 →
  files w !! MODEL_PATH = Some (FPickle e) →
  is_Some (fitted_on e) →
  rf_predict e [mkRow 0 (list_to_map (input_dict q1 q2 q3 q4 n5 n6 n7))]
  = inr (p :: ps) →
  ∃ w',
    predict (script :: a1 :: a2 :: a3 :: a4 :: a5 :: a6 :: a7 :: rest) w
    = (Ret tt, w')
    ∧ stdout w' = stdout w ++ [PJson [("humidity_future_prediction", JNum p);
                                      ("status", JStr "success")]]
    ∧ trace w' = trace w ++ [EvExists MODEL_PATH; EvJoblibLoad MODEL_PATH;
                             EvPredict 1].
Proof.
  intros H1 H2 H3 H4 H5 H6 H7 Hfile Hfit Hforest. fold arguments.
  destruct (answer_with_model w q1 q2 q3 q4 n5 n6 n7 e p ps Hfile Hfit Hforest)
    as (w' & Hrun & Hout & Htrace).
  exists w'. split; [| split; assumption].
  rewrite predict_unfold by (unfold arguments; cbn [length]; lia).
  apply try_except_run.
  rewrite (read_values_run answer w q1 q2 q3 q4 n5 n6 n7) by assumption.
  exact Hrun.
Qed.

End Arguments.

(** X17. The predictor is read-only on the file system: however a run of
    [predict] ends, whatever its arguments, no file has been written,
    replaced or removed and no directory has been made. *)
Theorem predict_writes_nothing (argv : list string) (w : World) :
  files (predict argv w).2 = files w ∧ dirs (predict argv w).2 = dirs w.
Proof.
  assert (keeps same_files (predict argv)) as Hkeeps; [| apply Hkeeps].
  unfold predict, argv_at, float_of, int_of, pd_DataFrame.
  keeps_with ltac:(idtac; lazymatch goal with
    | |- keeps _ (preprocess_data _ _) => apply preprocess_data_keeps_files
    | |- keeps _ (load_model _) => apply load_model_keeps_files
    | |- keeps _ (estimator_predict _ _) => apply estimator_predict_keeps_files
    | |- _ => keeps_prim
    end).
Qed.

(** ** main.py: the files it writes *)

Lemma write_file_keeps_file_at (p q : Path) (f : File) :
  q ≠ p → keeps (same_file_at q) (write_file p f).
Proof.
  intros Hne w. unfold write_file. run_sys.
  case_bool_decide; cbn [snd]; unfold same_file_at; cbn [files set_files];
    [reflexivity | apply lookup_insert_ne; congruence].
Qed.

Lemma save_model_keeps_file_at (model : nat) (p q : Path) :
  q ≠ p → keeps (same_file_at q) (save_model model p).
Proof.
  intros Hne. unfold save_model, path_exists, os_makedirs, joblib_dump.
  keeps_with ltac:(first [apply write_file_keeps_file_at; exact Hne | keeps_prim]).
Qed.

Lemma save_metrics_keeps_file_at (metrics : Dict) (p q : Path) :
  q ≠ p → keeps (same_file_at q) (save_metrics metrics p).
Proof.
  intros Hne. unfold save_metrics, path_exists, os_makedirs.
  keeps_with ltac:(first [apply write_file_keeps_file_at; exact Hne | keeps_prim]).
Qed.

Lemma keeps_same_files_file_at {A} (m : Py A) (q : Path) :
  keeps same_files m → keeps (same_file_at q) m.
Proof. intros Hm w. destruct (Hm w) as [Hf _]. unfold same_file_at. rewrite Hf. done. Qed.

Lemma load_dataset_keeps_files p : keeps same_files (load_dataset p).
Proof. unfold load_dataset, path_exists, pd_read_csv. keeps_with keeps_prim. Qed.

Lemma evaluate_keeps_files self X y k :
  keeps same_files (SoilHumidityRegressor_evaluate self X y k).
Proof.
  unfold SoilHumidityRegressor_evaluate, df_len, KFold, cross_val_score,
    kfold_split.
  keeps_with keeps_prim.
Qed.

Lemma train_keeps_files self X y :
  keeps same_files (SoilHumidityRegressor_train self X y).
Proof.
  unfold SoilHumidityRegressor_train, estimator_fit. keeps_with keeps_prim.
Qed.

(** X18. The training run writes two files at most: however a run of
    [main] ends, every file other than the model and the metrics is as it
    was, and no file appears at any other path. *)
Theorem main_writes_its_artifacts_only (q : Path) (w : World) :
  q ≠ MODEL_PATH → q ≠ METRICS_PATH →
  files (main w).2 !! q = files w !! q.
Proof.
  intros Hmodel Hmetrics.
  assert (keeps (same_file_at q) main) as Hkeeps; [| apply Hkeeps].
  unfold main, df_len, SoilHumidityRegressor_init.
  keeps_with ltac:(idtac; lazymatch goal with
    | |- keeps _ (save_model _ _) => apply save_model_keeps_file_at; exact Hmodel
    | |- keeps _ (save_metrics _ _) =>
        apply save_metrics_keeps_file_at; exact Hmetrics
    | |- keeps _ (load_dataset _) =>
        apply keeps_same_files_file_at, load_dataset_keeps_files
    | |- keeps _ (preprocess_data _ _) =>
        apply keeps_same_files_file_at, preprocess_data_keeps_files
    | |- keeps _ (SoilHumidityRegressor_evaluate _ _ _ _) =>
        apply keeps_same_files_file_at, evaluate_keeps_files
    | |- keeps _ (SoilHumidityRegressor_train _ _ _) =>
        apply keeps_same_files_file_at, train_keeps_files
    | |- _ => keeps_prim
    end).
Qed.

(** ** main.py: the runs of the training script *)

Lemma bind_Ret_inv {A B} (m : Py A) (k : A → Py B) w b w' :
  (m ≫= k) w = (Ret b, w') →
  ∃ a w1, m w = (Ret a, w1) ∧ k a w1 = (Ret b, w').
Proof.
  unfold mbind, Py_bind, bind.
  destruct (m w) as [[a | e | c] w1]; intros Heq;
    [eauto | discriminate | discriminate].
Qed.

Lemma bind_exit {A B} (m : Py A) (k : A → Py B) w c w' :
  m w = (SysExit c, w') → (m ≫= k) w = (SysExit c, w').
Proof. intros Hm. unfold mbind, Py_bind, bind. rewrite Hm. reflexivity. Qed.

Lemma print_bind {B} (p : Printed) (k : unit → Py B) w :
  (print p ≫= k) w = k tt (set_stdout (stdout w ++ [p]) w).
Proof. reflexivity. Qed.

Lemma try_except_Ret_inv {A} (m : Py A) (h : Exn → Py A) w a w' :
  (∀ e w1, ∃ c w2, h e w1 = (SysExit c, w2)) →
  try_except m h w = (Ret a, w') → m w = (Ret a, w').
Proof.
  intros Hh. unfold try_except. destruct (m w) as [[a' | e | c] w1]; auto.
  destruct (Hh e w1) as (c & w2 & ->). discriminate.
Qed.

Lemma DATA_PATH_not_nil : DATA_PATH ≠ [].
Proof. unfold DATA_PATH. intros Heq. apply app_nil in Heq as [_ Heq]. discriminate. Qed.

(** The table that [pd.read_csv] makes of a file. *)
Definition table_of (header : list string) (records : list (gmap string Cell))
    : DataFrame :=
  mkDF header (imap (λ i cs, mkRow (Z.of_nat i) cs) records).

Lemma load_dataset_run (p : Path) header records w :
  p ≠ [] → files w !! p = Some (FCsv header records) →
  load_dataset p w
  = (Ret (length (heap w)),
     set_heap (heap w ++ [table_of header records])
       (set_trace (trace w ++ [EvExists p; EvReadCsv p]) w)).
Proof.
  intros Hp Hfile. unfold load_dataset, pd_read_csv. run_sys.
  rewrite bool_decide_eq_true_2
    by (split; [exact Hp | right; apply elem_of_dom; eauto]).
  run_sys. rewrite Hfile. run_sys. rewrite <- app_assoc. reflexivity.
Qed.

Lemma load_dataset_Ret (p : Path) df w w1 :
  load_dataset p w = (Ret df, w1) →
  ∃ header records,
    p ≠ [] ∧ files w !! p = Some (FCsv header records).
Proof.
  unfold load_dataset, pd_read_csv. run_sys.
  case_bool_decide as Hex; run_sys; [| discriminate].
  destruct (files w !! p) as [[header records | | |] |] eqn:Hfile; run_sys;
    intros Heq; try discriminate.
  exists header, records. split; [tauto | reflexivity].
Qed.

Lemma load_dataset_keeps_setting p : keeps same_setting (load_dataset p).
Proof. unfold load_dataset, path_exists, pd_read_csv. keeps_with keeps_prim. Qed.

Lemma preprocess_data_keeps_setting df is_training :
  keeps same_setting (preprocess_data df is_training).
Proof.
  unfold preprocess_data, df_columns, df_getitem, pd_to_datetime, df_setitem,
    df_setitem_scalar, df_sort_values, df_groupby_shift, df_dropna, df_select.
  keeps_with keeps_prim.
Qed.

(** X19. The training script without its data set: when there is nothing
    at the path of the data, [main] says so and exits with status 1.  The
    path has been looked up; nothing has been read, no table and no
    regressor has been made, no file has been written. *)
Theorem main_without_dataset (w : World) :
  DATA_PATH ∉ dirs w → DATA_PATH ∉ dom (files w) →
  ∃ msg,
    main w
    = (SysExit 1,
       set_stdout
         (stdout w
          ++ [PText "--- [ML] Iniciando Pipeline de Entrenamiento de SoilNet ---" [];
              PText "[1/5] Cargando dataset desde: {}" [JStr (path_str DATA_PATH)];
              PText "Error crítico al cargar los datos: {}" [JStr msg]])
         (set_trace (trace w ++ [EvExists DATA_PATH]) w)).
Proof.
  intros Hdir Hfile. eexists. unfold main. rewrite print_bind.
  apply bind_exit.
  match goal with
  | |- try_except ?b ?h ?w1 = _ =>
      set (w2 := set_stdout
                   (stdout w1 ++ [PText "[1/5] Cargando dataset desde: {}"
                                        [JStr (path_str DATA_PATH)]]) w1);
      assert (b w1 = (Raise (FileNotFoundError "El archivo de datos no se encontró"),
                      set_trace (trace w2 ++ [EvExists DATA_PATH]) w2)) as Hbody
  end.
  { rewrite print_bind. fold w2. apply bind_raise.
    unfold load_dataset. run_sys.
    rewrite bool_decide_eq_false_2
      by (subst w2; cbn [files dirs set_stdout]; tauto).
    reflexivity. }
  rewrite (try_except_raise _ _ _ _ _ Hbody). rewrite print_bind.
  unfold sys_exit. subst w2.
  cbn [stdout trace set_stdout set_trace exn_str heap estimators
    files dirs denied clock].
  rewrite <- !app_assoc. reflexivity.
Qed.

Lemma preprocess_data_training_built df d w built w' :
  heap w !! df = Some d →
  preprocess_data df true w = (Ret built, w') →
  ∃ X y, built = Training X y.
Proof.
  intros Hdf Hrun.
  destruct (decide (convertible d)) as [Hconv | Hconv];
    [| destruct (preprocess_data_not_convertible df d true w Hdf Hconv) as [msg Hfail];
       congruence].
  destruct (decide ("node_id" ∈ columns d ∧ "createdAt" ∈ columns d))
    as [[Hnode Htime] | Hmiss];
    [| destruct (preprocess_data_training_KeyError df d w Hdf Hconv Hmiss)
         as (k & _ & _ & Hfail); congruence].
  rewrite (preprocess_data_training_run df d w Hdf Hconv Hnode Htime) in Hrun.
  apply Ret_inv in Hrun as [<- _]. eauto.
Qed.

(** X20. Errors after loading are not caught.  When the data set has no
    [node_id] column or no [createdAt] column (and its timestamps, if any,
    can be read), [main] ends with the [KeyError] of the feature builder:
    it does not exit through [sys.exit], and no file has been written. *)
Theorem main_needs_node_and_time
    (w : World) (header : list string) (records : list (gmap string Cell)) :
  files w !! DATA_PATH = Some (FCsv header records) →
  convertible (table_of header records) →
  ¬ ("node_id" ∈ header ∧ "createdAt" ∈ header) →
  ∃ k w',
    main w = (Raise (KeyError k), w')
    ∧ (k = "node_id" ∨ k = "createdAt") ∧ (k ∉ header)
    ∧ files w' = files w ∧ dirs w' = dirs w.
Proof.
  intros Hfile Hconv Hmiss.
  set (d := table_of header records) in *.
  unfold main. rewrite print_bind.
  match goal with
  | |- ∃ k w', (try_except ?b ?h ≫= ?rest) ?w1 = _ ∧ _ =>
      set (w2 := set_stdout
                   (stdout w1 ++ [PText "[1/5] Cargando dataset desde: {}"
                                        [JStr (path_str DATA_PATH)]]) w1);
      set (w3 := set_heap (heap w2 ++ [d])
                   (set_trace (trace w2 ++ [EvExists DATA_PATH; EvReadCsv DATA_PATH])
                      w2));
      set (w4 := set_stdout
                   (stdout w3 ++ [PText "-> Dataset cargado con {} registros."
                                        [JInt (Z.of_nat (length (rows d)))]]) w3);
      assert (b w1 = (Ret (length (heap w)), w4)) as Hbody
  end.
  { rewrite print_bind. fold w2.
    rewrite (bind_run _ _ _ _ _
               (load_dataset_run DATA_PATH header records w2 DATA_PATH_not_nil Hfile)).
    fold d. fold w3.
    rewrite (bind_run _ _ _ _ _ (df_len_run _ w3)).
    assert (deref w3 (length (heap w2)) = d) as ->.
    { subst w3. rewrite <- (deref_alloc w2 d) at 2. unfold deref.
      cbn [heap set_heap set_trace]. reflexivity. }
    rewrite print_bind. reflexivity. }
  rewrite (bind_run _ _ _ _ _ (try_except_run _ _ _ _ _ Hbody)).
  rewrite print_bind.
  match goal with
  | |- ∃ k w', (preprocess_data ?df true ≫= _) ?w5 = _ ∧ _ =>
      destruct (preprocess_data_training_KeyError df d w5) as (k & Hk & Hnot & Hrun)
  end.
  { subst w4 w3 w2. cbn [heap set_heap set_stdout set_trace].
    rewrite lookup_app_r by lia. rewrite Nat.sub_diag. reflexivity. }
  { exact Hconv. }
  { exact Hmiss. }
  exists k. eexists. split; [apply (bind_raise _ _ _ _ _ Hrun) |].
  split; [exact Hk |]. split; [exact Hnot |].
  split; reflexivity.
Qed.

(** The metrics that [evaluate] returns have two entries. *)
Lemma evaluate_keys self X y k w metrics w' :
  SoilHumidityRegressor_evaluate self X y k w = (Ret metrics, w') →
  ∃ mean std, metrics = [("rmse_mean", JNum mean); ("rmse_std", JNum std)].
Proof.
  unfold SoilHumidityRegressor_evaluate.
  rewrite (bind_run _ _ _ _ _ (df_len_run X w)).
  assert (∀ k0, (kf ← KFold k0 42;
                 neg_mse_scores ← cross_val_score self X y kf;
                 mret [("rmse_mean",
                        JNum (np_mean (map (λ s, sqrt (- s)%Q) neg_mse_scores)));
                       ("rmse_std",
                        JNum (np_std (map (λ s, sqrt (- s)%Q) neg_mse_scores)))])
                  w = (Ret metrics, w') →
          ∃ mean std, metrics = [("rmse_mean", JNum mean); ("rmse_std", JNum std)])
    as Hcv.
  { intros k0 Hrun.
    apply bind_Ret_inv in Hrun as (kf & w1 & _ & Hrun).
    apply bind_Ret_inv in Hrun as (scores & w2 & _ & Hrun).
    apply Ret_inv in Hrun as [<- _]. eauto. }
  destruct (Z.of_nat (length (rows (deref w X))) <? k)%Z; [| apply Hcv].
  destruct (Z.of_nat (length (rows (deref w X))) <? 2)%Z; [| apply Hcv].
  intros [<- _]%Ret_inv. eexists _, _. reflexivity.
Qed.

Lemma save_metrics_Ret (metrics : Dict) (p : Path) (w w1 : World) :
  save_metrics metrics p w = (Ret tt, w1) →
  files w1 = <[p := FJson metrics]> (files w).
Proof.
  unfold save_metrics. run_sys.
  repeat (case_bool_decide; run_sys); intros Hrun;
    try discriminate Hrun;
    apply Ret_inv in Hrun as [_ <-]; reflexivity.
Qed.

(** What the record of metrics holds when it is saved. *)
Definition metrics_record (mean std : Q) (now : string) (samples : nat) : Dict :=
  [("rmse_mean", JNum mean); ("rmse_std", JNum std);
   ("training_timestamp", JStr now);
   ("training_samples", JInt (Z.of_nat samples));
   ("model_path", JStr (path_str MODEL_PATH));
   ("data_path", JStr (path_str DATA_PATH))].

(** The tables, the regressors, the files and the clock are as they
    were. *)
Definition frame (w w1 : World) : Prop :=
  heap w1 = heap w ∧ estimators w1 = estimators w ∧ files w1 = files w
  ∧ clock w1 = clock w.

Lemma print_Ret_inv {B} (p : Printed) (k : unit → Py B) w b w' :
  (print p ≫= k) w = (Ret b, w') →
  ∃ w1, frame w w1 ∧ k tt w1 = (Ret b, w').
Proof. intros Hrun. eexists. split; [| exact Hrun]. repeat split. Qed.

Lemma load_dataset_Ret_state (p : Path) df w w1 :
  load_dataset p w = (Ret df, w1) →
  ∃ header records,
    files w !! p = Some (FCsv header records)
    ∧ df = length (heap w)
    ∧ heap w1 = heap w ++ [table_of header records]
    ∧ estimators w1 = estimators w ∧ files w1 = files w ∧ clock w1 = clock w.
Proof.
  intros Hrun.
  destruct (load_dataset_Ret _ _ _ _ Hrun) as (header & records & Hp & Hfile).
  rewrite (load_dataset_run _ header records _ Hp Hfile) in Hrun.
  apply Ret_inv in Hrun as [<- <-]. exists header, records.
  repeat split; (exact Hfile || reflexivity).
Qed.

(** What the first part of [main] has made when it returns. *)
Lemma main_training_Ret w regressor metrics w0 :
  main_training w = (Ret (regressor, metrics), w0) →
  ∃ header records mean std,
    files w !! DATA_PATH = Some (FCsv header records)
    ∧ let e := engineered (table_of header records) in
      metrics = metrics_record mean std (clock w) (length (training_y e))
      ∧ estimator_at w0 regressor
        = mkEstimator 100 10 42 (Some (rows (training_X e), training_y e))
      ∧ files w0 = files w.
Proof.
  unfold main_training. intros Hrun.
  apply print_Ret_inv in Hrun as (wa & (Hha & Hea & Hfa & Hca) & Hrun).
  apply bind_Ret_inv in Hrun as (df & wd & Hload & Hrun).
  apply try_except_Ret_inv in Hload;
    [| intros e w2; eexists _, _; reflexivity].
  apply print_Ret_inv in Hload as (wb & (Hhb & Heb & Hfb & Hcb) & Hload).
  apply bind_Ret_inv in Hload as (df0 & wc & Hload & Hlen).
  apply load_dataset_Ret_state in Hload
    as (header & records & Hfile & -> & Hhc & Hec & Hfc & Hcc).
  rewrite (bind_run _ _ _ _ _ (df_len_run _ _)) in Hlen.
  apply print_Ret_inv in Hlen as (wd' & (Hhd & Hed & Hfd & Hcd) & Hlen).
  apply Ret_inv in Hlen as [<- <-].
  set (d := table_of header records) in *.
  apply print_Ret_inv in Hrun as (we & (Hhe & Hee & Hfe & Hce) & Hrun).
  apply bind_Ret_inv in Hrun as (built & wf & Hpre & Hrun).
  assert (heap we !! length (heap wb) = Some d) as Hdf.
  { rewrite Hhe, Hhd, Hhc. rewrite lookup_app_r by lia.
    rewrite Nat.sub_diag. reflexivity. }
  destruct (preprocess_data_keeps_setting (length (heap wb)) true we)
    as (Hef & Hff & _ & Hcf).
  rewrite Hpre in Hef, Hff, Hcf. cbn [snd] in Hef, Hff, Hcf.
  destruct (preprocess_data_training_built _ _ _ _ _ Hdf Hpre) as (X & y & ->).
  destruct (training_returned _ _ _ _ _ _ Hdf Hpre)
    as (_ & _ & _ & -> & HX).
  cbv beta iota zeta in Hrun.
  rewrite (bind_run _ _ _ _ _ (df_len_run _ _)) in Hrun.
  apply print_Ret_inv in Hrun as (wg & (Hhg & Heg & Hfg & Hcg) & Hrun).
  apply print_Ret_inv in Hrun as (wh & (Hhh & Heh & Hfh & Hch) & Hrun).
  rewrite (bind_run _ _ _ _ _
             (eq_refl : SoilHumidityRegressor_init wh
                        = (Ret (length (estimators wh)),
                           set_estimators
                             (estimators wh ++ [mkEstimator 100 10 42 None]) wh)))
    in Hrun.
  apply print_Ret_inv in Hrun as (wj & (Hhj & Hej & Hfj & Hcj) & Hrun).
  cbn [heap estimators files clock set_estimators] in Hhj, Hej, Hfj, Hcj.
  apply bind_Ret_inv in Hrun as (metrics0 & wk & Hev & Hrun).
  destruct (evaluate_keeps_state (length (estimators wh)) X
              (training_y (engineered d)) 5 wj)
    as (Hhk & Hek & _ & Hfk & _ & Hck).
  rewrite Hev in Hhk, Hek, Hfk, Hck. cbn [snd] in Hhk, Hek, Hfk, Hck.
  destruct (evaluate_keys _ _ _ _ _ _ _ Hev) as (mean & std & ->).
  apply print_Ret_inv in Hrun as (wl & (Hhl & Hel & Hfl & Hcl) & Hrun).
  rewrite (bind_run _ _ _ _ _ (eq_refl : get_world wl = (Ret wl, wl))) in Hrun.
  rewrite (bind_run _ _ _ _ _ (df_len_run _ _)) in Hrun.
  apply print_Ret_inv in Hrun as (wm & (Hhm & Hem & Hfm & Hcm) & Hrun).
  apply bind_Ret_inv in Hrun as ([] & wn & Hfit & Hrun).
  apply Ret_inv in Hrun as [Hpair <-].
  apply pair_equal_spec in Hpair as [<- <-].
  unfold SoilHumidityRegressor_train in Hfit.
  apply estimator_fit_Ret in Hfit;
    [| rewrite Hem, Hel, Hek, Hej, length_app; cbn [length]; lia].
  destruct Hfit as (Hnew & _ & _ & Hfn & _).
  cbn zeta in Hnew.
  assert (∀ w', heap w' = heap wf → deref w' X = training_X (engineered d))
    as Hderef by (intros w' Hw'; rewrite <- HX; unfold deref; rewrite Hw'; reflexivity).
  assert (estimator_at wm (length (estimators wh)) = mkEstimator 100 10 42 None)
    as Hfresh.
  { unfold estimator_at. rewrite Hem, Hel, Hek, Hej.
    rewrite lookup_app_r by lia. rewrite Nat.sub_diag. reflexivity. }
  exists header, records, mean, std. split; [congruence |].
  cbn zeta. split; [| split].
  - unfold metrics_record.
    rewrite (Hderef wl) by congruence.
    replace (clock wl) with (clock w) by congruence.
    unfold training_X, training_y. cbn [rows]. rewrite !length_map.
    reflexivity.
  - rewrite Hnew, Hfresh. rewrite (Hderef wm) by congruence. reflexivity.
  - congruence.
Qed.

(** What the second part of [main] has written when it returns. *)
Lemma main_persist_Ret regressor metrics w0 w' :
  main_persist regressor metrics w0 = (Ret tt, w') →
  files w' !! MODEL_PATH = Some (FPickle (estimator_at w0 regressor))
  ∧ files w' !! METRICS_PATH = Some (FJson metrics).
Proof.
  unfold main_persist. rewrite print_bind. intros Hrun.
  apply bind_Ret_inv in Hrun as ([] & w1 & Hmodel & Hrun).
  apply bind_Ret_inv in Hrun as ([] & w2 & Hmetrics & Hrun).
  apply Ret_inv in Hrun as [_ <-].
  apply save_model_Ret in Hmodel as (_ & Hfiles1 & _).
  apply save_metrics_Ret in Hmetrics.
  cbn [files set_stdout]. rewrite Hmetrics, Hfiles1. split.
  - rewrite lookup_insert_ne by (apply not_eq_sym, MODEL_PATH_not_METRICS_PATH).
    apply lookup_insert_eq.
  - apply lookup_insert_eq.
Qed.

(** X21. What a completed training run leaves.  When [main] returns,
    there was a CSV file at the path of the data, and
    - the file at the path of the model holds a forest with the
      hyper-parameters 100, 10 and 42, fitted on the whole training set
      that the feature builder makes of the data: the table [X] and the
      targets [y];
    - the file at the path of the metrics holds six entries, in this
      order: the two cross-validation metrics, the time of the run, the
      number of rows of the training set, the path of the model and the
      path of the data. *)
Theorem main_completed (w w' : World) :
  main w = (Ret tt, w') →
  ∃ header records mean std,
    files w !! DATA_PATH = Some (FCsv header records)
    ∧ let e := engineered (table_of header records) in
      files w' !! MODEL_PATH
      = Some (FPickle (mkEstimator 100 10 42
                         (Some (rows (training_X e), training_y e))))
      ∧ files w' !! METRICS_PATH
        = Some (FJson (metrics_record mean std (clock w)
                         (length (rows (training_X e))))).
Proof.
  intros Hmain. rewrite main_decompose in Hmain.
  apply bind_Ret_inv in Hmain as ([regressor metrics] & w0 & Htrain & Hpersist).
  cbn [fst snd] in Hpersist.
  destruct (main_training_Ret _ _ _ _ Htrain)
    as (header & records & mean & std & Hfile & Hmetrics & Hmodel & _).
  destruct (main_persist_Ret _ _ _ _ Hpersist) as [Hsaved1 Hsaved2].
  exists header, records, mean, std. split; [exact Hfile |].
  cbn zeta in *. rewrite Hsaved1, Hsaved2, Hmodel, Hmetrics.
  split; [reflexivity |].
  unfold training_X, training_y. cbn [rows]. rewrite !length_map. reflexivity.
Qed.

(** X22. From training to serving.  After a training run that returned,
    the predictor finds the model where the run left it: with seven
    values that can be read, it asks the forest fitted on the training
    set of that run, on the one row of these values, and prints the first
    prediction as its answer. *)
Theorem trained_model_is_served
    (w w1 : World) (script a1 a2 a3 a4 a5 a6 a7 : string) (rest : list string)
    (q1 q2 q3 q4 : Q) (n5 n6 n7 : Z) :
  main w = (Ret tt, w1) →
  py_float a1 = Some q1 → py_float a2 = Some q2 → py_float a3 = Some q3 →
  py_float a4 = Some q4 → py_int a5 = Some n5 → py_int a6 = Some n6 →
  py_int a7 = Some n7 →
  ∃ header records,
    files w !! DATA_PATH = Some (FCsv header records)
    ∧ let e := engineered (table_of header records) in
      let forest := mkEstimator 100 10 42
                      (Some (rows (training_X e), training_y e)) in
      ∀ p ps,
        rf_predict forest
          [mkRow 0 (list_to_map (input_dict q1 q2 q3 q4 n5 n6 n7))]
        = inr (p :: ps) →
        ∃ w2,
          predict (script :: a1 :: a2 :: a3 :: a4 :: a5 :: a6 :: a7 :: rest) w1
          = (Ret tt, w2)
          ∧ stdout w2
            = stdout w1 ++ [PJson [("humidity_future_prediction", JNum p);
                                   ("status", JStr "success")]].
Proof.
  intros Hmain H1 H2 H3 H4 H5 H6 H7. rewrite main_decompose in Hmain.
  apply bind_Ret_inv in Hmain as ([regressor metrics] & w0 & Htrain & Hpersist).
  cbn [fst snd] in Hpersist.
  destruct (main_training_Ret _ _ _ _ Htrain)
    as (header & records & mean & std & Hfile & _ & Hmodel & _).
  destruct (main_persist_Ret _ _ _ _ Hpersist) as [Hsaved _].
  cbn zeta in Hmodel. rewrite Hmodel in Hsaved.
  exists header, records. split; [exact Hfile |].
  intros e forest p ps Hforest.
  destruct (answer_with_model w1 q1 q2 q3 q4 n5 n6 n7 forest p ps Hsaved)
    as (w2 & Hrun & Hout & _); [cbn [fitted_on forest]; eauto | exact Hforest |].
  exists w2. split; [| exact Hout].
  fold (arguments script a1 a2 a3 a4 a5 a6 a7 rest).
  rewrite predict_unfold by (unfold arguments; cbn [length]; lia).
  apply try_except_run.
  rewrite (read_values_run script a1 a2 a3 a4 a5 a6 a7 rest answer w1
             q1 q2 q3 q4 n5 n6 n7) by assumption.
  exact Hrun.
Qed.

(** ** server.py: how a run of the predictor ends *)

(** What a returned run of [load_model] has found. *)
Lemma load_model_Ret (p : Path) (w w1 : World) (m : nat) :
  load_model p w = (Ret m, w1) →
  ∃ e, files w !! p = Some (FPickle e)
       ∧ m = length (estimators w)
       ∧ w1 = set_estimators (estimators w ++ [e])
                (set_trace (trace w ++ [EvExists p; EvJoblibLoad p]) w).
Proof.
  unfold load_model. run_sys. case_bool_decide; run_sys; [| discriminate].
  destruct (files w !! p) as [[header records | e | d |] |]; run_sys;
    intros Heq; try discriminate.
  apply Ret_inv in Heq as [<- <-]. exists e.
  rewrite <- app_assoc. auto.
Qed.

(** What a returned run of [model.predict] has been given. *)
Lemma estimator_predict_Ret (m X : nat) (w w1 : World) (ys : list Q) :
  estimator_predict m X w = (Ret ys, w1) →
  is_Some (fitted_on (estimator_at w m))
  ∧ rf_predict (estimator_at w m) (rows (deref w X)) = inr ys
  ∧ stdout w1 = stdout w.
Proof.
  unfold estimator_predict. run_sys. fold (estimator_at w m).
  destruct (fitted_on (estimator_at w m)) as [fit |]; [| discriminate].
  destruct (rf_predict (estimator_at w m) (rows (deref w X))) as [err | ys'];
    [discriminate |].
  intros Heq. apply Ret_inv in Heq as [<- <-]. eauto.
Qed.

(** A run of [answer] that returns has found a fitted forest pickled at
    the path of the model, and the forest has answered for the row of the
    values. *)
Lemma answer_Ret_inv (q1 q2 q3 q4 : Q) (n5 n6 n7 : Z) (w w' : World) :
  answer (input_dict q1 q2 q3 q4 n5 n6 n7) w = (Ret tt, w') →
  ∃ e p ps,
    files w !! MODEL_PATH = Some (FPickle e)
    ∧ is_Some (fitted_on e)
    ∧ rf_predict e [mkRow 0 (list_to_map (input_dict q1 q2 q3 q4 n5 n6 n7))]
      = inr (p :: ps)
    ∧ stdout w' = stdout w ++ [PJson [("humidity_future_prediction", JNum p);
                                      ("status", JStr "success")]].
Proof.
  intros Hrun. rewrite answer_run in Hrun. cbn zeta in Hrun.
  set (d := input_table (input_dict q1 q2 q3 q4 n5 n6 n7)) in *.
  set (w2 := set_heap (heap w ++ [d; d]) w) in *.
  apply bind_Ret_inv in Hrun as (m & w3 & Hload & Hrun).
  apply load_model_Ret in Hload as (e & Hfile & -> & ->).
  apply bind_Ret_inv in Hrun as (ys & w4 & Hpredict & Hrun).
  apply estimator_predict_Ret in Hpredict as (Hfit & Hforest & Hout).
  assert (∀ w0, estimator_at (set_estimators (estimators w2 ++ [e]) w0)
                  (length (estimators w2)) = e) as Hnew.
  { intros w0. unfold estimator_at. cbn [estimators set_estimators].
    rewrite lookup_app_r by lia. rewrite Nat.sub_diag. reflexivity. }
  rewrite Hnew in Hfit, Hforest.
  assert (∀ es t, deref (set_estimators es (set_trace t w2)) (S (length (heap w))) = d)
    as Hrow.
  { intros es t. unfold deref. subst w2. cbn [heap set_heap set_estimators set_trace].
    rewrite lookup_app_r by lia.
    replace (S (length (heap w)) - length (heap w)) with 1 by lia.
    reflexivity. }
  rewrite Hrow in Hforest.
  destruct ys as [| p ps].
  { apply bind_Ret_inv in Hrun as (p0 & w5 & Hraise & _). discriminate. }
  exists e, p, ps. split; [exact Hfile |]. split; [exact Hfit |].
  split; [exact Hforest |].
  apply Ret_inv in Hrun as [_ <-].
  cbn [stdout set_stdout]. rewrite Hout. reflexivity.
Qed.

(** With fewer than seven values [predict] exits. *)
Lemma predict_short (argv : list string) (w : World) :
  (length argv < 8)%nat → (predict argv w).1 = SysExit 1.
Proof.
  intros Hlen. unfold predict.
  assert ((length argv <? 8)%nat = true) as -> by (apply Nat.ltb_lt; lia).
  reflexivity.
Qed.

(** A value that cannot be read: the reading stops there. *)
Lemma read_values_malformed
    (script a1 a2 a3 a4 a5 a6 a7 : string) (rest : list string)
    (k : list (string * Cell) → Py unit) (w : World) :
  py_float a1 = None ∨ py_float a2 = None ∨ py_float a3 = None
  ∨ py_float a4 = None ∨ py_int a5 = None ∨ py_int a6 = None
  ∨ py_int a7 = None →
  ∃ msg,
    read_values (arguments script a1 a2 a3 a4 a5 a6 a7 rest) k w
    = (Raise (ValueError msg), w).
Proof.
  intros Hbad. set (argv := arguments script a1 a2 a3 a4 a5 a6 a7 rest).
  unfold read_values.
  read_float w argv 1 a1. read_float w argv 2 a2.
  read_float w argv 3 a3. read_float w argv 4 a4.
  read_int w argv 5 a5. read_int w argv 6 a6.
  read_int w argv 7 a7.
  exfalso. intuition congruence.
Qed.

(** A run of [predict] that returns: there were seven values, each could
    be read, a fitted forest was pickled at the path of the model and has
    answered for the row of the values; its first prediction has been
    printed. *)
Lemma predict_Ret_inv (argv : list string) (w w' : World) :
  predict argv w = (Ret tt, w') →
  ∃ script a1 a2 a3 a4 a5 a6 a7 rest q1 q2 q3 q4 n5 n6 n7 e p ps,
    argv = script :: a1 :: a2 :: a3 :: a4 :: a5 :: a6 :: a7 :: rest
    ∧ (py_float a1 = Some q1 ∧ py_float a2 = Some q2 ∧ py_float a3 = Some q3
       ∧ py_float a4 = Some q4 ∧ py_int a5 = Some n5 ∧ py_int a6 = Some n6
       ∧ py_int a7 = Some n7)
    ∧ files w !! MODEL_PATH = Some (FPickle e)
    ∧ is_Some (fitted_on e)
    ∧ rf_predict e [mkRow 0 (list_to_map (input_dict q1 q2 q3 q4 n5 n6 n7))]
      = inr (p :: ps)
    ∧ stdout w' = stdout w ++ [PJson [("humidity_future_prediction", JNum p);
                                      ("status", JStr "success")]].
Proof.
  intros Hrun.
  destruct argv as [| script [| a1 [| a2 [| a3 [| a4 [| a5 [| a6 [| a7 rest]]]]]]]];
    try (exfalso;
         match type of Hrun with
         | predict ?l _ = _ =>
             pose proof (predict_short l w ltac:(cbn [length]; lia)) as Hshort
         end;
         rewrite Hrun in Hshort; discriminate Hshort).
  fold (arguments script a1 a2 a3 a4 a5 a6 a7 rest) in Hrun.
  rewrite predict_unfold in Hrun by (unfold arguments; cbn [length]; lia).
  apply try_except_Ret_inv in Hrun;
    [| intros e w1; eexists _, _; reflexivity].
  destruct (py_float a1) as [q1 |] eqn:H1;
    [| destruct (read_values_malformed script a1 a2 a3 a4 a5 a6 a7 rest answer w)
         as [msg Hfail]; [tauto | congruence]].
  destruct (py_float a2) as [q2 |] eqn:H2;
    [| destruct (read_values_malformed script a1 a2 a3 a4 a5 a6 a7 rest answer w)
         as [msg Hfail]; [tauto | congruence]].
  destruct (py_float a3) as [q3 |] eqn:H3;
    [| destruct (read_values_malformed script a1 a2 a3 a4 a5 a6 a7 rest answer w)
         as [msg Hfail]; [tauto | congruence]].
  destruct (py_float a4) as [q4 |] eqn:H4;
    [| destruct (read_values_malformed script a1 a2 a3 a4 a5 a6 a7 rest answer w)
         as [msg Hfail]; [tauto | congruence]].
  destruct (py_int a5) as [n5 |] eqn:H5;
    [| destruct (read_values_malformed script a1 a2 a3 a4 a5 a6 a7 rest answer w)
         as [msg Hfail]; [tauto | congruence]].
  destruct (py_int a6) as [n6 |] eqn:H6;
    [| destruct (read_values_malformed script a1 a2 a3 a4 a5 a6 a7 rest answer w)
         as [msg Hfail]; [tauto | congruence]].
  destruct (py_int a7) as [n7 |] eqn:H7;
    [| destruct (read_values_malformed script a1 a2 a3 a4 a5 a6 a7 rest answer w)
         as [msg Hfail]; [tauto | congruence]].
  rewrite (read_values_run script a1 a2 a3 a4 a5 a6 a7 rest answer w
             q1 q2 q3 q4 n5 n6 n7 H1 H2 H3 H4 H5 H6 H7) in Hrun.
  apply answer_Ret_inv in Hrun as (e & p & ps & Hfile & Hfit & Hforest & Hout).
  exists script, a1, a2, a3, a4, a5, a6, a7, rest, q1, q2, q3, q4, n5, n6, n7, e, p, ps.
  auto 10.
Qed.

(** A run of [predict] that fails: one error object has been printed and
    the process exits with status 1. *)
Definition exits_with_error (argv : list string) (w : World) : Prop :=
  ∃ d w', predict argv w = (SysExit 1, w')
          ∧ stdout w' = stdout w ++ [PJson d] ∧ error_object d.

Lemma predict_fails_unless (argv : list string) (w : World) :
  (∀ w', predict argv w ≠ (Ret tt, w')) → exits_with_error argv w.
Proof.
  intros Hne.
  destruct (predict_one_object argv w) as (d & w' & Hout & [[Hrun Hd] | [Hrun Hd]] & _).
  - exfalso. exact (Hne w' Hrun).
  - exists d, w'. auto.
Qed.

(** C7. Predictor failure semantics.  A run of [predict] returns (exit
    status 0), having printed the success object with the first
    prediction, when seven values are given and can be read, a fitted
    forest is pickled at the path of the model and the forest answers for
    the row of the values.  Every other run prints one error object and
    exits with status 1: too few values, a value that cannot be read,
    nothing or no pickled forest at the path of the model, a forest that
    has not been fitted, a forest that fails or gives no prediction.  A
    run that returns is of the first kind.  In every case exactly one
    object is written to standard output, and the exit status is 0
    exactly when it is the success object. *)
Theorem predict_failure_semantics (argv : list string) (w : World) :
  (∀ script a1 a2 a3 a4 a5 a6 a7 rest q1 q2 q3 q4 n5 n6 n7 e p ps,
     argv = script :: a1 :: a2 :: a3 :: a4 :: a5 :: a6 :: a7 :: rest →
     py_float a1 = Some q1 ∧ py_float a2 = Some q2 ∧ py_float a3 = Some q3
     ∧ py_float a4 = Some q4 ∧ py_int a5 = Some n5 ∧ py_int a6 = Some n6
     ∧ py_int a7 = Some n7 →
     files w !! MODEL_PATH = Some (FPickle e) →
     is_Some (fitted_on e) →
     rf_predict e [mkRow 0 (list_to_map (input_dict q1 q2 q3 q4 n5 n6 n7))]
     = inr (p :: ps) →
     ∃ w', predict argv w = (Ret tt, w')
           ∧ stdout w'
             = stdout w ++ [PJson [("humidity_future_prediction", JNum p);
                                   ("status", JStr "success")]])
  ∧ ((length argv < 8)%nat → exits_with_error argv w)
  ∧ (∀ script a1 a2 a3 a4 a5 a6 a7 rest,
       argv = script :: a1 :: a2 :: a3 :: a4 :: a5 :: a6 :: a7 :: rest →
       py_float a1 = None ∨ py_float a2 = None ∨ py_float a3 = None
       ∨ py_float a4 = None ∨ py_int a5 = None ∨ py_int a6 = None
       ∨ py_int a7 = None →
       exits_with_error argv w)
  ∧ ((∀ e, files w !! MODEL_PATH ≠ Some (FPickle e)) → exits_with_error argv w)
  ∧ (∀ e, files w !! MODEL_PATH = Some (FPickle e) → fitted_on e = None →
          exits_with_error argv w)
  ∧ (∀ script a1 a2 a3 a4 a5 a6 a7 rest q1 q2 q3 q4 n5 n6 n7 e,
       argv = script :: a1 :: a2 :: a3 :: a4 :: a5 :: a6 :: a7 :: rest →
       py_float a1 = Some q1 ∧ py_float a2 = Some q2 ∧ py_float a3 = Some q3
       ∧ py_float a4 = Some q4 ∧ py_int a5 = Some n5 ∧ py_int a6 = Some n6
       ∧ py_int a7 = Some n7 →
       files w !! MODEL_PATH = Some (FPickle e) →
       (∀ p ps,
          rf_predict e [mkRow 0 (list_to_map (input_dict q1 q2 q3 q4 n5 n6 n7))]
          ≠ inr (p :: ps)) →
       exits_with_error argv w)
  ∧ (∀ w', predict argv w = (Ret tt, w') →
       ∃ script a1 a2 a3 a4 a5 a6 a7 rest q1 q2 q3 q4 n5 n6 n7 e p ps,
         argv = script :: a1 :: a2 :: a3 :: a4 :: a5 :: a6 :: a7 :: rest
         ∧ (py_float a1 = Some q1 ∧ py_float a2 = Some q2 ∧ py_float a3 = Some q3
            ∧ py_float a4 = Some q4 ∧ py_int a5 = Some n5 ∧ py_int a6 = Some n6
            ∧ py_int a7 = Some n7)
         ∧ files w !! MODEL_PATH = Some (FPickle e)
         ∧ is_Some (fitted_on e)
         ∧ rf_predict e [mkRow 0 (list_to_map (input_dict q1 q2 q3 q4 n5 n6 n7))]
           = inr (p :: ps)
         ∧ stdout w'
           = stdout w ++ [PJson [("humidity_future_prediction", JNum p);
                                 ("status", JStr "success")]])
  ∧ (∃ d w', stdout w' = stdout w ++ [PJson d]
       ∧ ((predict argv w = (Ret tt, w') ∧ success_object d)
          ∨ (predict argv w = (SysExit 1, w') ∧ error_object d))
       ∧ (exit_status (predict argv w).1 = 0%Z ↔ success_object d)
       ∧ (exit_status (predict argv w).1 ≠ 0%Z ↔ error_object d)).
Proof.
  split; [| repeat split].
  - intros script a1 a2 a3 a4 a5 a6 a7 rest q1 q2 q3 q4 n5 n6 n7 e p ps ->
      (H1 & H2 & H3 & H4 & H5 & H6 & H7) Hfile Hfit Hforest.
    destruct (answer_with_model w q1 q2 q3 q4 n5 n6 n7 e p ps Hfile Hfit Hforest)
      as (w' & Hrun & Hout & _).
    exists w'. split; [| exact Hout].
    fold (arguments script a1 a2 a3 a4 a5 a6 a7 rest).
    rewrite predict_unfold by (unfold arguments; cbn [length]; lia).
    apply try_except_run.
    rewrite (read_values_run script a1 a2 a3 a4 a5 a6 a7 rest answer w
               q1 q2 q3 q4 n5 n6 n7) by assumption.
    exact Hrun.
  - intros Hlen. apply predict_fails_unless. intros w' Hrun.
    pose proof (predict_short argv w Hlen) as Hshort.
    rewrite Hrun in Hshort. discriminate Hshort.
  - intros script a1 a2 a3 a4 a5 a6 a7 rest Heq Hbad.
    apply predict_fails_unless. intros w' Hrun.
    apply predict_Ret_inv in Hrun
      as (s' & b1 & b2 & b3 & b4 & b5 & b6 & b7 & r' & q1 & q2 & q3 & q4
          & n5 & n6 & n7 & e & p & ps & Heq' & Hread & _).
    rewrite Heq in Heq'. injection Heq' as <- <- <- <- <- <- <- <- <-.
    intuition congruence.
  - intros Hno. apply predict_fails_unless. intros w' Hrun.
    apply predict_Ret_inv in Hrun
      as (s' & b1 & b2 & b3 & b4 & b5 & b6 & b7 & r' & q1 & q2 & q3 & q4
          & n5 & n6 & n7 & e & p & ps & _ & _ & Hfile & _).
    exact (Hno e Hfile).
  - intros e Hfile Hnot. apply predict_fails_unless. intros w' Hrun.
    apply predict_Ret_inv in Hrun
      as (s' & b1 & b2 & b3 & b4 & b5 & b6 & b7 & r' & q1 & q2 & q3 & q4
          & n5 & n6 & n7 & e' & p & ps & _ & _ & Hfile' & [fit Hfit] & _).
    congruence.
  - intros script a1 a2 a3 a4 a5 a6 a7 rest q1 q2 q3 q4 n5 n6 n7 e Heq
      Hread Hfile Hforest.
    apply predict_fails_unless. intros w' Hrun.
    apply predict_Ret_inv in Hrun
      as (s' & b1 & b2 & b3 & b4 & b5 & b6 & b7 & r' & q1' & q2' & q3' & q4'
          & n5' & n6' & n7' & e' & p & ps & Heq' & Hread' & Hfile' & _ & Hforest'
          & _).
    rewrite Heq in Heq'. injection Heq' as <- <- <- <- <- <- <- <- <-.
    assert (e' = e) as -> by congruence.
    assert (q1' = q1 ∧ q2' = q2 ∧ q3' = q3 ∧ q4' = q4
            ∧ n5' = n5 ∧ n6' = n6 ∧ n7' = n7) as (-> & -> & -> & -> & -> & -> & ->)
      by (repeat split; intuition congruence).
    exact (Hforest p ps Hforest').
  - intros w' Hrun. exact (predict_Ret_inv argv w w' Hrun).
  - apply predict_one_object.
Qed.

End Further.

(** * The theorems at work on concrete inputs *)

#[local] Existing Instance sample_externals.

(** The table that the predictor builds from its seven values. *)
Definition predictor_row : list (string * Cell) :=
  [("humidity_percent", Num 45); ("raw_value", Num 512); ("rssi", Num (-70));
   ("voltage", Num 3); ("sampling_interval", Num 60); ("hour", Num 13);
   ("day_of_week", Num 2)].

Definition predictor_table : DataFrame :=
  mkDF (map fst predictor_row) [mkRow 0 (list_to_map predictor_row)].

(** A feature table of [n] rows, as [evaluate] receives it. *)
Definition feature_table (n : nat) : DataFrame :=
  mkDF features (map (λ i, mkRow (Z.of_nat i) (list_to_map predictor_row)) (seq 0 n)).

Definition target_series (n : nat) : Series :=
  map (λ i, (Z.of_nat i, Num 40)) (seq 0 n).

(** What the training build makes of the sample table: the readings of
    node a at times 2, 7, 9 (labels 3, 1, 4) and of node b at times 3, 5
    (labels 2, 0) give three rows; node c, with one reading, gives none. *)
Example sample_training_run :
  (preprocess_data 0 true (table_world sample_table)).1
  = Ret (Training 3 [(3, Num 20); (1, Num 50); (2, Num 10)]%Z).
Proof. vm_compute. reflexivity. Qed.


(** The three readings of node a in the sample table, by time. *)
Definition a_at_2 : Row := mkRow 3 (reading "a" 2 40).
Definition a_at_7 : Row := mkRow 1 (reading "a" 7 20).
Definition a_at_9 : Row := mkRow 4 (reading "a" 9 50).
Definition c_at_1 : Row := mkRow 5 (reading "c" 1 60).

Lemma sample_columns c :
  c ∈ ["node_id"; "createdAt"; "humidity_percent"] → c ∈ columns sample_table.
Proof.
  rewrite !elem_of_cons, elem_of_nil. intros [-> | [-> | [-> | []]]]; compute_done.
Qed.

Lemma sample_convertible : convertible sample_table.
Proof.
  intros _. unfold sample_table, sample_records. cbn [rows imap].
  repeat constructor; vm_compute; eauto.
Qed.

Lemma sample_labels : NoDup (map label (rows sample_table)).
Proof. compute_done. Qed.

Lemma target_correctness_sample :
  (filter (λ r, of_node (Str "a") r) (rows sample_table)
   ≡ₚ [a_at_2; a_at_7; a_at_9])
  ∧ (2 < 7 < 9)%Z
  ∧ ∃ X y w',
      preprocess_data 0 true (table_world sample_table) = (Ret (Training X y), w')
      ∧ map label (rows (deref w' X)) = map fst y
      ∧ (∀ v, (label a_at_2, v) ∈ y ↔ v = Num 20)
      ∧ (∀ v, (label a_at_7, v) ∈ y ↔ v = Num 50)
      ∧ (label a_at_9 ∉ map fst y)
      ∧ (∀ x, x ∈ rows (deref w' X) → label x = label a_at_2 →
              cell x "humidity_percent" = Num 40)
      ∧ (∀ x, x ∈ rows (deref w' X) → label x = label a_at_7 →
              cell x "humidity_percent" = Num 20).
Proof.
  assert (filter (λ r, of_node (Str "a") r) (rows sample_table)
          ≡ₚ [a_at_2; a_at_7; a_at_9]) as Hperm.
  { replace (filter (λ r, of_node (Str "a") r) (rows sample_table))
      with [a_at_7; a_at_2; a_at_9] by (vm_compute; reflexivity).
    apply perm_swap. }
  split; [exact Hperm |]. split; [lia |].
  apply (target_correctness 0 sample_table (table_world sample_table) (Str "a")
           a_at_2 a_at_7 a_at_9 2 7 9 40 20 50);
    first [ reflexivity | lia | exact Hperm | exact sample_convertible
          | exact sample_labels | apply sample_columns; compute_done ].
Defined.

Lemma single_reading_node_exclusion_sample :
  filter (λ r, of_node (Str "c") r) (rows sample_table) = [c_at_1]
  ∧ ∃ X y w',
      preprocess_data 0 true (table_world sample_table) = (Ret (Training X y), w')
      ∧ (label c_at_1 ∉ map label (rows (deref w' X)))
      ∧ (label c_at_1 ∉ map fst y)
      ∧ length (rows (deref w' X)) = length y.
Proof.
  assert (filter (λ r, of_node (Str "c") r) (rows sample_table) = [c_at_1])
    as Hone by (vm_compute; reflexivity).
  split; [exact Hone |].
  apply (single_reading_node_exclusion 0 sample_table (table_world sample_table)
           (Str "c") c_at_1);
    first [ reflexivity | exact Hone | exact sample_convertible
          | exact sample_labels | apply sample_columns; compute_done ].
Defined.

(** Ten folds asked for on four rows, with a forest that refuses an empty
    training set: four folds are made, each row is held out once and the
    forest is fitted on the other three. *)
Lemma evaluate_fold_clamping_sample :
  (2 ≤ Z.min 10 (Z.of_nat (length (rows (feature_table 4)))))%Z
  ∧ (∀ a b c, ∃ e, fold_neg_mse default_estimator [] a b c = inl e)
  ∧ (∀ splits,
       kfold_split (mkKFold 4 42) 4 (table_world (feature_table 4))
       = (Ret splits, table_world (feature_table 4)) →
       Forall (scores_split default_estimator (feature_table 4) (target_series 4))
              splits)
  ∧ ∃ splits metrics,
      length splits = 4%nat
      ∧ SoilHumidityRegressor_evaluate 0 0 (target_series 4) 10
          (table_world (feature_table 4))
        = (Ret metrics,
           set_trace (map fold_event splits) (table_world (feature_table 4))).
Proof.
  assert (∀ splits,
            kfold_split (mkKFold 4 42) 4 (table_world (feature_table 4))
            = (Ret splits, table_world (feature_table 4)) →
            Forall (scores_split default_estimator (feature_table 4)
                      (target_series 4)) splits) as Hcap.
  { intros splits Hsplit. vm_compute in Hsplit.
    apply Ret_inv in Hsplit as [<- _].
    repeat constructor; eexists; vm_compute; reflexivity. }
  split; [vm_compute; discriminate |].
  split; [intros a b c; eexists; reflexivity |].
  split; [exact Hcap |].
  destruct (evaluate_fold_clamping 0 0 (target_series 4) 10
              (table_world (feature_table 4)))
    as (splits & metrics & _ & Hlen & Hrun).
  - vm_compute. discriminate.
  - exact Hcap.
  - exists splits, metrics. split; [exact Hlen | exact Hrun].
Defined.

Example evaluate_fold_clamping_trace :
  trace (SoilHumidityRegressor_evaluate 0 0 (target_series 4) 10
           (table_world (feature_table 4))).2
  = [EvCrossValFold [1; 2; 3] [0]; EvCrossValFold [0; 2; 3] [1];
     EvCrossValFold [0; 1; 3] [2]; EvCrossValFold [0; 1; 2] [3]]%nat.
Proof. vm_compute. reflexivity. Qed.

(** One row and the default five folds: the zero metrics. *)
Lemma evaluate_degenerate_metrics_sample :
  (Z.of_nat (length (rows (feature_table 1))) < 5)%Z
  ∧ (Z.of_nat (length (rows (feature_table 1))) < 2)%Z
  ∧ SoilHumidityRegressor_evaluate 0 0 (target_series 1) 5
      (table_world (feature_table 1))
    = (Ret degenerate_metrics, table_world (feature_table 1)).
Proof.
  split; [reflexivity |]. split; [reflexivity |].
  apply (evaluate_degenerate_metrics 0 0 (target_series 1) 5
           (table_world (feature_table 1))); reflexivity.
Defined.

(** One fold asked for on four rows: the clamped fold count is 1, yet
    [KFold] is built with [n_splits=1] and raises. *)
Lemma evaluate_one_fold_raises :
  (Z.min 1 (Z.of_nat (length (rows (feature_table 4)))) < 2)%Z
  ∧ SoilHumidityRegressor_evaluate 0 0 (target_series 4) 1
      (table_world (feature_table 4))
    = (Raise (ValueError "k-fold cross-validation requires at least one train/test split by setting n_splits=2 or more"),
       table_world (feature_table 4))
  ∧ SoilHumidityRegressor_evaluate 0 0 (target_series 4) 1
      (table_world (feature_table 4))
    ≠ (Ret degenerate_metrics, table_world (feature_table 4)).
Proof.
  split; [reflexivity |].
  assert (SoilHumidityRegressor_evaluate 0 0 (target_series 4) 1
            (table_world (feature_table 4))
          = (Raise (ValueError "k-fold cross-validation requires at least one train/test split by setting n_splits=2 or more"),
             table_world (feature_table 4))) as Hrun by reflexivity.
  split; [exact Hrun |]. rewrite Hrun. discriminate.
Qed.

(** The same with one row. *)
Example evaluate_one_fold_one_row :
  (SoilHumidityRegressor_evaluate 0 0 (target_series 1) 1
     (table_world (feature_table 1))).1
  = Raise (ValueError "k-fold cross-validation requires at least one train/test split by setting n_splits=2 or more").
Proof. reflexivity. Qed.

(** Six values where seven are needed. *)
Lemma predict_argument_validation_sample :
  (length ["45"; "512"; "-70"; "3"; "60"; "13"] < 7)%nat
  ∧ predict ["server.py"; "45"; "512"; "-70"; "3"; "60"; "13"] empty_world
    = (SysExit 1, set_stdout [PJson too_few_arguments] empty_world).
Proof.
  split; [simpl; lia |].
  apply (predict_argument_validation "server.py"
           ["45"; "512"; "-70"; "3"; "60"; "13"] empty_world).
  simpl. lia.
Defined.

(** A run of the predictor with its seven values and a saved model, and a
    run without a saved model. *)
Definition model_world : World :=
  set_dirs {[ ["srv"; "ml"]; ["srv"; "ml"; "models"] ]}
    (set_files {[ ["srv"; "ml"; "models"; "humidity_regressor.pkl"]
                  := FPickle (mkEstimator 100 10 42 (Some ([], []))) ]}
       empty_world).

Example predict_success :
  let run := predict ["server.py"; "45"; "512"; "-70"; "3"; "60"; "13"; "2"]
                     model_world in
  run.1 = Ret tt
  ∧ stdout run.2 = [PJson [("humidity_future_prediction", JNum 50);
                           ("status", JStr "success")]].
Proof. vm_compute. split; reflexivity. Qed.

Example predict_missing_model :
  let run := predict ["server.py"; "45"; "512"; "-70"; "3"; "60"; "13"; "2"]
                     empty_world in
  run.1 = SysExit 1
  ∧ stdout run.2 = [PJson [("error", JStr "No se encontró el modelo");
                           ("status", JStr "failed")]].
Proof. vm_compute. split; reflexivity. Qed.

Example predict_malformed_number :
  let run := predict ["server.py"; "45"; "512"; "-70"; "3"; "sixty"; "13"; "2"]
                     model_world in
  run.1 = SysExit 1
  ∧ stdout run.2 = [PJson [("error", JStr "invalid literal for int() with base 10");
                           ("status", JStr "failed")]].
Proof. vm_compute. split; reflexivity. Qed.

(** The table of the predictor has neither [node_id] nor [createdAt]:
    inference mode returns, training mode raises [KeyError]. *)
Lemma predictor_table_convertible : convertible predictor_table.
Proof. intros Hin. exfalso. revert Hin. compute_done. Qed.

Lemma feature_builder_totality_sample :
  heap (table_world predictor_table) !! 0%nat = Some predictor_table
  ∧ (∃ X w', preprocess_data 0 false (table_world predictor_table)
             = (Ret (Inference X), w')
             ∧ columns (deref w' X) = features
             ∧ length (rows (deref w' X)) = length (rows predictor_table)
             ∧ zero_filled predictor_table (deref w' X))
  ∧ (∃ k w', preprocess_data 0 true (table_world predictor_table)
             = (Raise (KeyError k), w')
             ∧ (k = "node_id" ∨ k = "createdAt") ∧ k ∉ columns predictor_table).
Proof.
  split; [reflexivity |].
  destruct (feature_builder_totality 0 predictor_table
              (table_world predictor_table) eq_refl)
    as (_ & Hinference & _ & Htraining & _).
  split.
  - apply Hinference, predictor_table_convertible.
  - apply Htraining; [exact predictor_table_convertible |].
    intros [Hnode _]. revert Hnode. compute_done.
Defined.

Lemma training_build_fails_without_node_id :
  preprocess_data 0 true (table_world predictor_table)
  = (Raise (KeyError "node_id"), table_world predictor_table).
Proof. vm_compute. reflexivity. Qed.

(** The sample table lacks [hour] and [day_of_week] and has [createdAt]: the
    caller finds it changed.  The table of the predictor has all seven
    features and no [createdAt]: the caller finds it as it was. *)
Lemma preprocess_data_mutates_argument_sample :
  heap (table_world sample_table) !! 0%nat = Some sample_table
  ∧ convertible sample_table
  ∧ deref (preprocess_data 0 false (table_world sample_table)).2 0 ≠ sample_table.
Proof.
  split; [reflexivity |]. split; [exact sample_convertible |].
  destruct (preprocess_data_mutates_argument 0 sample_table false
              (table_world sample_table) eq_refl) as [Hchanged _].
  destruct (Hchanged sample_convertible) as (_ & _ & _ & Hdiffers & _).
  apply Hdiffers. exists "hour". split; compute_done.
Defined.

Lemma predictor_table_left_unchanged :
  deref (preprocess_data 0 false (table_world predictor_table)).2 0
  = predictor_table.
Proof. vm_compute. reflexivity. Qed.

(** A run of [main] on the sample readings, and the same run when the model
    file cannot be written. *)
Definition sample_world : World :=
  set_dirs {[ ["srv"; "ml"]; ["srv"; "ml"; "in"] ]}
    (set_files {[ ["srv"; "ml"; "in"; "soil_readings.csv"]
                  := FCsv sample_header sample_records ]}
       empty_world).

Definition sample_world_model_denied : World :=
  mkWorld (heap sample_world) (estimators sample_world) (stdout sample_world)
          (files sample_world) (dirs sample_world)
          {[ ["srv"; "ml"; "models"; "humidity_regressor.pkl"] ]}
          (clock sample_world) (trace sample_world).

Definition sample_metrics : Dict :=
  [("rmse_mean", JNum (6 # 3)); ("rmse_std", JNum 0);
   ("training_timestamp", JStr "2024-01-01T00:00:00");
   ("training_samples", JInt 3);
   ("model_path", JStr "srv/ml/models/humidity_regressor.pkl");
   ("data_path", JStr "srv/ml/in/soil_readings.csv")].

Lemma sample_main_training :
  main_training sample_world_model_denied
  = (Ret (0%nat, sample_metrics), (main_training sample_world_model_denied).2).
Proof.
  transitivity ((main_training sample_world_model_denied).1,
                (main_training sample_world_model_denied).2);
    [apply surjective_pairing |].
  apply (f_equal (λ o, (o, (main_training sample_world_model_denied).2))).
  vm_compute. reflexivity.
Qed.

Lemma persistence_in_sequence_sample :
  let w0 := (main_training sample_world_model_denied).2 in
  let w1 := set_stdout
              (stdout w0 ++ [PText "--- Guardando artefactos del entrenamiento ---" []])
              w0 in
  main_training sample_world_model_denied = (Ret (0%nat, sample_metrics), w0)
  ∧ ∀ e w2, save_model 0 MODEL_PATH w1 = (Raise e, w2) →
      main sample_world_model_denied = (Raise e, w2)
      ∧ files w2 = files w0
      ∧ ∃ evs, trace w2 = trace w0 ++ evs
               ∧ ∀ ev, ev ∈ evs →
                   ev ∈ [EvExists (dirname MODEL_PATH);
                         EvMakedirs (dirname MODEL_PATH);
                         EvJoblibDump MODEL_PATH].
Proof.
  intros w0 w1. split; [exact sample_main_training |].
  exact (proj1 (persistence_in_sequence sample_world_model_denied w0 0
                  sample_metrics sample_main_training)).
Defined.

(** The model cannot be saved: the run ends there, with a fitted model and
    a metrics record in hand, and the metrics are not saved, nor is
    anything tried to save them. *)
Lemma model_failure_prevents_metrics :
  let run := main sample_world_model_denied in
  run.1 = Raise (OSError "cannot open file for writing")
  ∧ trace run.2
    = [EvExists ["srv"; "ml"; "in"; "soil_readings.csv"];
       EvReadCsv ["srv"; "ml"; "in"; "soil_readings.csv"];
       EvCrossValFold [1; 2] [0]; EvCrossValFold [0; 2] [1];
       EvCrossValFold [0; 1] [2]; EvFit 3;
       EvExists ["srv"; "ml"; "models"]; EvMakedirs ["srv"; "ml"; "models"];
       EvJoblibDump ["srv"; "ml"; "models"; "humidity_regressor.pkl"]]%nat
  ∧ files run.2 !! METRICS_PATH = None
  ∧ (fitted_on <$> estimators run.2 !! 0%nat) ≠ Some None.
Proof. vm_compute. repeat split; (reflexivity || discriminate). Qed.

(** The same run when both files can be written. *)
Example main_sample_run :
  let run := main sample_world in
  run.1 = Ret tt
  ∧ trace run.2
    = [EvExists ["srv"; "ml"; "in"; "soil_readings.csv"];
       EvReadCsv ["srv"; "ml"; "in"; "soil_readings.csv"];
       EvCrossValFold [1; 2] [0]; EvCrossValFold [0; 2] [1];
       EvCrossValFold [0; 1] [2]; EvFit 3;
       EvExists ["srv"; "ml"; "models"]; EvMakedirs ["srv"; "ml"; "models"];
       EvJoblibDump ["srv"; "ml"; "models"; "humidity_regressor.pkl"];
       EvExists ["srv"; "ml"; "out"]; EvMakedirs ["srv"; "ml"; "out"];
       EvOpenWrite ["srv"; "ml"; "out"; "metrics.json"]]%nat
  ∧ files run.2 !! METRICS_PATH = Some (FJson sample_metrics).
Proof. vm_compute. repeat split; reflexivity. Qed.

(** ** Further properties at work *)

(** Nothing at the path of the data, nothing at the path of the model. *)
Lemma load_dataset_missing_sample :
  (DATA_PATH ∉ dirs empty_world)
  ∧ (DATA_PATH ∉ dom (files empty_world))
  ∧ ∃ msg,
      load_dataset DATA_PATH empty_world
      = (Raise (FileNotFoundError msg),
         set_trace (trace empty_world ++ [EvExists DATA_PATH]) empty_world).
Proof.
  assert (DATA_PATH ∉ dirs empty_world) as Hdir by (vm_compute; set_solver).
  assert (DATA_PATH ∉ dom (files empty_world)) as Hfile by (vm_compute; set_solver).
  split; [exact Hdir |]. split; [exact Hfile |].
  apply (load_dataset_missing DATA_PATH empty_world Hdir Hfile).
Defined.

Lemma load_model_missing_sample :
  (MODEL_PATH ∉ dirs empty_world)
  ∧ (MODEL_PATH ∉ dom (files empty_world))
  ∧ ∃ msg,
      load_model MODEL_PATH empty_world
      = (Raise (FileNotFoundError msg),
         set_trace (trace empty_world ++ [EvExists MODEL_PATH]) empty_world).
Proof.
  assert (MODEL_PATH ∉ dirs empty_world) as Hdir by (vm_compute; set_solver).
  assert (MODEL_PATH ∉ dom (files empty_world)) as Hfile by (vm_compute; set_solver).
  split; [exact Hdir |]. split; [exact Hfile |].
  apply (load_model_missing MODEL_PATH empty_world Hdir Hfile).
Defined.

(** The sample readings, read from their file. *)
Lemma load_dataset_reads_sample :
  DATA_PATH ≠ []
  ∧ files sample_world !! DATA_PATH = Some (FCsv sample_header sample_records)
  ∧ ∃ w', load_dataset DATA_PATH sample_world
          = (Ret (length (heap sample_world)), w')
          ∧ columns (deref w' (length (heap sample_world))) = sample_header
          ∧ map cells (rows (deref w' (length (heap sample_world))))
            = sample_records
          ∧ map label (rows (deref w' (length (heap sample_world))))
            = map Z.of_nat (seq 0 (length sample_records)).
Proof.
  assert (DATA_PATH ≠ []) as Hp by discriminate.
  assert (files sample_world !! DATA_PATH
          = Some (FCsv sample_header sample_records)) as Hfile
    by (vm_compute; reflexivity).
  split; [exact Hp |]. split; [exact Hfile |].
  destruct (load_dataset_reads DATA_PATH sample_header sample_records
              sample_world Hp Hfile)
    as (w' & Hrun & Hcols & Hcells & Hlabels & _).
  exists w'. auto.
Defined.

(** A world where a fitted forest is known under the address 0. *)
Definition fitted_world : World :=
  set_estimators [mkEstimator 100 10 42 (Some ([], []))] model_world.

Lemma save_model_load_model_sample :
  let w1 := (save_model 0 MODEL_PATH fitted_world).2 in
  save_model 0 MODEL_PATH fitted_world = (Ret tt, w1)
  ∧ ∃ w2, load_model MODEL_PATH w1 = (Ret (length (estimators w1)), w2)
          ∧ estimator_at w2 (length (estimators w1)) = estimator_at fitted_world 0
          ∧ files w2 = files w1
          ∧ ∀ X, (estimator_predict (length (estimators w1)) X w2).1
                 = (estimator_predict 0 X fitted_world).1.
Proof.
  intros w1.
  assert (save_model 0 MODEL_PATH fitted_world = (Ret tt, w1)) as Hsave.
  { transitivity ((save_model 0 MODEL_PATH fitted_world).1, w1);
      [apply surjective_pairing |].
    apply (f_equal (λ o, (o, w1))). vm_compute. reflexivity. }
  split; [exact Hsave |].
  apply (save_model_load_model 0 MODEL_PATH fitted_world w1 Hsave).
Defined.

(** A file name without a directory. *)
Lemma save_without_directory_sample :
  (["model.pkl"] ∉ denied empty_world)
  ∧ (["model.pkl"] ∉ dirs empty_world)
  ∧ (∃ msg,
       save_model 0 ["model.pkl"] empty_world
       = (Raise (FileNotFoundError msg),
          set_trace (trace empty_world ++ [EvExists []; EvMakedirs []])
            empty_world))
  ∧ (∃ w', save_metrics degenerate_metrics ["model.pkl"] empty_world = (Ret tt, w')
           ∧ files w' = <[["model.pkl"] := FJson degenerate_metrics]>
                          (files empty_world)
           ∧ dirs w' = dirs empty_world
           ∧ trace w' = trace empty_world ++ [EvOpenWrite ["model.pkl"]]).
Proof.
  assert (["model.pkl"] ∉ denied empty_world) as Hdenied
    by (vm_compute; set_solver).
  assert (["model.pkl"] ∉ dirs empty_world) as Hdir by (vm_compute; set_solver).
  split; [exact Hdenied |]. split; [exact Hdir |].
  apply (save_without_directory "model.pkl" 0 degenerate_metrics empty_world
           Hdenied Hdir).
Defined.

(** Feature engineering done twice on the sample table. *)
Lemma preprocess_data_twice_sample :
  heap (table_world sample_table) !! 0%nat = Some sample_table
  ∧ convertible sample_table
  ∧ (∀ first second : bool,
       let w1 := (preprocess_data 0 first (table_world sample_table)).2 in
       deref (preprocess_data 0 second w1).2 0 = deref w1 0)
  ∧ ∃ X1 w1 X2 w2,
      preprocess_data 0 false (table_world sample_table) = (Ret (Inference X1), w1)
      ∧ preprocess_data 0 false w1 = (Ret (Inference X2), w2)
      ∧ X2 ≠ X1
      ∧ deref w2 X2 = deref w1 X1
      ∧ deref w2 X1 = deref w1 X1.
Proof.
  split; [reflexivity |]. split; [exact sample_convertible |].
  apply (preprocess_data_twice 0 sample_table (table_world sample_table)
           eq_refl sample_convertible).
Defined.

(** The table of the predictor goes through the inference build as it
    is. *)
Lemma inference_keeps_readings_sample :
  heap (table_world predictor_table) !! 0%nat = Some predictor_table
  ∧ convertible predictor_table
  ∧ ∃ X w',
      preprocess_data 0 false (table_world predictor_table)
      = (Ret (Inference X), w')
      ∧ X ≠ 0%nat
      ∧ map label (rows (deref w' X)) = map label (rows predictor_table)
      ∧ ∃ x, rows (deref w' X) !! 0%nat = Some x
             ∧ cell x "humidity_percent" = Num 45
             ∧ cell x "hour" = Num 13
             ∧ cell x "node_id" = NA.
Proof.
  split; [reflexivity |]. split; [exact predictor_table_convertible |].
  destruct (inference_keeps_readings 0 predictor_table
              (table_world predictor_table) eq_refl predictor_table_convertible)
    as (X & w' & Hrun & HX & Hlabels & Hrows).
  exists X, w'. split; [exact Hrun |]. split; [exact HX |].
  split; [exact Hlabels |].
  destruct (Hrows 0%nat (mkRow 0 (list_to_map predictor_row)) eq_refl)
    as (x & Hx & _ & Hgiven & _ & Hout).
  exists x. split; [exact Hx |].
  split; [| split].
  - rewrite (Hgiven "humidity_percent"); [reflexivity | compute_done | compute_done |].
    intros [Hin _]. revert Hin. compute_done.
  - rewrite (Hgiven "hour"); [reflexivity | compute_done | compute_done |].
    intros [Hin _]. revert Hin. compute_done.
  - apply Hout. compute_done.
Defined.

Lemma sample_training_returns :
  preprocess_data 0 true (table_world sample_table)
  = (Ret (Training 3 [(3, Num 20); (1, Num 50); (2, Num 10)]%Z),
     (preprocess_data 0 true (table_world sample_table)).2).
Proof.
  transitivity ((preprocess_data 0 true (table_world sample_table)).1,
                (preprocess_data 0 true (table_world sample_table)).2);
    [apply surjective_pairing |].
  apply (f_equal (λ o, (o, (preprocess_data 0 true (table_world sample_table)).2))).
  exact sample_training_run.
Defined.

(** The targets of the sample table: each comes from two readings of one
    node. *)
Lemma target_is_next_reading_sample :
  heap (table_world sample_table) !! 0%nat = Some sample_table
  ∧ NoDup (map label (rows sample_table))
  ∧ ∀ l v, (l, v) ∈ [(3, Num 20); (1, Num 50); (2, Num 10)]%Z →
      ∃ r r', r ∈ rows sample_table ∧ r' ∈ rows sample_table
        ∧ label r = l ∧ label r' ≠ l
        ∧ same_node r' r
        ∧ not_after r r'
        ∧ v = cell r' "humidity_percent".
Proof.
  split; [reflexivity |]. split; [exact sample_labels |].
  intros l v Hin.
  destruct (target_is_next_reading 0 sample_table (table_world sample_table)
              3 _ _ eq_refl sample_labels sample_training_returns l v Hin)
    as (r & r' & Hr & Hr' & Hl & Hl' & _ & Hsame & Hafter & _ & Hv & _).
  exists r, r'. repeat (split; [assumption |]).
  apply Hv. compute_done.
Defined.

(** The training set of the sample table: three rows out of six. *)
Lemma training_set_shape_sample :
  heap (table_world sample_table) !! 0%nat = Some sample_table
  ∧ let w' := (preprocess_data 0 true (table_world sample_table)).2 in
    map label (rows (deref w' 3)) = [3; 1; 2]%Z
    ∧ (length (rows (deref w' 3)) < length (rows sample_table))%nat.
Proof.
  split; [reflexivity |]. intros w'.
  destruct (training_set_shape 0 sample_table (table_world sample_table)
              3 _ _ eq_refl sample_training_returns)
    as (Hlabels & _ & _ & _ & Hlt).
  split; [exact Hlabels |]. apply Hlt. discriminate.
Defined.

(** A new regressor and a table of four rows: training, then predicting
    on the same table. *)
Definition regressor_world : World :=
  set_estimators [mkEstimator 100 10 42 None] (table_world (feature_table 4)).

Lemma train_then_predict_sample :
  let w1 := (SoilHumidityRegressor_train 0 0 (target_series 4) regressor_world).2 in
  (0 < length (estimators regressor_world))%nat
  ∧ SoilHumidityRegressor_train 0 0 (target_series 4) regressor_world = (Ret tt, w1)
  ∧ fitted_on (estimator_at w1 0)
    = Some (rows (feature_table 4), target_series 4)
  ∧ (SoilHumidityRegressor_predict 0 0 w1).1 = Ret [50; 50; 50; 50]%Q.
Proof.
  intros w1.
  assert ((0 < length (estimators regressor_world))%nat) as Hself
    by (cbn; lia).
  assert (SoilHumidityRegressor_train 0 0 (target_series 4) regressor_world
          = (Ret tt, w1)) as Htrain.
  { transitivity
      ((SoilHumidityRegressor_train 0 0 (target_series 4) regressor_world).1, w1);
      [apply surjective_pairing |].
    apply (f_equal (λ o, (o, w1))). vm_compute. reflexivity. }
  split; [exact Hself |]. split; [exact Htrain |].
  destruct (train_then_predict 0 0 0 (target_series 4) regressor_world w1
              Hself Htrain)
    as (Hnew & _ & _ & _ & _ & _ & Hpredict).
  cbn zeta in Hnew, Hpredict.
  split; [rewrite Hnew; reflexivity |].
  rewrite Hpredict. reflexivity.
Defined.

(** One fold asked for on four rows. *)
Lemma evaluate_rejects_small_k_sample :
  (1 ≤ Z.of_nat (length (rows (deref (table_world (feature_table 4)) 0))))%Z
  ∧ (1 ≤ 1)%Z
  ∧ ∃ msg,
      SoilHumidityRegressor_evaluate 0 0 (target_series 4) 1
        (table_world (feature_table 4))
      = (Raise (ValueError msg), table_world (feature_table 4)).
Proof.
  assert ((1 ≤ Z.of_nat (length (rows (deref (table_world (feature_table 4)) 0))))%Z)
    as Hk by (vm_compute; discriminate).
  split; [exact Hk |]. split; [lia |].
  apply (evaluate_rejects_small_k 0 0 (target_series 4) 1
           (table_world (feature_table 4)) Hk).
  lia.
Defined.

(** Runs of the predictor: with a value too many, with a value that is
    not a number, without a model, with a model. *)
Lemma predict_ignores_further_arguments_sample :
  (8 ≤ length ["server.py"; "45"; "512"; "-70"; "3"; "60"; "13"; "2"; "99"])%nat
  ∧ predict ["server.py"; "45"; "512"; "-70"; "3"; "60"; "13"; "2"; "99"]
      model_world
    = predict ["server.py"; "45"; "512"; "-70"; "3"; "60"; "13"; "2"] model_world.
Proof.
  split; [cbn [length]; lia |].
  apply (predict_ignores_further_arguments
           ["server.py"; "45"; "512"; "-70"; "3"; "60"; "13"; "2"; "99"]
           model_world).
  cbn [length]. lia.
Defined.

Lemma predict_malformed_value_sample :
  py_int "sixty" = None
  ∧ ∃ msg,
      predict ["server.py"; "45"; "512"; "-70"; "3"; "sixty"; "13"; "2"]
        model_world
      = (SysExit 1,
         set_stdout (stdout model_world
                     ++ [PJson [("error", JStr msg); ("status", JStr "failed")]])
           model_world).
Proof.
  assert (py_int "sixty" = None) as Hbad by (vm_compute; reflexivity).
  split; [exact Hbad |].
  apply (predict_malformed_value "server.py" "45" "512" "-70" "3" "sixty" "13" "2"
           [] model_world).
  right. right. right. right. left. exact Hbad.
Defined.

Lemma predict_without_model_sample :
  (MODEL_PATH ∉ dirs empty_world)
  ∧ (MODEL_PATH ∉ dom (files empty_world))
  ∧ ∃ msg w',
      predict ["server.py"; "45"; "512"; "-70"; "3"; "60"; "13"; "2"] empty_world
      = (SysExit 1, w')
      ∧ stdout w' = stdout empty_world
                    ++ [PJson [("error", JStr msg); ("status", JStr "failed")]]
      ∧ trace w' = trace empty_world ++ [EvExists MODEL_PATH]
      ∧ estimators w' = estimators empty_world.
Proof.
  assert (MODEL_PATH ∉ dirs empty_world) as Hdir by (vm_compute; set_solver).
  assert (MODEL_PATH ∉ dom (files empty_world)) as Hfile by (vm_compute; set_solver).
  split; [exact Hdir |]. split; [exact Hfile |].
  apply (predict_without_model "server.py" "45" "512" "-70" "3" "60" "13" "2" []
           empty_world 45 512 (-70) 3 60 13 2);
    first [exact Hdir | exact Hfile | vm_compute; reflexivity].
Defined.

Lemma predict_with_model_sample :
  files model_world !! MODEL_PATH
  = Some (FPickle (mkEstimator 100 10 42 (Some ([], []))))
  ∧ ∃ w',
      predict ["server.py"; "45"; "512"; "-70"; "3"; "60"; "13"; "2"] model_world
      = (Ret tt, w')
      ∧ stdout w' = stdout model_world
                    ++ [PJson [("humidity_future_prediction", JNum 50);
                               ("status", JStr "success")]]
      ∧ trace w' = trace model_world
                   ++ [EvExists MODEL_PATH; EvJoblibLoad MODEL_PATH; EvPredict 1].
Proof.
  assert (files model_world !! MODEL_PATH
          = Some (FPickle (mkEstimator 100 10 42 (Some ([], []))))) as Hfile
    by (vm_compute; reflexivity).
  split; [exact Hfile |].
  apply (predict_with_model "server.py" "45" "512" "-70" "3" "60" "13" "2" []
           model_world 45 512 (-70) 3 60 13 2
           (mkEstimator 100 10 42 (Some ([], []))) 50 []);
    first [exact Hfile | cbn [fitted_on]; eauto | vm_compute; reflexivity].
Defined.

(** The predictor at work: a run that is served, and runs that fail, with
    one value only, with a value that is no number, without a model. *)
Lemma predict_failure_semantics_sample :
  (∃ w',
     predict ["server.py"; "45"; "512"; "-70"; "3"; "60"; "13"; "2"] model_world
     = (Ret tt, w')
     ∧ stdout w' = stdout model_world
                   ++ [PJson [("humidity_future_prediction", JNum 50);
                              ("status", JStr "success")]])
  ∧ exits_with_error ["server.py"; "45"] model_world
  ∧ exits_with_error ["server.py"; "45"; "512"; "-70"; "3"; "sixty"; "13"; "2"]
      model_world
  ∧ exits_with_error ["server.py"; "45"; "512"; "-70"; "3"; "60"; "13"; "2"]
      empty_world.
Proof.
  split; [| split; [| split]].
  - apply (proj1 (predict_failure_semantics
                    ["server.py"; "45"; "512"; "-70"; "3"; "60"; "13"; "2"]
                    model_world)
             "server.py" "45" "512" "-70" "3" "60" "13" "2" []
             45%Q 512%Q (-70)%Q 3%Q 60%Z 13%Z 2%Z
             (mkEstimator 100 10 42 (Some ([], []))) 50%Q []);
      first [ solve [vm_compute; reflexivity]
            | solve [repeat split; vm_compute; reflexivity]
            | solve [cbn [fitted_on]; eauto] ].
  - apply (proj1 (proj2 (predict_failure_semantics ["server.py"; "45"] model_world))).
    cbn [length]. lia.
  - apply (proj1 (proj2 (proj2 (predict_failure_semantics
                    ["server.py"; "45"; "512"; "-70"; "3"; "sixty"; "13"; "2"]
                    model_world)))
             "server.py" "45" "512" "-70" "3" "sixty" "13" "2" [] eq_refl).
    right. right. right. right. left. vm_compute. reflexivity.
  - apply (proj1 (proj2 (proj2 (proj2 (predict_failure_semantics
                    ["server.py"; "45"; "512"; "-70"; "3"; "60"; "13"; "2"]
                    empty_world))))).
    intros e. vm_compute. discriminate.
Defined.

(** Runs of the training script: the file of the readings is not a file of
    the run; without the readings; with readings that name no node; to
    the end. *)
Lemma main_writes_its_artifacts_only_sample :
  DATA_PATH ≠ MODEL_PATH
  ∧ DATA_PATH ≠ METRICS_PATH
  ∧ files (main sample_world).2 !! DATA_PATH = files sample_world !! DATA_PATH.
Proof.
  assert (DATA_PATH ≠ MODEL_PATH) as Hmodel by discriminate.
  assert (DATA_PATH ≠ METRICS_PATH) as Hmetrics by discriminate.
  split; [exact Hmodel |]. split; [exact Hmetrics |].
  apply (main_writes_its_artifacts_only DATA_PATH sample_world Hmodel Hmetrics).
Defined.

Lemma main_without_dataset_sample :
  (DATA_PATH ∉ dirs empty_world)
  ∧ (DATA_PATH ∉ dom (files empty_world))
  ∧ ∃ msg w', main empty_world = (SysExit 1, w')
              ∧ stdout w'
                = [PText "--- [ML] Iniciando Pipeline de Entrenamiento de SoilNet ---" [];
                   PText "[1/5] Cargando dataset desde: {}"
                         [JStr (path_str DATA_PATH)];
                   PText "Error crítico al cargar los datos: {}" [JStr msg]]
              ∧ files w' = files empty_world.
Proof.
  assert (DATA_PATH ∉ dirs empty_world) as Hdir by (vm_compute; set_solver).
  assert (DATA_PATH ∉ dom (files empty_world)) as Hfile by (vm_compute; set_solver).
  split; [exact Hdir |]. split; [exact Hfile |].
  destruct (main_without_dataset empty_world Hdir Hfile) as [msg Hrun].
  exists msg. eexists. split; [exact Hrun |]. split; reflexivity.
Defined.

(** Readings without the name of their node. *)
Definition anonymous_header : list string := ["createdAt"; "humidity_percent"].

Definition anonymous_records : list (gmap string Cell) :=
  [list_to_map [("createdAt", Num 5); ("humidity_percent", Num 10)];
   list_to_map [("createdAt", Num 7); ("humidity_percent", Num 20)]].

Definition anonymous_world : World :=
  set_dirs {[ ["srv"; "ml"]; ["srv"; "ml"; "in"] ]}
    (set_files {[ ["srv"; "ml"; "in"; "soil_readings.csv"]
                  := FCsv anonymous_header anonymous_records ]}
       empty_world).

Lemma main_needs_node_and_time_sample :
  files anonymous_world !! DATA_PATH
  = Some (FCsv anonymous_header anonymous_records)
  ∧ convertible (table_of anonymous_header anonymous_records)
  ∧ ¬ ("node_id" ∈ anonymous_header ∧ "createdAt" ∈ anonymous_header)
  ∧ ∃ k w', main anonymous_world = (Raise (KeyError k), w')
            ∧ (k = "node_id" ∨ k = "createdAt") ∧ (k ∉ anonymous_header)
            ∧ files w' = files anonymous_world ∧ dirs w' = dirs anonymous_world.
Proof.
  assert (files anonymous_world !! DATA_PATH
          = Some (FCsv anonymous_header anonymous_records)) as Hfile
    by (vm_compute; reflexivity).
  assert (convertible (table_of anonymous_header anonymous_records)) as Hconv.
  { intros _. unfold table_of, anonymous_records. cbn [rows imap].
    repeat constructor; vm_compute; eauto. }
  assert (¬ ("node_id" ∈ anonymous_header ∧ "createdAt" ∈ anonymous_header))
    as Hmiss by (intros [Hnode _]; revert Hnode; compute_done).
  split; [exact Hfile |]. split; [exact Hconv |]. split; [exact Hmiss |].
  apply (main_needs_node_and_time anonymous_world anonymous_header
           anonymous_records Hfile Hconv Hmiss).
Defined.

Lemma sample_main_returns :
  main sample_world = (Ret tt, (main sample_world).2).
Proof.
  transitivity ((main sample_world).1, (main sample_world).2);
    [apply surjective_pairing |].
  apply (f_equal (λ o, (o, (main sample_world).2))).
  vm_compute. reflexivity.
Defined.

Lemma main_completed_sample :
  main sample_world = (Ret tt, (main sample_world).2)
  ∧ ∃ header records mean std,
      files sample_world !! DATA_PATH = Some (FCsv header records)
      ∧ let e := engineered (table_of header records) in
        files (main sample_world).2 !! MODEL_PATH
        = Some (FPickle (mkEstimator 100 10 42
                           (Some (rows (training_X e), training_y e))))
        ∧ files (main sample_world).2 !! METRICS_PATH
          = Some (FJson (metrics_record mean std (clock sample_world)
                           (length (rows (training_X e))))).
Proof.
  split; [exact sample_main_returns |].
  apply (main_completed sample_world (main sample_world).2 sample_main_returns).
Defined.

Lemma trained_model_is_served_sample :
  main sample_world = (Ret tt, (main sample_world).2)
  ∧ ∃ w2,
      predict ["server.py"; "45"; "512"; "-70"; "3"; "60"; "13"; "2"]
        (main sample_world).2
      = (Ret tt, w2)
      ∧ stdout w2
        = stdout (main sample_world).2
          ++ [PJson [("humidity_future_prediction", JNum 50);
                     ("status", JStr "success")]].
Proof.
  split; [exact sample_main_returns |].
  destruct (trained_model_is_served sample_world (main sample_world).2
              "server.py" "45" "512" "-70" "3" "60" "13" "2" []
              45 512 (-70) 3 60 13 2 sample_main_returns)
    as (header & records & _ & Hserved);
    try (vm_compute; reflexivity).
  cbn zeta in Hserved. apply (Hserved 50%Q []). reflexivity.
Defined.
